(** * RawInputViewer: keyboard normalisation, event packing and key tables

    A shallow embedding of the keyboard core of RawInputViewer
    (src/RawInputViewer.hpp, src/RawInputViewer.cpp):

    - [RawKeyboard] and its constructors, [getLookupCode];
    - the union [PackedRawKeyboard] that stores an event in a 32-bit LPARAM;
    - [MainWindow::adjustKeyboardInput], the scan-code state machine;
    - the text helpers [splitAndTrimTrailing], [splitOnce], [toIntegralNumber]
      and the two loops of the [MainWindow] constructor that fill
      [scanCodeMapping_] and [vkeyMapping_];
    - [lookupVirtualKey] and [lookupKeyCode].

    Unsigned C++ integers are values of [Z] with the wrap-around of every
    narrowing conversion written out. *)

From Stdlib Require Import ZArith Lia Bool List Ascii String.
From stdpp Require Import base option gmap strings.

Local Open Scope Z_scope.

(** ** Fixed-width integers *)

Module Int.

Definition USHORT_MAX : Z := 0xFFFF.

(** [static_cast<unsigned short>(x)] *)
Definition to_ushort (x : Z) : Z := x mod 2 ^ 16.

(** [static_cast<uint32_t>(x)], also the storage of a 32-bit [LPARAM]. *)
Definition to_uint32 (x : Z) : Z := x mod 2 ^ 32.

(** [static_cast<int>(x)], two's complement on 32 bits. *)
Definition to_int (x : Z) : Z := (x + 2 ^ 31) mod 2 ^ 32 - 2 ^ 31.

(** A value stored into a bit-field of width 8. *)
Definition to_bits8 (x : Z) : Z := Z.land x 0xFF.

(** [LOWORD(x)] of windef.h: [(WORD)(x & 0xffff)]. *)
Definition LOWORD (x : Z) : Z := Z.land x 0xFFFF.

Definition is_ushort (x : Z) : Prop := 0 <= x < 2 ^ 16.
Definition is_byte (x : Z) : Prop := 0 <= x < 2 ^ 8.

Definition LLONG_MAX : Z := 2 ^ 63 - 1.
Definition LLONG_MIN : Z := - 2 ^ 63.

End Int.

(** ** Constants of the platform headers

    winuser.h and ntddkbd.h are not part of the repository; the values are
    the ones the Windows SDK gives these names. *)

Module Win.

Definition KEYBOARD_OVERRUN_MAKE_CODE : Z := 0xFF.

Definition RI_KEY_MAKE : Z := 0.
Definition RI_KEY_BREAK : Z := 1.
Definition RI_KEY_E0 : Z := 2.
Definition RI_KEY_E1 : Z := 4.

Definition VK_SHIFT : Z := 0x10.
Definition VK_CONTROL : Z := 0x11.
Definition VK_MENU : Z := 0x12.
Definition VK_PAUSE : Z := 0x13.
Definition VK_NUMLOCK : Z := 0x90.
Definition VK_LSHIFT : Z := 0xA0.
Definition VK_RSHIFT : Z := 0xA1.
Definition VK_LCONTROL : Z := 0xA2.
Definition VK_RCONTROL : Z := 0xA3.
Definition VK_LMENU : Z := 0xA4.
Definition VK_RMENU : Z := 0xA5.

Definition MAPVK_VK_TO_VSC_EX : Z := 4.

(** The keyboard payload of a RAWINPUT record. *)
Record RAWKEYBOARD : Type := mkRAWKEYBOARD {
  MakeCode : Z;          (* USHORT *)
  Flags : Z;             (* USHORT *)
  Reserved : Z;          (* USHORT *)
  VKey : Z;              (* USHORT *)
  Message : Z;           (* UINT *)
  ExtraInformation : Z   (* ULONG *)
}.

(** The three fields the viewer reads hold 16-bit values. *)
Definition wf (k : RAWKEYBOARD) : Prop :=
  Int.is_ushort (MakeCode k) /\ Int.is_ushort (Flags k) /\ Int.is_ushort (VKey k).

Definition set_MakeCode (v : Z) (k : RAWKEYBOARD) : RAWKEYBOARD :=
  mkRAWKEYBOARD v (Flags k) (Reserved k) (VKey k) (Message k) (ExtraInformation k).

Definition set_VKey (v : Z) (k : RAWKEYBOARD) : RAWKEYBOARD :=
  mkRAWKEYBOARD (MakeCode k) (Flags k) (Reserved k) v (Message k) (ExtraInformation k).

End Win.

Import Win.

(** ** Bit-mask enumerations (RawInputViewer.hpp, lines 105-125, 819-828) *)

Module AdjustmentFlags.

(** [enum class AdjustmentFlags : uint32_t]; a value is its underlying
    integer, since [operator|] can build values that name no enumerator. *)
Definition t : Type := Z.

Definition MakeCodeMapped : t := 0x01.      (* 0b0000'0001 *)
Definition VirtualKeyAdjusted : t := 0x02.  (* 0b0000'0010 *)
Definition ExtendedLookup : t := 0x80.      (* 0b1000'0000 *)
Definition none : t := 0.

(** [operator|] and [operator|=] *)
Definition or (lhs rhs : t) : t := Z.lor lhs rhs.

(** [operator&] *)
Definition and (lhs rhs : t) : t := Z.land lhs rhs.

(** [(a & f) != AdjustmentFlags{0}] *)
Definition has (a f : t) : bool := negb (and a f =? none).

End AdjustmentFlags.

(** ** RawKeyboard (RawInputViewer.hpp, lines 841-864) *)

Record RawKeyboard : Type := mkRawKeyboard {
  base :> RAWKEYBOARD;
  adjustments : AdjustmentFlags.t;
  isKeyDown : bool
}.

(** [explicit RawKeyboard(const RAWKEYBOARD& rawkbd)] *)
Definition RawKeyboard_of (rawkbd : RAWKEYBOARD) : RawKeyboard :=
  mkRawKeyboard rawkbd
    (if negb (Z.land (Flags rawkbd) RI_KEY_E0 =? 0)
     then AdjustmentFlags.ExtendedLookup else AdjustmentFlags.none)
    (Z.land (Flags rawkbd) RI_KEY_BREAK =? 0).

(** [RawKeyboard(const RAWKEYBOARD& rawkbd, AdjustmentFlags adjustmentFlags)]:
    delegates to the constructor above, then overwrites [adjustments]. *)
Definition RawKeyboard_with (rawkbd : RAWKEYBOARD) (adjustmentFlags : AdjustmentFlags.t)
  : RawKeyboard :=
  let r := RawKeyboard_of rawkbd in
  mkRawKeyboard (base r) adjustmentFlags (isKeyDown r).

Definition getLookupCode (r : RawKeyboard) : Z :=
  Int.to_ushort
    (Z.lor (MakeCode r)
       (if AdjustmentFlags.has (adjustments r) AdjustmentFlags.ExtendedLookup
        then 0x100 else 0)).

(** Assignments through the reference [rawKbd] in adjustKeyboardInput. *)
Definition assign_MakeCode (v : Z) (r : RawKeyboard) : RawKeyboard :=
  mkRawKeyboard (set_MakeCode v (base r)) (adjustments r) (isKeyDown r).

Definition assign_VKey (v : Z) (r : RawKeyboard) : RawKeyboard :=
  mkRawKeyboard (set_VKey v (base r)) (adjustments r) (isKeyDown r).

Definition or_assign_adjustments (f : AdjustmentFlags.t) (r : RawKeyboard) : RawKeyboard :=
  mkRawKeyboard (base r) (AdjustmentFlags.or (adjustments r) f) (isKeyDown r).

(** ** PackedRawKeyboard (RawInputViewer.hpp, lines 866-901)

    The union overlays four 8-bit bit-fields with an [LPARAM]; the
    [static_assert] fixes [LPARAM] at 32 bits.  The compiler of this Windows
    program allocates bit-fields from the least significant bit, so the union
    is represented by its 32 bits of storage: [makeCode] in bits 0-7, [flags]
    in bits 8-15, [vKey] in bits 16-23 and [adjustments] in bits 24-31. *)

Module PackedRawKeyboard.

Record PackedRawKeyboardBits : Type := mkBits {
  makeCode : Z;
  flags : Z;
  vKey : Z;
  bits_adjustments : AdjustmentFlags.t
}.

(** The storage of the union, an unsigned 32-bit pattern. *)
Definition t : Type := Z.

Definition store (b : PackedRawKeyboardBits) : t :=
  Z.lor (makeCode b)
    (Z.lor (Z.shiftl (flags b) 8)
       (Z.lor (Z.shiftl (vKey b) 16) (Z.shiftl (bits_adjustments b) 24))).

(** Member [bits]: reading the four bit-fields back. *)
Definition bits (p : t) : PackedRawKeyboardBits :=
  mkBits (Z.land p 0xFF)
         (Z.land (Z.shiftr p 8) 0xFF)
         (Z.land (Z.shiftr p 16) 0xFF)
         (Z.land (Z.shiftr p 24) 0xFF).

(** Member [lParam]: the same storage read as a signed 32-bit [LPARAM]. *)
Definition lParam (p : t) : Z := Int.to_int p.

(** [explicit PackedRawKeyboard(const RawKeyboard& rawkbd)]: every
    initialiser is narrowed to the width of its bit-field. *)
Definition of_RawKeyboard (rawkbd : RawKeyboard) : t :=
  store (mkBits (Int.to_bits8 (MakeCode rawkbd))
                (Int.to_bits8 (Flags rawkbd))
                (Int.to_bits8 (VKey rawkbd))
                (Int.to_bits8 (adjustments rawkbd))).

(** [explicit PackedRawKeyboard(LPARAM lParam)] *)
Definition of_lParam (l : Z) : t := Int.to_uint32 l.

Definition getRawKeyboard (p : t) : RawKeyboard :=
  let unpacked :=
    mkRAWKEYBOARD (Int.to_ushort (makeCode (bits p)))
                  (Int.to_ushort (flags (bits p)))
                  0
                  (Int.to_ushort (vKey (bits p)))
                  0 0 in
  RawKeyboard_with unpacked (bits_adjustments (bits p)).

End PackedRawKeyboard.

(** The two directions as the list view uses them (RawInputViewer.cpp,
    lines 699 and 229): an event is stored as [PackedRawKeyboard(rawKbd).lParam]
    and read back with [PackedRawKeyboard{item.lParam}.getRawKeyboard()]. *)
Definition pack (rawKbd : RawKeyboard) : Z :=
  PackedRawKeyboard.lParam (PackedRawKeyboard.of_RawKeyboard rawKbd).

Definition unpack (lParam : Z) : RawKeyboard :=
  PackedRawKeyboard.getRawKeyboard (PackedRawKeyboard.of_lParam lParam).

(** ** Text helpers (RawInputViewer.hpp, lines 127-138, 342-441) *)

Module Text.

(** [isspace] of the C library in the "C" locale: space and the five
    control characters from horizontal tab to carriage return. *)
Definition isspace (n : Z) : bool :=
  (n =? 32) || ((9 <=? n) && (n <=? 13)).

(** [isWhitespace<char>]: the character is widened through [unsigned char]. *)
Definition isWhitespace (ch : ascii) : bool :=
  isspace (Z.of_N (N_of_ascii ch)).

(** [std::views::split(separator)]: the pieces between the separators,
    empty ones included.  (For an empty text the range has no piece at all
    where this list has one empty piece; the filter of
    [splitAndTrimTrailing] removes it either way.) *)
Fixpoint split (separator : ascii) (text : string) : list string :=
  match text with
  | EmptyString => [EmptyString]
  | String c rest =>
      if Ascii.eqb c separator then EmptyString :: split separator rest
      else match split separator rest with
           | [] => [String c EmptyString]
           | piece :: pieces => String c piece :: pieces
           end
  end.

(** The loop that moves [end] back over trailing white space, stopping at
    [begin]. *)
Fixpoint trimTrailing (s : string) : string :=
  match s with
  | EmptyString => EmptyString
  | String c rest =>
      match trimTrailing rest with
      | EmptyString => if isWhitespace c then EmptyString else String c EmptyString
      | kept => String c kept
      end
  end.

Definition nonempty (sv : string) : bool :=
  match sv with EmptyString => false | _ => true end.

Definition splitAndTrimTrailing (text : string) (separator : ascii) : list string :=
  List.filter nonempty (List.map trimTrailing (split separator text)).

Fixpoint splitOnce (text : string) (separator : ascii) : string * string :=
  match text with
  | EmptyString => (EmptyString, EmptyString)
  | String c rest =>
      if Ascii.eqb c separator then (EmptyString, rest)
      else let '(before, after) := splitOnce rest separator in
           (String c before, after)
  end.

(** *** [strtoll] of the C library (ISO C 7.22.1.4), value only: leading
    white space, an optional sign, for base 16 an optional [0x] or [0X],
    then the longest run of digits of the base; no digit gives [0]; a value
    out of range is clamped to [LLONG_MIN] or [LLONG_MAX]. *)

Definition digit_value (c : ascii) : option Z :=
  let n := Z.of_N (N_of_ascii c) in
  if (48 <=? n) && (n <=? 57) then Some (n - 48)
  else if (97 <=? n) && (n <=? 122) then Some (n - 87)
  else if (65 <=? n) && (n <=? 90) then Some (n - 55)
  else None.

Fixpoint skip_space (s : string) : string :=
  match s with
  | String c rest => if isWhitespace c then skip_space rest else s
  | EmptyString => s
  end.

Definition take_sign (s : string) : bool * string :=
  match s with
  | String "-" rest => (true, rest)
  | String "+" rest => (false, rest)
  | _ => (false, s)
  end.

Definition skip_hex_prefix (base : Z) (s : string) : string :=
  if base =? 16 then
    match s with
    | String "0" (String "x" rest) => rest
    | String "0" (String "X" rest) => rest
    | _ => s
    end
  else s.

Fixpoint accumulate (base acc : Z) (s : string) : Z :=
  match s with
  | EmptyString => acc
  | String c rest =>
      match digit_value c with
      | Some d => if d <? base then accumulate base (acc * base + d) rest else acc
      | None => acc
      end
  end.

Definition clamp_llong (v : Z) : Z :=
  if v <? Int.LLONG_MIN then Int.LLONG_MIN
  else if Int.LLONG_MAX <? v then Int.LLONG_MAX
  else v.

Definition strtoll (s : string) (base : Z) : Z :=
  let '(negative, digits) := take_sign (skip_space s) in
  let magnitude := accumulate base 0 (skip_hex_prefix base digits) in
  clamp_llong (if negative then - magnitude else magnitude).

(** [toIntegralNumber<T>] copies the range into a zero-terminated buffer
    and converts the result of [strtoll] to [T]; the terminator is no
    digit, so it ends the run of digits like any other character. *)
Definition toUShort (range : string) (base : Z) : Z :=
  Int.to_ushort (strtoll range base).

Definition toInt (range : string) (base : Z) : Z :=
  Int.to_int (strtoll range base).

End Text.

(** ** The window state the keyboard core uses (RawInputViewer.cpp, lines
    1229-1231; RawInputViewer.hpp, lines 928-949) *)

Inductive ScanCodeSequence : Type := SeqNone | SeqE0 | SeqE1.

Definition ScanCodeSequence_eqb (a b : ScanCodeSequence) : bool :=
  match a, b with
  | SeqNone, SeqNone | SeqE0, SeqE0 | SeqE1, SeqE1 => true
  | _, _ => false
  end.

(** [std::wstring] as its UTF-16 code units. *)
Definition wstring : Type := list Z.

Record KeyCodes : Type := mkKeyCodes {
  keyCode : Z;      (* int *)
  sml : wstring;
  ray : wstring;
  glfw : wstring
}.

Record MainWindow : Type := mkMainWindow {
  scanCodeMapping_ : gmap Z KeyCodes;
  pendingSequence_ : ScanCodeSequence;
  vkeyMapping_ : gmap Z (wstring * wstring)
}.

Definition set_pendingSequence (s : ScanCodeSequence) (w : MainWindow) : MainWindow :=
  mkMainWindow (scanCodeMapping_ w) s (vkeyMapping_ w).

(** [std::map::emplace]: nothing is inserted when the key is already there. *)
Definition emplace {V : Type} (k : Z) (v : V) (m : gmap Z V) : gmap Z V :=
  match m !! k with
  | Some _ => m
  | None => <[k := v]> m
  end.

(** [std::map::find]: the iterator is the element it points to, [None] is
    [end()]. *)
Definition find {V : Type} (m : gmap Z V) (k : Z) : option (Z * V) :=
  (fun v => (k, v)) <$> m !! k.

(** ** The keyboard core of MainWindow

    Two services of the platform are parameters: [MapVirtualKey] of user32
    (a [UINT] for a code and a map type, [0] when there is no translation)
    and [MultiByteToWideChar] for UTF-8 (the converted code units, none when
    the conversion fails). *)

Section Core.

Variable MapVirtualKey : Z -> Z -> Z.
Variable MultiByteToWideChar : string -> wstring.

(** [toWString] asks for the length first and returns an empty string when
    it is zero, then converts. *)
Definition toWString (range : string) : wstring :=
  let wcs := MultiByteToWideChar range in
  match wcs with
  | [] => []
  | _ => wcs
  end.

(** *** adjustKeyboardInput (RawInputViewer.cpp, lines 22-112) *)

Definition isE0 (rawKbd : RawKeyboard) : bool :=
  negb (Z.land (Flags rawKbd) RI_KEY_E0 =? 0).

Definition isE1 (rawKbd : RawKeyboard) : bool :=
  negb (Z.land (Flags rawKbd) RI_KEY_E1 =? 0).

(** Lines 46-52: a missing make code is taken from the virtual key. *)
Definition mapMakeCode (rawKbd : RawKeyboard) : RawKeyboard :=
  if MakeCode rawKbd =? 0 then
    or_assign_adjustments AdjustmentFlags.MakeCodeMapped
      (assign_MakeCode
         (Int.LOWORD (MapVirtualKey (VKey rawKbd) MAPVK_VK_TO_VSC_EX)) rawKbd)
  else rawKbd.

(** Lines 59-72: make code 0x45 is Pause/Break after E1, Num Lock otherwise. *)
Definition adjustPauseNumLock (pendingSequence : ScanCodeSequence)
    (rawKbd : RawKeyboard) : RawKeyboard :=
  if MakeCode rawKbd =? 0x45 then
    if ScanCodeSequence_eqb pendingSequence SeqE1 then
      or_assign_adjustments AdjustmentFlags.VirtualKeyAdjusted
        (assign_VKey VK_PAUSE rawKbd)
    else
      or_assign_adjustments AdjustmentFlags.ExtendedLookup rawKbd
  else rawKbd.

(** Lines 75-109: the switch over [rawKbd.VKey]. *)
Definition adjustVirtualKey (rawKbd : RawKeyboard) : RawKeyboard :=
  let e0 := isE0 rawKbd in
  if VKey rawKbd =? VK_SHIFT then
    if MakeCode rawKbd =? 0x2a then
      or_assign_adjustments AdjustmentFlags.VirtualKeyAdjusted
        (assign_VKey VK_LSHIFT rawKbd)
    else if MakeCode rawKbd =? 0x36 then
      or_assign_adjustments AdjustmentFlags.VirtualKeyAdjusted
        (assign_VKey VK_RSHIFT rawKbd)
    else rawKbd
  else if VKey rawKbd =? VK_CONTROL then
    if e0 then
      or_assign_adjustments AdjustmentFlags.VirtualKeyAdjusted
        (assign_VKey VK_RCONTROL rawKbd)
    else rawKbd
  else if VKey rawKbd =? VK_MENU then
    if e0 then
      or_assign_adjustments AdjustmentFlags.VirtualKeyAdjusted
        (assign_VKey VK_RMENU rawKbd)
    else rawKbd
  else rawKbd.

(** The member function: the [bool] it returns, [rawKbd] as it leaves it
    and the window with the new [pendingSequence_]. *)
Definition adjustKeyboardInput (w : MainWindow) (rawKbd : RawKeyboard)
  : bool * RawKeyboard * MainWindow :=
  if MakeCode rawKbd =? KEYBOARD_OVERRUN_MAKE_CODE then (false, rawKbd, w)
  else if isE1 rawKbd then (false, rawKbd, set_pendingSequence SeqE1 w)
  else if isE0 rawKbd && (MakeCode rawKbd =? 0x2A) then
    (false, rawKbd, set_pendingSequence SeqE0 w)
  else
    (* std::exchange(pendingSequence_, ScanCodeSequence::None) *)
    let pendingSequence := pendingSequence_ w in
    let w := set_pendingSequence SeqNone w in
    let rawKbd := mapMakeCode rawKbd in
    if MakeCode rawKbd =? 0 then (false, rawKbd, w)
    else
      let rawKbd := adjustPauseNumLock pendingSequence rawKbd in
      let rawKbd := adjustVirtualKey rawKbd in
      (true, rawKbd, w).

(** The keyboard case of [onInput] (lines 356-365) with the adjustment
    button checked: the event that is added to the list view, if any. *)
Definition normalize (w : MainWindow) (keyboard : RAWKEYBOARD)
  : option RawKeyboard * MainWindow :=
  let '(shown, rawKbd, w') := adjustKeyboardInput w (RawKeyboard_of keyboard) in
  (if shown then Some rawKbd else None, w').

(** *** The table loops of the constructor (RawInputViewer.cpp, lines
    1303-1319) *)

Definition scanCodeEntry (mappingView : string) : Z * KeyCodes :=
  let '(scanCodeView, codeAndMoreView) := Text.splitOnce mappingView "=" in
  let '(keyCodeView, smlAndMoreView) := Text.splitOnce codeAndMoreView "," in
  let '(smlView, raylibAndMoreView) := Text.splitOnce smlAndMoreView "," in
  let '(raylibView, glfwView) := Text.splitOnce raylibAndMoreView "," in
  (Text.toUShort scanCodeView 16,
   mkKeyCodes (Text.toInt keyCodeView 10)
     (toWString smlView) (toWString raylibView) (toWString glfwView)).

Definition vkeyEntry (mappingView : string) : Z * (wstring * wstring) :=
  let '(keyView, valView) := Text.splitOnce mappingView "=" in
  let '(vkNameView, kNameView) := Text.splitOnce valView "," in
  (Text.toUShort keyView 16, (toWString vkNameView, toWString kNameView)).

(** One pass of a [for] loop over the lines, emplacing each entry. *)
Definition emplaceAll {V : Type} (entry : string -> Z * V)
    (lines : list string) (m : gmap Z V) : gmap Z V :=
  fold_left (fun m mappingView => emplace (entry mappingView).1 (entry mappingView).2 m)
    lines m.

Definition loadScanCodeMapping (scanCodeMapping : string) : gmap Z KeyCodes :=
  emplaceAll scanCodeEntry (Text.splitAndTrimTrailing scanCodeMapping "010") ∅.

Definition loadVkeyMapping (vkeyMapping : string) : gmap Z (wstring * wstring) :=
  emplaceAll vkeyEntry (Text.splitAndTrimTrailing vkeyMapping "010") ∅.

(** The window after the constructor, for the texts of the two resources. *)
Definition MainWindow_of (scanCodeMapping vkeyMapping : string) : MainWindow :=
  mkMainWindow (loadScanCodeMapping scanCodeMapping) SeqNone
    (loadVkeyMapping vkeyMapping).

(** *** The lookups (RawInputViewer.cpp, lines 161-179) *)

Definition lookupVirtualKey (w : MainWindow) (rawKbd : RawKeyboard)
  : option (Z * (wstring * wstring)) :=
  match find (vkeyMapping_ w) (VKey rawKbd) with
  | None => find (vkeyMapping_ w) 0xff
  | it => it
  end.

Definition lookupKeyCode (w : MainWindow) (rawKbd : RawKeyboard)
  : option (Z * KeyCodes) :=
  match find (scanCodeMapping_ w) (getLookupCode rawKbd) with
  | None => find (scanCodeMapping_ w) 0x000
  | it => it
  end.

End Core.



(** ** The list view and the input handler

    The list view control is a list of items, each with the index of its
    icon and its [lParam]; the toolbar's adjustment button is a flag that the
    user flips.  (RawInputViewer.cpp, lines 114-126, 282-312, 338-382 and
    688-711.) *)

Module WinUser.

Definition RI_MOUSE_RIGHT_BUTTON_UP : Z := 0x0008.

Definition CDDS_PREPAINT : Z := 0x00000001.
Definition CDDS_ITEMPREPAINT : Z := 0x00010001.
Definition CDDS_SUBITEM : Z := 0x00020000.
Definition CDRF_DODEFAULT : Z := 0x00000000.
Definition CDRF_NEWFONT : Z := 0x00000002.
Definition CDRF_NOTIFYITEMDRAW : Z := 0x00000020.
Definition CDRF_NOTIFYSUBITEMDRAW : Z := 0x00000020.

(** The body of a RAWINPUT record, by [header.dwType]. *)
Inductive RAWINPUT : Type :=
  | RIM_TYPEKEYBOARD (keyboard : RAWKEYBOARD)
  | RIM_TYPEMOUSE (usButtonFlags : Z)
  | RIM_TYPEHID.

End WinUser.

Import WinUser.

Record LVITEM : Type := mkLVITEM {
  item_iImage : Z;
  item_lParam : Z
}.

(** [ListView::insertItem]: LVM_INSERTITEM puts the item in front of index
    [position], at the end when [position] is past the last item.  The
    texts of the item are callbacks and hold no state. *)
Definition insertItem (position : nat) (rawKbd : RawKeyboard)
    (items : list LVITEM) : list LVITEM :=
  take position items
    ++ mkLVITEM (if isKeyDown rawKbd then 0 else 1) (pack rawKbd)
    :: drop position items.

(** The item that [insertItem] builds for an event. *)
Definition item_of (rawKbd : RawKeyboard) : LVITEM :=
  mkLVITEM (if isKeyDown rawKbd then 0 else 1) (pack rawKbd).

(** An item whose icon (0 for a key going down, 1 for a key going up)
    agrees with the event read back from its word. *)
Definition icon_agrees (it : LVITEM) : Prop :=
  item_iImage it = if isKeyDown (unpack (item_lParam it)) then 0 else 1.

Record Viewer : Type := mkViewer {
  window : MainWindow;
  adjustmentChecked : bool;
  listItems : list LVITEM
}.

(** [addKeyEventToListView]: the item goes to index [getItemCount()]. *)
Definition addKeyEventToListView (rawKbd : RawKeyboard) (v : Viewer) : Viewer :=
  mkViewer (window v) (adjustmentChecked v)
    (insertItem (length (listItems v)) rawKbd (listItems v)).

Definition clearListView (v : Viewer) : Viewer :=
  mkViewer (set_pendingSequence SeqNone (window v)) (adjustmentChecked v) [].

Section Input.

Variable MapVirtualKey : Z -> Z -> Z.

(** [onInput], for a record that GetRawInputData delivered. *)
Definition onInput (raw : RAWINPUT) (v : Viewer) : Viewer :=
  match raw with
  | RIM_TYPEKEYBOARD keyboard =>
      let rawKbd := RawKeyboard_of keyboard in
      if negb (adjustmentChecked v) then addKeyEventToListView rawKbd v
      else
        let '(shown, rawKbd, w) := adjustKeyboardInput MapVirtualKey (window v) rawKbd in
        let v := mkViewer w (adjustmentChecked v) (listItems v) in
        if shown then addKeyEventToListView rawKbd v else v
  | RIM_TYPEMOUSE usButtonFlags =>
      if negb (Z.land usButtonFlags RI_MOUSE_RIGHT_BUTTON_UP =? 0)
      then clearListView v else v
  | RIM_TYPEHID => v
  end.

(** A run of the message loop over the records of a session. *)
Definition onInputs (raws : list RAWINPUT) (v : Viewer) : Viewer :=
  fold_left (fun v raw => onInput raw v) raws v.

End Input.

(** [customDrawListViewItem], the stage of a sub-item: the font that is
    selected, [None] where the function answers CDRF_DODEFAULT.  The shift
    [1 << iSubItem] is defined for sub-items 0 to 30. *)
Definition customDrawSubItem (lItemlParam iSubItem : Z) : option bool :=
  let flags :=
    AdjustmentFlags.or AdjustmentFlags.MakeCodeMapped AdjustmentFlags.VirtualKeyAdjusted in
  let rawKbd := unpack lItemlParam in
  if AdjustmentFlags.has (adjustments rawKbd) flags then
    let mask :=
      if AdjustmentFlags.has (adjustments rawKbd) AdjustmentFlags.VirtualKeyAdjusted
      then 6 (* 0b0110 *) else 8 (* 0b1000 *) in
    Some (negb (Z.land (Z.shiftl 1 iSubItem) mask =? 0))
  else None.

(** The [LRESULT] of [customDrawListViewItem]; [None] leaves the message to
    DefWindowProcW. *)
Definition customDrawListViewItem (dwDrawStage lItemlParam iSubItem : Z) : option Z :=
  if dwDrawStage =? CDDS_PREPAINT then Some CDRF_NOTIFYITEMDRAW
  else if dwDrawStage =? CDDS_ITEMPREPAINT then Some CDRF_NOTIFYSUBITEMDRAW
  else if dwDrawStage =? Z.lor CDDS_ITEMPREPAINT CDDS_SUBITEM then
    match customDrawSubItem lItemlParam iSubItem with
    | Some _ => Some CDRF_NEWFONT
    | None => Some CDRF_DODEFAULT
    end
  else None.

(** ** Header user data and display formats (RawInputViewer.cpp, lines
    840-850 and 868-881)

    The header control keeps one [lParam] per column; it is the list of these
    values.  Header_GetItem and Header_SetItem fail for a column that does
    not exist: the first leaves the zero-initialised [hdi.lParam], the second
    changes nothing. *)

Module Header.

(** minwindef.h and winuser.h *)
Definition MAKELONG (a b : Z) : Z :=
  Int.to_int (Z.lor (Z.land a 0xffff) (Z.shiftl (Z.land b 0xffff) 16)).

Definition MAKELPARAM (l h : Z) : Z := MAKELONG l h.

Definition HIWORD (l : Z) : Z := Z.land (Z.shiftr l 16) 0xffff.

Definition item_lParam (column : Z) (header : list Z) : Z :=
  if 0 <=? column then default 0 (header !! Z.to_nat column) else 0.

Definition getHeaderUserData (column : Z) (header : list Z) : Z * Z :=
  (Int.LOWORD (item_lParam column header), HIWORD (item_lParam column header)).

Definition setHeaderUserData (column resourceId checkedMenuItem : Z)
    (header : list Z) : list Z :=
  if 0 <=? column
  then <[Z.to_nat column := MAKELPARAM resourceId checkedMenuItem]> header
  else header.

(** [DisplayFormat::Default] is the enumerator 0; the others are the
    identifiers of the popup menu items. *)
Definition Default : Z := 0.

Definition getDisplayFormat (column : Z) (header : list Z) : Z :=
  let '(resourceId, checkedMenuItem) := getHeaderUserData column header in
  if (resourceId =? 0) || (checkedMenuItem =? 0) then Default
  else checkedMenuItem.

End Header.

(** ** getListViewItemDisplayInfo (RawInputViewer.cpp, lines 181-280)

    What the function formats into the text buffer of the item: which value,
    with which format string.  (std::format_to_n then cuts the text to the
    size of the buffer.)  The identifiers of the popup menu items come from
    resource.h, which is not part of the sources, and are parameters. *)

Inductive IntFormat : Type :=
  | FmtHex04      (* "{:#04x}" *)
  | FmtHex05      (* "{:#05x}" *)
  | FmtNotAvailable  (* the string resource IDS_NA *)
  | FmtBin010     (* "{:#010b}" *)
  | FmtPlain.     (* "{}" *)

Inductive Cell : Type :=
  | TextCell (text : wstring)
  | IntCell (how : IntFormat) (value : Z).

Inductive DispInfo : Type :=
  | NotHandled            (* std::nullopt *)
  | DerefEnd              (* operator-> on the end iterator of a table *)
  | Shown (cell : Cell).  (* TRUE, with the text in the buffer *)

Section DisplayInfo.

Variables IDC_POPUP_DEC IDC_POPUP_HEX IDC_POPUP_BIN : Z.
Variables IDC_POPUP_SML IDC_POPUP_RAY IDC_POPUP_GLFW : Z.

Definition LVIF_TEXT : Z := 0x00000001.

(** The lambda [formatTo] for an integral value. *)
Definition formatIntegral (from format version : Z) : Cell :=
  let key := Header.MAKELONG format version in
  if key =? Header.MAKELONG IDC_POPUP_HEX 0 then IntCell FmtHex04 from
  else if key =? Header.MAKELONG IDC_POPUP_HEX 1 then IntCell FmtHex05 from
  else if key =? Header.MAKELONG IDC_POPUP_HEX 2 then IntCell FmtNotAvailable from
  else if key =? Header.MAKELONG IDC_POPUP_BIN 0 then IntCell FmtBin010 from
  else IntCell FmtPlain from.

Definition getListViewItemDisplayInfo (w : MainWindow) (header : list Z)
    (mask lParam iSubItem : Z) : DispInfo :=
  if Z.land mask LVIF_TEXT =? 0 then NotHandled
  else
    let rawKbd := unpack lParam in
    if iSubItem =? 0 then
      match lookupVirtualKey w rawKbd with
      | Some it => Shown (TextCell it.2.2)
      | None => DerefEnd
      end
    else if iSubItem =? 1 then
      match lookupVirtualKey w rawKbd with
      | Some it => Shown (TextCell it.2.1)
      | None => DerefEnd
      end
    else if iSubItem =? 2 then
      Shown (formatIntegral (VKey rawKbd) (Header.getDisplayFormat iSubItem header) 0)
    else if iSubItem =? 3 then
      Shown (formatIntegral (MakeCode rawKbd) (Header.getDisplayFormat iSubItem header) 0)
    else if iSubItem =? 4 then
      Shown (formatIntegral (Flags rawKbd) (Header.getDisplayFormat iSubItem header) 0)
    else if iSubItem =? 5 then
      let format := Header.getDisplayFormat iSubItem header in
      if format =? IDC_POPUP_SML then
        match lookupKeyCode w rawKbd with
        | Some it => Shown (TextCell (sml it.2))
        | None => DerefEnd
        end
      else if format =? IDC_POPUP_RAY then
        match lookupKeyCode w rawKbd with
        | Some it => Shown (TextCell (ray it.2))
        | None => DerefEnd
        end
      else if format =? IDC_POPUP_GLFW then
        match lookupKeyCode w rawKbd with
        | Some it => Shown (TextCell (glfw it.2))
        | None => DerefEnd
        end
      else NotHandled
    else if iSubItem =? 6 then
      match lookupKeyCode w rawKbd with
      | Some it =>
          let keyCode := keyCode it.2 in
          Shown (formatIntegral keyCode (Header.getDisplayFormat iSubItem header)
                   (if 0 <? keyCode then 1 else 2))
      | None => DerefEnd
      end
    else NotHandled.

End DisplayInfo.

(** ** The saved toolbar states (RawInputViewer.hpp, lines 830-839;
    RawInputViewer.cpp, lines 469-472 and 1296-1300) *)

Module ToolBarButtonStates.

(** [enum class ToolBarButtonStates : uint32_t] *)
Definition t : Type := Z.

Definition Adjustment : t := 0x1.  (* 0b0001 *)
Definition NoHotkeys : t := 0x2.   (* 0b0010 *)
Definition NoLegacy : t := 0x4.    (* 0b0100 *)

Definition or (lhs rhs : t) : t := Z.lor lhs rhs.
Definition and (lhs rhs : t) : t := Z.land lhs rhs.

(** [onClose]: the value written to the registry for the three buttons. *)
Definition saved (adjustment noHotkeys noLegacy : bool) : t :=
  let states := if adjustment then Adjustment else 0 in
  let states := or states (if noHotkeys then NoHotkeys else 0) in
  or states (if noLegacy then NoLegacy else 0).

(** The constructor: the three buttons as set from the value read. *)
Definition restored (states : t) : bool * bool * bool :=
  (negb (and states Adjustment =? 0),
   negb (and states NoHotkeys =? 0),
   negb (and states NoLegacy =? 0)).

End ToolBarButtonStates.

(** ** The path buffer of constructRegistryKeyPath (RawInputViewer.cpp,
    lines 1082-1098)

    The loop that asks GetModuleFileNameW for the path of the module and
    doubles the buffer while the path does not fit.  The service is a
    parameter: the number of characters it copies for a buffer size.
    [Some None] is the empty result of the function, [Some (Some (elements,
    copied))] the buffer size and the length with which the loop is left,
    [None] a loop that is still running when the fuel is used up. *)

Definition MAX_PATH : Z := 260.

Section ModulePath.

Variable GetModuleFileNameW : Z -> Z.

Fixpoint modulePathLoop (fuel : nat) (elements : Z) : option (option (Z * Z)) :=
  match fuel with
  | O => None
  | S fuel =>
      let copied := Int.to_uint32 (GetModuleFileNameW (Int.to_uint32 elements)) in
      if (copied =? 0) || (Int.USHORT_MAX <? elements) then Some None
      else if elements - 1 <=? copied then modulePathLoop fuel (elements * 2)
      else Some (Some (elements, copied))
  end.

End ModulePath.
(** ** Sample inputs

    Concrete events, texts and services on which the properties below are
    evaluated. *)

(** A released, extended key with both adjustment bits of the low nibble. *)
Definition sample_event : RawKeyboard :=
  mkRawKeyboard (mkRAWKEYBOARD 0x1D 0x03 0 0xA3 0x101 0) 0x82 false.

(** The key A going down: make code 0x1E, no flags, virtual key 0x41. *)
Definition key_A : RawKeyboard :=
  RawKeyboard_of (mkRAWKEYBOARD 0x1E 0 0 0x41 0 0).

(** A window whose tables are empty and that awaits no sequence. *)
Definition window0 : MainWindow := mkMainWindow ∅ SeqNone ∅.

(** A keyboard layout without any translation. *)
Definition no_translation : Z -> Z -> Z := fun _ _ => 0.

(** A layout that knows the right Control key: MAPVK_VK_TO_VSC_EX gives its
    scan code with the E0 prefix in the high byte. *)
Definition translate_rcontrol : Z -> Z -> Z :=
  fun uCode _ => if uCode =? VK_RCONTROL then 0xE01D else 0.

Definition overrun_with_E1 : RAWKEYBOARD := mkRAWKEYBOARD 0xFF RI_KEY_E1 0 0 0 0.
Definition pause_prefix : RAWKEYBOARD := mkRAWKEYBOARD 0x1D RI_KEY_E1 0 VK_CONTROL 0 0.
Definition numlock_down : RAWKEYBOARD := mkRAWKEYBOARD 0x45 0 0 VK_NUMLOCK 0x100 0.
Definition rcontrol_without_code : RAWKEYBOARD := mkRAWKEYBOARD 0 0 0 VK_RCONTROL 0x100 0.
Definition lshift_down : RawKeyboard := RawKeyboard_of (mkRAWKEYBOARD 0x2A 0 0 VK_SHIFT 0 0).
Definition rshift_down : RawKeyboard := RawKeyboard_of (mkRAWKEYBOARD 0x36 0 0 VK_SHIFT 0 0).
Definition rcontrol_down : RawKeyboard := RawKeyboard_of (mkRAWKEYBOARD 0x1D RI_KEY_E0 0 VK_CONTROL 0 0).
Definition ralt_down : RawKeyboard := RawKeyboard_of (mkRAWKEYBOARD 0x38 RI_KEY_E0 0 VK_MENU 0 0).
Definition lcontrol_down : RawKeyboard := RawKeyboard_of (mkRAWKEYBOARD 0x1D 0 0 VK_CONTROL 0 0).
Definition insert_down : RAWKEYBOARD := mkRAWKEYBOARD 0x52 RI_KEY_E0 0 0x2D 0x100 0.

(** A conversion for texts of 7-bit characters: one code unit each. *)
Definition ascii_units (s : string) : wstring :=
  List.map (fun c => Z.of_N (N_of_ascii c)) (list_ascii_of_string s).

Definition LF : string := String "010" EmptyString.

(** Two lines for scan code 0x1E, the second with trailing blanks. *)
Definition scan_text_twice : string :=
  ("1E=4,KEY_A,A,GLFW_A" ++ LF ++ "1E=5,KEY_B,B,GLFW_B  " ++ LF)%string.

(** Two lines for virtual key 0x41. *)
Definition vkey_text_twice : string :=
  ("41=VK_A,A" ++ LF ++ "41=VK_B,B" ++ LF)%string.

(** Tables with the rows of the unknown key: 000 and FF. *)
Definition scan_text_full : string :=
  ("000=0,KEY_UNKNOWN,NULL,UNKNOWN" ++ LF ++ "01E=4,KEY_A,A,GLFW_A" ++ LF)%string.

Definition vkey_text_full : string :=
  ("41=VK_A,A" ++ LF ++ "FF=VK_UNKNOWN,Unknown" ++ LF)%string.

Definition window_twice : MainWindow :=
  MainWindow_of ascii_units scan_text_twice vkey_text_twice.

Definition window_full : MainWindow :=
  MainWindow_of ascii_units scan_text_full vkey_text_full.

(** The key B going down: make code 0x30, virtual key 0x42. *)
Definition key_B : RawKeyboard :=
  RawKeyboard_of (mkRAWKEYBOARD 0x30 0 0 0x42 0 0).

(** The row of the unknown key, then two rows for scan code 0x1E. *)
Definition scan_text_three : string :=
  ("000=0,KEY_UNKNOWN,NULL,UNKNOWN" ++ LF ++ "1E=4,KEY_A,A,GLFW_A" ++ LF
   ++ "1E=5,KEY_B,B,GLFW_B  " ++ LF)%string.

Definition CR : string := String "013" EmptyString.

(** A text whose first line has no number for a key. *)
Definition scan_text_malformed : string :=
  ("zz=1,KEY_Z,Z,GLFW_Z" ++ LF ++ "000=0,KEY_UNKNOWN,NULL,UNKNOWN" ++ LF)%string.

(** The viewer at start-up, with the adjustment button on and off. *)
Definition viewer_on : Viewer := mkViewer window_full true [].
Definition viewer_off : Viewer := mkViewer window_full false [].

(** A viewer that has seen an E1 prefix. *)
Definition viewer_after_E1 : Viewer :=
  mkViewer (set_pendingSequence SeqE1 window_full) true [item_of key_A].

(** The Pause key as it is shown after an E1 prefix. *)
Definition pause_shown : RawKeyboard :=
  mkRawKeyboard (mkRAWKEYBOARD 0x45 0 0 VK_PAUSE 0x100 0)
    AdjustmentFlags.VirtualKeyAdjusted true.

(** A header of seven columns without user data, and sample identifiers of
    the popup menu items. *)
Definition header_plain : list Z := repeat 0 7.
Definition sample_IDC_POPUP_HEX : Z := 40002.
Definition sample_IDC_POPUP_BIN : Z := 40003.
Definition sample_IDC_POPUP_SML : Z := 40004.
Definition sample_IDC_POPUP_RAY : Z := 40005.
Definition sample_IDC_POPUP_GLFW : Z := 40006.

(** * Properties *)

(** ** Bit-level facts about the packed word *)

(** Reading bit [n] of a word built from masks, shifts and disjunctions. *)
Ltac testbits :=
  repeat first
    [ rewrite Z.land_spec | rewrite Z.lor_spec
    | rewrite Z.shiftl_spec by lia | rewrite Z.shiftr_spec by lia
    | rewrite Z.testbit_mod_pow2 by lia | rewrite Z.testbit_ones by lia ].

Ltac split_ranges :=
  repeat match goal with
    | |- context [?x <? ?y] => destruct (Z.ltb_spec x y)
    | |- context [?x <=? ?y] => destruct (Z.leb_spec x y)
    end.

Ltac close_bits :=
  simpl; rewrite ?andb_false_r, ?andb_true_r, ?orb_false_r, ?orb_false_l;
  try lia;
  first [ reflexivity
        | f_equal; lia
        | rewrite Z.testbit_neg_r by lia; reflexivity ].

Ltac bitwise :=
  apply Z.bits_inj'; intros n Hn;
  change 0xFF with (Z.ones 8); testbits; split_ranges; close_bits.

Section Bits.

Lemma mask8_mod (x : Z) : Z.land x 0xFF = x mod 2 ^ 8.
Proof. change 0xFF with (Z.ones 8). apply Z.land_ones. lia. Qed.

Lemma mask8_byte (x : Z) : Int.is_byte (Z.land x 0xFF).
Proof. rewrite mask8_mod. unfold Int.is_byte. apply Z.mod_pos_bound. lia. Qed.

Lemma mask8_id (x : Z) : Int.is_byte x -> Z.land x 0xFF = x.
Proof. intros H. rewrite mask8_mod. apply Z.mod_small. exact H. Qed.

Lemma to_ushort_byte (x : Z) : Int.is_byte x -> Int.to_ushort x = x.
Proof.
  unfold Int.is_byte, Int.to_ushort. intros H.
  apply Z.mod_small. change (2 ^ 8) with 256 in H. change (2 ^ 16) with 65536. lia.
Qed.

(** Through the signed [LPARAM] and back, the storage keeps its 32 bits. *)
Lemma of_lParam_lParam (p : Z) :
  PackedRawKeyboard.of_lParam (PackedRawKeyboard.lParam p) = p mod 2 ^ 32.
Proof.
  unfold PackedRawKeyboard.of_lParam, PackedRawKeyboard.lParam,
    Int.to_uint32, Int.to_int.
  change (2 ^ 32) with 4294967296. change (2 ^ 31) with 2147483648.
  Z.div_mod_to_equations. lia.
Qed.

Variables a b c d : Z.

Let word : Z :=
  PackedRawKeyboard.store
    (PackedRawKeyboard.mkBits (Z.land a 0xFF) (Z.land b 0xFF)
       (Z.land c 0xFF) (Z.land d 0xFF)) mod 2 ^ 32.

Lemma word_makeCode : Z.land word 0xFF = Z.land a 0xFF.
Proof. subst word. unfold PackedRawKeyboard.store. simpl. bitwise. Qed.

Lemma word_flags : Z.land (Z.shiftr word 8) 0xFF = Z.land b 0xFF.
Proof. subst word. unfold PackedRawKeyboard.store. simpl. bitwise. Qed.

Lemma word_vKey : Z.land (Z.shiftr word 16) 0xFF = Z.land c 0xFF.
Proof. subst word. unfold PackedRawKeyboard.store. simpl. bitwise. Qed.

Lemma word_adjustments : Z.land (Z.shiftr word 24) 0xFF = Z.land d 0xFF.
Proof. subst word. unfold PackedRawKeyboard.store. simpl. bitwise. Qed.

End Bits.

(** ** The event codec *)

(** What survives a trip through the list view's [lParam]: the low byte of
    each of the four fields, and [isKeyDown] computed anew from the flags. *)
Lemma unpack_pack_fields (e : RawKeyboard) :
  MakeCode (unpack (pack e)) = Z.land (MakeCode e) 0xFF /\
  Flags (unpack (pack e)) = Z.land (Flags e) 0xFF /\
  VKey (unpack (pack e)) = Z.land (VKey e) 0xFF /\
  adjustments (unpack (pack e)) = Z.land (adjustments e) 0xFF /\
  isKeyDown (unpack (pack e)) =
    (Z.land (Flags (unpack (pack e))) RI_KEY_BREAK =? 0).
Proof.
  unfold unpack, pack. rewrite of_lParam_lParam.
  unfold PackedRawKeyboard.getRawKeyboard, PackedRawKeyboard.of_RawKeyboard,
    PackedRawKeyboard.bits, Int.to_bits8, RawKeyboard_with, RawKeyboard_of.
  cbn [PackedRawKeyboard.makeCode PackedRawKeyboard.flags PackedRawKeyboard.vKey
       PackedRawKeyboard.bits_adjustments base adjustments isKeyDown
       MakeCode Flags VKey].
  rewrite word_makeCode, word_flags, word_vKey, word_adjustments.
  rewrite !to_ushort_byte by apply mask8_byte.
  repeat split; reflexivity.
Qed.

(** C1: for every event whose make code, flags, virtual key and adjustment
    flags each fit in 8 bits, unpacking the packed word gives the same four
    fields back, and [isKeyDown] of the unpacked event is
    [(Flags & RI_KEY_BREAK) == 0] computed from the flags byte. *)
Theorem C1_unpack_pack_roundtrip (e : RawKeyboard) :
  Int.is_byte (MakeCode e) ->
  Int.is_byte (Flags e) ->
  Int.is_byte (VKey e) ->
  Int.is_byte (adjustments e) ->
  MakeCode (unpack (pack e)) = MakeCode e /\
  Flags (unpack (pack e)) = Flags e /\
  VKey (unpack (pack e)) = VKey e /\
  adjustments (unpack (pack e)) = adjustments e /\
  isKeyDown (unpack (pack e)) = (Z.land (Flags e) RI_KEY_BREAK =? 0).
Proof.
  intros Hm Hf Hv Ha.
  destruct (unpack_pack_fields e) as (Em & Ef & Ev & Ea & Ek).
  rewrite Ek, Em, Ef, Ev, Ea.
  rewrite !mask8_id by assumption.
  repeat split; reflexivity.
Qed.

Lemma C1_unpack_pack_roundtrip_witness :
  Int.is_byte (MakeCode sample_event) /\
  MakeCode (unpack (pack sample_event)) = MakeCode sample_event /\
  Flags (unpack (pack sample_event)) = Flags sample_event /\
  VKey (unpack (pack sample_event)) = VKey sample_event /\
  adjustments (unpack (pack sample_event)) = adjustments sample_event /\
  isKeyDown (unpack (pack sample_event)) =
    (Z.land (Flags sample_event) RI_KEY_BREAK =? 0).
Proof.
  split; [unfold Int.is_byte; simpl; lia |].
  apply (C1_unpack_pack_roundtrip sample_event); unfold Int.is_byte; simpl; lia.
Defined.

(** The packed word of the key A is not 0x00411E: the flags byte lies
    between the make code and the virtual key. *)
Lemma C2_pack_key_A_counterexample :
  adjustments key_A = 0 /\ isKeyDown key_A = true /\ pack key_A <> 0x00411E.
Proof. repeat split. vm_compute. discriminate. Qed.

(** C2 (amended): packing make code 0x1E, flags 0, virtual key 0x41 and no
    adjustment flags gives the word 0x0041001E; the four bytes lie in the
    order make code, flags, virtual key, adjustment flags from the least
    significant byte up. *)
Theorem C2_pack_key_A :
  pack key_A = 0x0041001E /\
  PackedRawKeyboard.bits (PackedRawKeyboard.of_lParam (pack key_A)) =
    PackedRawKeyboard.mkBits 0x1E 0x00 0x41 0x00.
Proof. split; vm_compute; reflexivity. Qed.

(** ** Adjustment flags *)

Lemma has_or_same (a f : AdjustmentFlags.t) :
  f <> 0 -> AdjustmentFlags.has (AdjustmentFlags.or a f) f = true.
Proof.
  intros Hf. unfold AdjustmentFlags.has, AdjustmentFlags.and, AdjustmentFlags.or,
    AdjustmentFlags.none.
  replace (Z.land (Z.lor a f) f) with f.
  - apply negb_true_iff, Z.eqb_neq, Hf.
  - apply Z.bits_inj'. intros n _. rewrite Z.land_spec, Z.lor_spec.
    destruct (Z.testbit a n), (Z.testbit f n); reflexivity.
Qed.

Lemma has_or_keep (a f g : AdjustmentFlags.t) :
  AdjustmentFlags.has a f = true ->
  AdjustmentFlags.has (AdjustmentFlags.or a g) f = true.
Proof.
  unfold AdjustmentFlags.has, AdjustmentFlags.and, AdjustmentFlags.or,
    AdjustmentFlags.none.
  rewrite !negb_true_iff, !Z.eqb_neq, Z.land_lor_distr_l.
  intros Ha Hz. apply Z.lor_eq_0_iff in Hz. tauto.
Qed.

(** ** The scan-code state machine *)

Section Normalizer.

Variable MapVirtualKey : Z -> Z -> Z.

Lemma adjustKeyboardInput_overrun (w : MainWindow) (rawKbd : RawKeyboard) :
  MakeCode rawKbd = KEYBOARD_OVERRUN_MAKE_CODE ->
  adjustKeyboardInput MapVirtualKey w rawKbd = (false, rawKbd, w).
Proof.
  intros H. unfold adjustKeyboardInput.
  rewrite (proj2 (Z.eqb_eq _ _) H). reflexivity.
Qed.

Lemma adjustKeyboardInput_E1 (w : MainWindow) (rawKbd : RawKeyboard) :
  MakeCode rawKbd <> KEYBOARD_OVERRUN_MAKE_CODE ->
  isE1 rawKbd = true ->
  adjustKeyboardInput MapVirtualKey w rawKbd =
    (false, rawKbd, set_pendingSequence SeqE1 w).
Proof.
  intros Ho He. unfold adjustKeyboardInput.
  rewrite (proj2 (Z.eqb_neq _ _) Ho), He. reflexivity.
Qed.

(** An event that is neither an overrun nor a prefix consumes the pending
    sequence and runs through the three adjustment blocks. *)
Lemma adjustKeyboardInput_pass (w : MainWindow) (rawKbd : RawKeyboard) :
  MakeCode rawKbd <> KEYBOARD_OVERRUN_MAKE_CODE ->
  isE1 rawKbd = false ->
  isE0 rawKbd && (MakeCode rawKbd =? 0x2A) = false ->
  adjustKeyboardInput MapVirtualKey w rawKbd =
    if MakeCode (mapMakeCode MapVirtualKey rawKbd) =? 0
    then (false, mapMakeCode MapVirtualKey rawKbd, set_pendingSequence SeqNone w)
    else (true,
          adjustVirtualKey
            (adjustPauseNumLock (pendingSequence_ w)
               (mapMakeCode MapVirtualKey rawKbd)),
          set_pendingSequence SeqNone w).
Proof.
  intros Ho He1 He0. unfold adjustKeyboardInput.
  rewrite (proj2 (Z.eqb_neq _ _) Ho), He1, He0. reflexivity.
Qed.

Lemma isE1_of (k : RAWKEYBOARD) :
  isE1 (RawKeyboard_of k) = negb (Z.land (Flags k) RI_KEY_E1 =? 0).
Proof. reflexivity. Qed.

Lemma isE0_of (k : RAWKEYBOARD) :
  isE0 (RawKeyboard_of k) = negb (Z.land (Flags k) RI_KEY_E0 =? 0).
Proof. reflexivity. Qed.

(** C6: an event whose make code is the overrun marker is suppressed and
    leaves the pending sequence (and the whole window) as it was, whatever
    the state, the flags and the virtual key. *)
Theorem C6_overrun_suppressed (w : MainWindow) (keyboard : RAWKEYBOARD) :
  MakeCode keyboard = KEYBOARD_OVERRUN_MAKE_CODE ->
  normalize MapVirtualKey w keyboard = (None, w) /\
  pendingSequence_ (normalize MapVirtualKey w keyboard).2 = pendingSequence_ w.
Proof.
  intros H. unfold normalize.
  rewrite adjustKeyboardInput_overrun by exact H. split; reflexivity.
Qed.


(** *** What each block leaves alone *)

Lemma MakeCode_adjustPauseNumLock (p : ScanCodeSequence) (r : RawKeyboard) :
  MakeCode (adjustPauseNumLock p r) = MakeCode r.
Proof.
  unfold adjustPauseNumLock.
  destruct (MakeCode r =? 0x45), (ScanCodeSequence_eqb p SeqE1); reflexivity.
Qed.

Lemma Flags_adjustPauseNumLock (p : ScanCodeSequence) (r : RawKeyboard) :
  Flags (adjustPauseNumLock p r) = Flags r.
Proof.
  unfold adjustPauseNumLock.
  destruct (MakeCode r =? 0x45), (ScanCodeSequence_eqb p SeqE1); reflexivity.
Qed.

Lemma MakeCode_adjustVirtualKey (r : RawKeyboard) :
  MakeCode (adjustVirtualKey r) = MakeCode r.
Proof.
  unfold adjustVirtualKey.
  destruct (VKey r =? VK_SHIFT), (VKey r =? VK_CONTROL), (VKey r =? VK_MENU),
    (MakeCode r =? 0x2a), (MakeCode r =? 0x36), (isE0 r); reflexivity.
Qed.

Lemma Flags_adjustVirtualKey (r : RawKeyboard) :
  Flags (adjustVirtualKey r) = Flags r.
Proof.
  unfold adjustVirtualKey.
  destruct (VKey r =? VK_SHIFT), (VKey r =? VK_CONTROL), (VKey r =? VK_MENU),
    (MakeCode r =? 0x2a), (MakeCode r =? 0x36), (isE0 r); reflexivity.
Qed.

Lemma Flags_mapMakeCode (r : RawKeyboard) :
  Flags (mapMakeCode MapVirtualKey r) = Flags r.
Proof. unfold mapMakeCode. destruct (MakeCode r =? 0); reflexivity. Qed.

Lemma VKey_mapMakeCode (r : RawKeyboard) :
  VKey (mapMakeCode MapVirtualKey r) = VKey r.
Proof. unfold mapMakeCode. destruct (MakeCode r =? 0); reflexivity. Qed.

(** The adjustment flags only ever gain bits. *)
Lemma has_adjustPauseNumLock (p : ScanCodeSequence) (r : RawKeyboard)
    (f : AdjustmentFlags.t) :
  AdjustmentFlags.has (adjustments r) f = true ->
  AdjustmentFlags.has (adjustments (adjustPauseNumLock p r)) f = true.
Proof.
  intros H. unfold adjustPauseNumLock.
  destruct (MakeCode r =? 0x45), (ScanCodeSequence_eqb p SeqE1);
    cbn [adjustments or_assign_adjustments assign_VKey];
    auto using has_or_keep.
Qed.

Lemma has_adjustVirtualKey (r : RawKeyboard) (f : AdjustmentFlags.t) :
  AdjustmentFlags.has (adjustments r) f = true ->
  AdjustmentFlags.has (adjustments (adjustVirtualKey r)) f = true.
Proof.
  intros H. unfold adjustVirtualKey.
  destruct (VKey r =? VK_SHIFT), (VKey r =? VK_CONTROL), (VKey r =? VK_MENU),
    (MakeCode r =? 0x2a), (MakeCode r =? 0x36), (isE0 r);
    cbn [adjustments or_assign_adjustments assign_VKey];
    auto using has_or_keep.
Qed.

(** A shown event is the constructed one after the three blocks, and the
    pending sequence has been consumed. *)
Lemma normalize_Some (w w' : MainWindow) (keyboard : RAWKEYBOARD) (e : RawKeyboard) :
  normalize MapVirtualKey w keyboard = (Some e, w') ->
  e = adjustVirtualKey
        (adjustPauseNumLock (pendingSequence_ w)
           (mapMakeCode MapVirtualKey (RawKeyboard_of keyboard))) /\
  w' = set_pendingSequence SeqNone w /\
  MakeCode (mapMakeCode MapVirtualKey (RawKeyboard_of keyboard)) <> 0 /\
  MakeCode keyboard <> KEYBOARD_OVERRUN_MAKE_CODE /\
  Z.land (Flags keyboard) RI_KEY_E1 = 0.
Proof.
  unfold normalize, adjustKeyboardInput. rewrite isE1_of.
  destruct (Z.eqb_spec (MakeCode (RawKeyboard_of keyboard)) KEYBOARD_OVERRUN_MAKE_CODE)
    as [|Ho]; [discriminate |].
  destruct (Z.eqb_spec (Z.land (Flags keyboard) RI_KEY_E1) 0) as [He1|];
    [| discriminate].
  cbn [negb].
  destruct (isE0 (RawKeyboard_of keyboard) && (MakeCode (RawKeyboard_of keyboard) =? 0x2A));
    [discriminate |].
  destruct (Z.eqb_spec (MakeCode (mapMakeCode MapVirtualKey (RawKeyboard_of keyboard))) 0)
    as [|Hm]; [discriminate |].
  intros [= <- <-]. auto.
Qed.

(** *** Events that pass the guards *)

Lemma normalize_pass (w : MainWindow) (keyboard : RAWKEYBOARD) :
  MakeCode keyboard <> KEYBOARD_OVERRUN_MAKE_CODE ->
  Z.land (Flags keyboard) RI_KEY_E1 = 0 ->
  Z.land (Flags keyboard) RI_KEY_E0 = 0 \/ MakeCode keyboard <> 0x2A ->
  MakeCode (mapMakeCode MapVirtualKey (RawKeyboard_of keyboard)) <> 0 ->
  normalize MapVirtualKey w keyboard =
    (Some (adjustVirtualKey
             (adjustPauseNumLock (pendingSequence_ w)
                (mapMakeCode MapVirtualKey (RawKeyboard_of keyboard)))),
     set_pendingSequence SeqNone w).
Proof.
  intros Ho He1 He0 Hm. unfold normalize.
  rewrite adjustKeyboardInput_pass.
  - rewrite (proj2 (Z.eqb_neq _ _) Hm). reflexivity.
  - exact Ho.
  - rewrite isE1_of, He1. reflexivity.
  - rewrite isE0_of. destruct He0 as [-> | Hc]; [reflexivity |].
    change (MakeCode (RawKeyboard_of keyboard)) with (MakeCode keyboard).
    rewrite (proj2 (Z.eqb_neq _ _) Hc). apply andb_false_r.
Qed.

Lemma normalize_E1 (w : MainWindow) (keyboard : RAWKEYBOARD) :
  MakeCode keyboard <> KEYBOARD_OVERRUN_MAKE_CODE ->
  Z.land (Flags keyboard) RI_KEY_E1 <> 0 ->
  normalize MapVirtualKey w keyboard = (None, set_pendingSequence SeqE1 w).
Proof.
  intros Ho He1. unfold normalize.
  rewrite adjustKeyboardInput_E1; [reflexivity | exact Ho |].
  rewrite isE1_of. apply negb_true_iff, Z.eqb_neq, He1.
Qed.

(** C4 (amended): in every state, an event with the E1 flag whose make code
    is not the overrun marker is suppressed, and an event with make code
    0x45 and no prefix flag that follows it is shown with the virtual key
    VK_PAUSE and VirtualKeyAdjusted set; with no sequence pending, such an
    event is shown with ExtendedLookup set and its virtual key unchanged. *)
Theorem C4_pause_or_numlock (w : MainWindow) (first second : RAWKEYBOARD) :
  Z.land (Flags first) RI_KEY_E1 <> 0 ->
  MakeCode first <> KEYBOARD_OVERRUN_MAKE_CODE ->
  MakeCode second = 0x45 ->
  Z.land (Flags second) RI_KEY_E0 = 0 ->
  Z.land (Flags second) RI_KEY_E1 = 0 ->
  (normalize MapVirtualKey w first).1 = None /\
  (exists e,
      (normalize MapVirtualKey (normalize MapVirtualKey w first).2 second).1 = Some e /\
      VKey e = VK_PAUSE /\
      AdjustmentFlags.has (adjustments e) AdjustmentFlags.VirtualKeyAdjusted = true) /\
  (forall idle : MainWindow,
      pendingSequence_ idle = SeqNone ->
      exists e,
        (normalize MapVirtualKey idle second).1 = Some e /\
        AdjustmentFlags.has (adjustments e) AdjustmentFlags.ExtendedLookup = true /\
        VKey e = VKey second).
Proof.
  intros Hf1 Hfo Hm He0 He1.
  assert (Hmap : mapMakeCode MapVirtualKey (RawKeyboard_of second) =
                 RawKeyboard_of second).
  { unfold mapMakeCode.
    change (MakeCode (RawKeyboard_of second)) with (MakeCode second).
    rewrite Hm. reflexivity. }
  assert (Hpass : forall v : MainWindow,
             normalize MapVirtualKey v second =
               (Some (adjustVirtualKey
                        (adjustPauseNumLock (pendingSequence_ v)
                           (RawKeyboard_of second))),
                set_pendingSequence SeqNone v)).
  { intros v. rewrite <- Hmap at 1. apply normalize_pass.
    - rewrite Hm. discriminate.
    - exact He1.
    - left. exact He0.
    - rewrite Hmap. change (MakeCode (RawKeyboard_of second)) with (MakeCode second).
      rewrite Hm. discriminate. }
  rewrite normalize_E1 by assumption.
  split; [reflexivity |]. split.
  - rewrite Hpass. eexists. split; [reflexivity |].
    unfold adjustPauseNumLock.
    change (MakeCode (RawKeyboard_of second)) with (MakeCode second).
    rewrite Hm.
    change (if 0x45 =? 0x45 then _ else _) with
      (or_assign_adjustments AdjustmentFlags.VirtualKeyAdjusted
         (assign_VKey VK_PAUSE (RawKeyboard_of second))).
    split.
    + reflexivity.
    + apply has_adjustVirtualKey. cbn [adjustments or_assign_adjustments].
      apply has_or_same. discriminate.
  - intros idle Hidle. rewrite Hpass, Hidle. eexists. split; [reflexivity |].
    unfold adjustPauseNumLock.
    change (MakeCode (RawKeyboard_of second)) with (MakeCode second).
    rewrite Hm.
    change (if 0x45 =? 0x45 then _ else _) with
      (or_assign_adjustments AdjustmentFlags.ExtendedLookup (RawKeyboard_of second)).
    split.
    + apply has_adjustVirtualKey. cbn [adjustments or_assign_adjustments].
      apply has_or_same. discriminate.
    + unfold adjustVirtualKey, isE0.
      cbn [base or_assign_adjustments RawKeyboard_of VKey MakeCode Flags].
      rewrite Hm, He0. cbn.
      destruct (VKey second =? VK_SHIFT), (VKey second =? VK_CONTROL),
        (VKey second =? VK_MENU); reflexivity.
Qed.

(** C5: at the switch over the virtual key, generic Shift becomes Left
    Shift for make code 0x2A and Right Shift for make code 0x36, generic
    Control and generic Menu become their right variants when the E0 flag
    is set, each with VirtualKeyAdjusted set; without the E0 flag Control
    and Menu pass through the switch unchanged, adjustment flags
    included. *)
Theorem C5_adjustVirtualKey (r : RawKeyboard) :
  (VKey r = VK_SHIFT -> MakeCode r = 0x2A ->
     VKey (adjustVirtualKey r) = VK_LSHIFT /\
     AdjustmentFlags.has (adjustments (adjustVirtualKey r))
       AdjustmentFlags.VirtualKeyAdjusted = true) /\
  (VKey r = VK_SHIFT -> MakeCode r = 0x36 ->
     VKey (adjustVirtualKey r) = VK_RSHIFT /\
     AdjustmentFlags.has (adjustments (adjustVirtualKey r))
       AdjustmentFlags.VirtualKeyAdjusted = true) /\
  (VKey r = VK_CONTROL -> Z.land (Flags r) RI_KEY_E0 <> 0 ->
     VKey (adjustVirtualKey r) = VK_RCONTROL /\
     AdjustmentFlags.has (adjustments (adjustVirtualKey r))
       AdjustmentFlags.VirtualKeyAdjusted = true) /\
  (VKey r = VK_MENU -> Z.land (Flags r) RI_KEY_E0 <> 0 ->
     VKey (adjustVirtualKey r) = VK_RMENU /\
     AdjustmentFlags.has (adjustments (adjustVirtualKey r))
       AdjustmentFlags.VirtualKeyAdjusted = true) /\
  (VKey r = VK_CONTROL \/ VKey r = VK_MENU -> Z.land (Flags r) RI_KEY_E0 = 0 ->
     adjustVirtualKey r = r).
Proof.
  unfold adjustVirtualKey, isE0.
  split; [| split; [| split; [| split]]].
  - intros Hv Hm. rewrite Hv, Hm. split; [reflexivity |].
    cbn [Z.eqb Pos.eqb adjustments or_assign_adjustments].
    apply has_or_same. discriminate.
  - intros Hv Hm. rewrite Hv, Hm. split; [reflexivity |].
    cbn [Z.eqb Pos.eqb adjustments or_assign_adjustments].
    apply has_or_same. discriminate.
  - intros Hv He. rewrite Hv, (proj2 (Z.eqb_neq _ _) He). split; [reflexivity |].
    cbn [Z.eqb Pos.eqb negb adjustments or_assign_adjustments].
    apply has_or_same. discriminate.
  - intros Hv He. rewrite Hv, (proj2 (Z.eqb_neq _ _) He). split; [reflexivity |].
    cbn [Z.eqb Pos.eqb negb adjustments or_assign_adjustments].
    apply has_or_same. discriminate.
  - intros [Hv | Hv] He; rewrite Hv, He; reflexivity.
Qed.

Lemma LOWORD_ushort (x : Z) : Int.is_ushort (Int.LOWORD x).
Proof.
  unfold Int.LOWORD, Int.is_ushort. change 0xFFFF with (Z.ones 16).
  rewrite Z.land_ones by lia. apply Z.mod_pos_bound. lia.
Qed.

Lemma LOWORD_id (x : Z) : Int.is_ushort x -> Int.LOWORD x = x.
Proof.
  unfold Int.LOWORD, Int.is_ushort. intros H. change 0xFFFF with (Z.ones 16).
  rewrite Z.land_ones by lia. apply Z.mod_small, H.
Qed.

(** C7: for an event with make code 0 and no E1 flag, the make code is the
    low word of [MapVirtualKey(VKey, MAPVK_VK_TO_VSC_EX)] (the result
    itself when it has 16 bits): when that is not zero the event is shown
    with this make code and MakeCodeMapped set; when it is zero, which is
    also how the service reports a failure, the event is suppressed.  The
    window is left in the same state either way. *)
Theorem C7_missing_make_code (w : MainWindow) (keyboard : RAWKEYBOARD) :
  MakeCode keyboard = 0 ->
  Z.land (Flags keyboard) RI_KEY_E1 = 0 ->
  let result := MapVirtualKey (VKey keyboard) MAPVK_VK_TO_VSC_EX in
  (Int.is_ushort result -> Int.LOWORD result = result) /\
  (Int.LOWORD result <> 0 ->
     exists e,
       normalize MapVirtualKey w keyboard = (Some e, set_pendingSequence SeqNone w) /\
       MakeCode e = Int.LOWORD result /\
       AdjustmentFlags.has (adjustments e) AdjustmentFlags.MakeCodeMapped = true) /\
  (Int.LOWORD result = 0 ->
     normalize MapVirtualKey w keyboard = (None, set_pendingSequence SeqNone w)).
Proof.
  intros Hm He1 result.
  assert (Hmap : mapMakeCode MapVirtualKey (RawKeyboard_of keyboard) =
            or_assign_adjustments AdjustmentFlags.MakeCodeMapped
              (assign_MakeCode (Int.LOWORD result) (RawKeyboard_of keyboard))).
  { unfold mapMakeCode.
    change (MakeCode (RawKeyboard_of keyboard)) with (MakeCode keyboard).
    rewrite Hm. reflexivity. }
  split; [apply LOWORD_id |]. split.
  - intros Hnz. eexists. split.
    + apply normalize_pass.
      * rewrite Hm. discriminate.
      * exact He1.
      * right. rewrite Hm. discriminate.
      * rewrite Hmap. exact Hnz.
    + split.
      * rewrite MakeCode_adjustVirtualKey, MakeCode_adjustPauseNumLock, Hmap.
        reflexivity.
      * apply has_adjustVirtualKey, has_adjustPauseNumLock. rewrite Hmap.
        cbn [adjustments or_assign_adjustments]. apply has_or_same. discriminate.
  - intros Hz. unfold normalize. rewrite adjustKeyboardInput_pass.
    + rewrite Hmap.
      cbn [MakeCode base or_assign_adjustments assign_MakeCode set_MakeCode].
      rewrite Hz. reflexivity.
    + change (MakeCode (RawKeyboard_of keyboard)) with (MakeCode keyboard).
      rewrite Hm. discriminate.
    + rewrite isE1_of, He1. reflexivity.
    + change (MakeCode (RawKeyboard_of keyboard)) with (MakeCode keyboard).
      rewrite Hm. apply andb_false_r.
Qed.

(** *** Ranges of the fields of a shown event *)

Lemma VKey_adjustPauseNumLock_ushort (p : ScanCodeSequence) (r : RawKeyboard) :
  Int.is_ushort (VKey r) -> Int.is_ushort (VKey (adjustPauseNumLock p r)).
Proof.
  intros H. unfold adjustPauseNumLock.
  destruct (MakeCode r =? 0x45), (ScanCodeSequence_eqb p SeqE1);
    try exact H; vm_compute; split; congruence.
Qed.

Lemma VKey_adjustVirtualKey_ushort (r : RawKeyboard) :
  Int.is_ushort (VKey r) -> Int.is_ushort (VKey (adjustVirtualKey r)).
Proof.
  intros H. unfold adjustVirtualKey.
  destruct (VKey r =? VK_SHIFT), (VKey r =? VK_CONTROL), (VKey r =? VK_MENU),
    (MakeCode r =? 0x2a), (MakeCode r =? 0x36), (isE0 r);
    try exact H; vm_compute; split; congruence.
Qed.

Lemma MakeCode_mapMakeCode_ushort (r : RawKeyboard) :
  Int.is_ushort (MakeCode r) -> Int.is_ushort (MakeCode (mapMakeCode MapVirtualKey r)).
Proof.
  intros H. unfold mapMakeCode. destruct (MakeCode r =? 0); [| exact H].
  apply LOWORD_ushort.
Qed.

(** C9 (amended): the fields of a shown event are the 16-bit fields of
    RAWKEYBOARD, so make code, flags and virtual key are below 65536; they
    are cut to 8 bits when the event is packed, and every event read back
    from its packed word has make code, flags and virtual key below 256. *)
Theorem C9_field_ranges (w w' : MainWindow) (keyboard : RAWKEYBOARD)
    (e : RawKeyboard) :
  Win.wf keyboard ->
  normalize MapVirtualKey w keyboard = (Some e, w') ->
  (Int.is_ushort (MakeCode e) /\ Int.is_ushort (Flags e) /\ Int.is_ushort (VKey e)) /\
  (Int.is_byte (MakeCode (unpack (pack e))) /\
   Int.is_byte (Flags (unpack (pack e))) /\
   Int.is_byte (VKey (unpack (pack e)))).
Proof.
  intros (Hm & Hf & Hv) Hn.
  apply normalize_Some in Hn. destruct Hn as (-> & _).
  split.
  - rewrite MakeCode_adjustVirtualKey, MakeCode_adjustPauseNumLock,
      Flags_adjustVirtualKey, Flags_adjustPauseNumLock, Flags_mapMakeCode.
    split; [| split].
    + apply MakeCode_mapMakeCode_ushort. exact Hm.
    + exact Hf.
    + apply VKey_adjustVirtualKey_ushort, VKey_adjustPauseNumLock_ushort.
      rewrite VKey_mapMakeCode. exact Hv.
  - match goal with |- context [unpack (pack ?x)] =>
      destruct (unpack_pack_fields x) as (-> & -> & -> & _)
    end.
    repeat split; apply mask8_byte.
Qed.

(** *** The lookup code *)

Lemma has_or_other (a f g : AdjustmentFlags.t) :
  Z.land g f = 0 ->
  AdjustmentFlags.has (AdjustmentFlags.or a g) f = AdjustmentFlags.has a f.
Proof.
  intros H. unfold AdjustmentFlags.has, AdjustmentFlags.and, AdjustmentFlags.or.
  rewrite Z.land_lor_distr_l, H, Z.lor_0_r. reflexivity.
Qed.

Lemma to_ushort_lor_0x100 (x : Z) :
  Int.is_ushort x -> Int.to_ushort (Z.lor x 0x100) = Z.lor x 0x100.
Proof.
  unfold Int.is_ushort, Int.to_ushort. intros H.
  rewrite <- (Z.mod_small x (2 ^ 16)) by exact H.
  change 0x100 with (0x100 mod 2 ^ 16).
  apply Z.bits_inj'; intros n Hn. testbits. split_ranges; close_bits.
Qed.

Lemma getLookupCode_eq (r : RawKeyboard) :
  Int.is_ushort (MakeCode r) ->
  getLookupCode r =
    if AdjustmentFlags.has (adjustments r) AdjustmentFlags.ExtendedLookup
    then Z.lor (MakeCode r) 0x100 else MakeCode r.
Proof.
  intros H. unfold getLookupCode.
  destruct (AdjustmentFlags.has (adjustments r) AdjustmentFlags.ExtendedLookup).
  - apply to_ushort_lor_0x100, H.
  - rewrite Z.lor_0_r. apply Z.mod_small, H.
Qed.

Lemma ExtendedLookup_adjustVirtualKey (r : RawKeyboard) :
  AdjustmentFlags.has (adjustments (adjustVirtualKey r)) AdjustmentFlags.ExtendedLookup =
  AdjustmentFlags.has (adjustments r) AdjustmentFlags.ExtendedLookup.
Proof.
  unfold adjustVirtualKey.
  destruct (VKey r =? VK_SHIFT), (VKey r =? VK_CONTROL), (VKey r =? VK_MENU),
    (MakeCode r =? 0x2a), (MakeCode r =? 0x36), (isE0 r);
    cbn [adjustments or_assign_adjustments assign_VKey];
    try reflexivity; apply has_or_other; reflexivity.
Qed.

Lemma ExtendedLookup_mapMakeCode (r : RawKeyboard) :
  AdjustmentFlags.has (adjustments (mapMakeCode MapVirtualKey r))
    AdjustmentFlags.ExtendedLookup =
  AdjustmentFlags.has (adjustments r) AdjustmentFlags.ExtendedLookup.
Proof.
  unfold mapMakeCode. destruct (MakeCode r =? 0); [| reflexivity].
  cbn [adjustments or_assign_adjustments assign_MakeCode].
  apply has_or_other. reflexivity.
Qed.

(** C10: an event constructed from a record with the E0 flag has
    ExtendedLookup set from the start and the lookup code
    [MakeCode | 0x100], whatever the make code, and keeps both when it is
    shown; an event constructed without the E0 flag has no adjustment
    flag and the lookup code [MakeCode], and when it is shown its lookup
    code is its make code unless the Num Lock case applies (make code 0x45
    with no E1 sequence pending), where it is 0x145. *)
Theorem C10_lookup_code (keyboard : RAWKEYBOARD) :
  Win.wf keyboard ->
  (Z.land (Flags keyboard) RI_KEY_E0 <> 0 ->
     AdjustmentFlags.has (adjustments (RawKeyboard_of keyboard))
       AdjustmentFlags.ExtendedLookup = true /\
     getLookupCode (RawKeyboard_of keyboard) = Z.lor (MakeCode keyboard) 0x100 /\
     forall w w' e,
       normalize MapVirtualKey w keyboard = (Some e, w') ->
       getLookupCode e = Z.lor (MakeCode e) 0x100) /\
  (Z.land (Flags keyboard) RI_KEY_E0 = 0 ->
     adjustments (RawKeyboard_of keyboard) = AdjustmentFlags.none /\
     getLookupCode (RawKeyboard_of keyboard) = MakeCode keyboard /\
     forall w w' e,
       normalize MapVirtualKey w keyboard = (Some e, w') ->
       getLookupCode e =
         if (MakeCode e =? 0x45) && negb (ScanCodeSequence_eqb (pendingSequence_ w) SeqE1)
         then 0x145 else MakeCode e).
Proof.
  intros (Hm & Hf & Hv). split.
  - intros He0.
    assert (Hadj : adjustments (RawKeyboard_of keyboard) = AdjustmentFlags.ExtendedLookup).
    { unfold RawKeyboard_of. cbn [adjustments].
      rewrite (proj2 (Z.eqb_neq _ _) He0). reflexivity. }
    split; [rewrite Hadj; reflexivity |]. split.
    + rewrite getLookupCode_eq by exact Hm. rewrite Hadj. reflexivity.
    + intros w w' e Hn. apply normalize_Some in Hn. destruct Hn as (-> & _).
      rewrite getLookupCode_eq.
      * rewrite has_adjustVirtualKey; [reflexivity |].
        apply has_adjustPauseNumLock.
        rewrite ExtendedLookup_mapMakeCode, Hadj. reflexivity.
      * rewrite MakeCode_adjustVirtualKey, MakeCode_adjustPauseNumLock.
        apply MakeCode_mapMakeCode_ushort, Hm.
  - intros He0.
    assert (Hadj : adjustments (RawKeyboard_of keyboard) = AdjustmentFlags.none).
    { unfold RawKeyboard_of. cbn [adjustments]. rewrite He0. reflexivity. }
    split; [exact Hadj |]. split.
    + rewrite getLookupCode_eq by exact Hm. rewrite Hadj. reflexivity.
    + intros w w' e Hn. apply normalize_Some in Hn. destruct Hn as (-> & _).
      rewrite getLookupCode_eq.
      2:{ rewrite MakeCode_adjustVirtualKey, MakeCode_adjustPauseNumLock.
          apply MakeCode_mapMakeCode_ushort, Hm. }
      rewrite ExtendedLookup_adjustVirtualKey, MakeCode_adjustVirtualKey,
        MakeCode_adjustPauseNumLock.
      unfold adjustPauseNumLock.
      destruct (Z.eqb_spec (MakeCode (mapMakeCode MapVirtualKey (RawKeyboard_of keyboard))) 0x45)
        as [E | E].
      * destruct (ScanCodeSequence_eqb (pendingSequence_ w) SeqE1);
          cbn [adjustments or_assign_adjustments assign_VKey andb negb].
        -- rewrite has_or_other by reflexivity.
           rewrite ExtendedLookup_mapMakeCode, Hadj. reflexivity.
        -- rewrite has_or_same by discriminate. rewrite E. reflexivity.
      * cbn [andb]. rewrite ExtendedLookup_mapMakeCode, Hadj. reflexivity.
Qed.

End Normalizer.


(** ** The key tables *)

Section Tables.

Context {V : Type} (entry : string -> Z * V).

Lemma emplace_lookup (k j : Z) (v : V) (m : gmap Z V) :
  emplace k v m !! j =
    match m !! j with
    | Some x => Some x
    | None => if decide (k = j) then Some v else None
    end.
Proof.
  unfold emplace. destruct (m !! k) as [x|] eqn:Hk.
  - destruct (m !! j) as [y|] eqn:Hj; [reflexivity |].
    case_decide; [congruence | reflexivity].
  - rewrite lookup_insert. case_decide.
    + subst j. rewrite Hk. reflexivity.
    + destruct (m !! j); reflexivity.
Qed.

Lemma emplaceAll_app (l1 l2 : list string) (m : gmap Z V) :
  emplaceAll entry (l1 ++ l2) m = emplaceAll entry l2 (emplaceAll entry l1 m).
Proof. unfold emplaceAll. apply fold_left_app. Qed.

(** An entry that is in the map stays as it is. *)
Lemma emplaceAll_keep (lines : list string) (m : gmap Z V) (k : Z) (v : V) :
  m !! k = Some v -> emplaceAll entry lines m !! k = Some v.
Proof.
  revert m. induction lines as [|l lines IH]; intros m Hm; [exact Hm |].
  cbn [emplaceAll fold_left]. apply IH.
  rewrite emplace_lookup, Hm. reflexivity.
Qed.

(** Lines with other keys do not touch the key. *)
Lemma emplaceAll_skip (lines : list string) (m : gmap Z V) (k : Z) :
  Forall (fun l => (entry l).1 <> k) lines ->
  emplaceAll entry lines m !! k = m !! k.
Proof.
  revert m. induction lines as [|l lines IH]; intros m Hall; [reflexivity |].
  inversion Hall as [|? ? Hl Hrest]; subst.
  cbn [emplaceAll fold_left].
  change (emplaceAll entry lines (emplace (entry l).1 (entry l).2 m) !! k = m !! k).
  rewrite IH by exact Hrest. rewrite emplace_lookup.
  destruct (m !! k); [reflexivity |]. case_decide; [contradiction | reflexivity].
Qed.

Lemma emplaceAll_first (pre post : list string) (line : string) :
  Forall (fun l => (entry l).1 <> (entry line).1) pre ->
  emplaceAll entry (pre ++ line :: post) ∅ !! (entry line).1 = Some (entry line).2.
Proof.
  intros Hpre. rewrite emplaceAll_app.
  change (emplaceAll entry (line :: post) ?m) with
    (emplaceAll entry post (emplace (entry line).1 (entry line).2 m)).
  apply emplaceAll_keep. rewrite emplace_lookup.
  rewrite emplaceAll_skip by exact Hpre. rewrite lookup_empty.
  case_decide; [reflexivity | contradiction].
Qed.

End Tables.

Section Loader.

Variable MultiByteToWideChar : string -> wstring.

Let scanEntry := scanCodeEntry MultiByteToWideChar.
Let vkEntry := vkeyEntry MultiByteToWideChar.

(** C3 (amended): when several lines of a table text have the same key,
    both tables map the key to the entry of the first such line; the lines
    after it, later lines with the same key included, do not change it. *)
Theorem C3_first_line_wins (text : string) (pre post : list string)
    (line : string) :
  Text.splitAndTrimTrailing text "010" = pre ++ line :: post ->
  (Forall (fun l => (scanEntry l).1 <> (scanEntry line).1) pre ->
     loadScanCodeMapping MultiByteToWideChar text !! (scanEntry line).1 =
       Some (scanEntry line).2) /\
  (Forall (fun l => (vkEntry l).1 <> (vkEntry line).1) pre ->
     loadVkeyMapping MultiByteToWideChar text !! (vkEntry line).1 =
       Some (vkEntry line).2).
Proof.
  intros Hlines. unfold loadScanCodeMapping, loadVkeyMapping.
  rewrite Hlines. split; intros Hpre; apply emplaceAll_first; exact Hpre.
Qed.

End Loader.

(** ** The lookups *)

Section Lookup.

Lemma find_Some {V : Type} (m : gmap Z V) (k : Z) (v : V) :
  m !! k = Some v -> find m k = Some (k, v).
Proof. intros H. unfold find. rewrite H. reflexivity. Qed.

Lemma find_None {V : Type} (m : gmap Z V) (k : Z) :
  m !! k = None -> find m k = None.
Proof. intros H. unfold find. rewrite H. reflexivity. Qed.

(** C8 (amended): a lookup returns the entry of the lookup code (of the
    virtual key) when the table has it, otherwise the entry of key 0x000
    (of key 0xFF) when the table has that; so on a table with this row the
    lookup always returns an entry.  On a table with neither key it returns
    the end of the map, no entry. *)
Theorem C8_lookup_fallback (w : MainWindow) (rawKbd : RawKeyboard) :
  ((forall v, scanCodeMapping_ w !! getLookupCode rawKbd = Some v ->
        lookupKeyCode w rawKbd = Some (getLookupCode rawKbd, v)) /\
   (forall s, scanCodeMapping_ w !! getLookupCode rawKbd = None ->
        scanCodeMapping_ w !! 0x000 = Some s ->
        lookupKeyCode w rawKbd = Some (0x000, s)) /\
   (is_Some (scanCodeMapping_ w !! 0x000) -> is_Some (lookupKeyCode w rawKbd)) /\
   (scanCodeMapping_ w !! getLookupCode rawKbd = None ->
        scanCodeMapping_ w !! 0x000 = None ->
        lookupKeyCode w rawKbd = None)) /\
  ((forall v, vkeyMapping_ w !! VKey rawKbd = Some v ->
        lookupVirtualKey w rawKbd = Some (VKey rawKbd, v)) /\
   (forall s, vkeyMapping_ w !! VKey rawKbd = None ->
        vkeyMapping_ w !! 0xff = Some s ->
        lookupVirtualKey w rawKbd = Some (0xff, s)) /\
   (is_Some (vkeyMapping_ w !! 0xff) -> is_Some (lookupVirtualKey w rawKbd)) /\
   (vkeyMapping_ w !! VKey rawKbd = None ->
        vkeyMapping_ w !! 0xff = None ->
        lookupVirtualKey w rawKbd = None)).
Proof.
  unfold lookupKeyCode, lookupVirtualKey. split.
  - repeat split.
    + intros v Hv. rewrite (find_Some _ _ _ Hv). reflexivity.
    + intros s Hv Hs. rewrite (find_None _ _ Hv). apply find_Some, Hs.
    + intros [s Hs].
      destruct (scanCodeMapping_ w !! getLookupCode rawKbd) as [v|] eqn:Hv.
      * rewrite (find_Some _ _ _ Hv). eauto.
      * rewrite (find_None _ _ Hv), (find_Some _ _ _ Hs). eauto.
    + intros Hv Hs. rewrite (find_None _ _ Hv). apply find_None, Hs.
  - repeat split.
    + intros v Hv. rewrite (find_Some _ _ _ Hv). reflexivity.
    + intros s Hv Hs. rewrite (find_None _ _ Hv). apply find_Some, Hs.
    + intros [s Hs].
      destruct (vkeyMapping_ w !! VKey rawKbd) as [v|] eqn:Hv.
      * rewrite (find_Some _ _ _ Hv). eauto.
      * rewrite (find_None _ _ Hv), (find_Some _ _ _ Hs). eauto.
    + intros Hv Hs. rewrite (find_None _ _ Hv). apply find_None, Hs.
Qed.

End Lookup.

(** ** Statements that fail on the code *)

(** With two lines for one key it is not the last line that the tables
    keep: [emplace] leaves the entry of the first line in place. *)
Lemma C3_last_line_wins_counterexample :
  ~ (forall (conv : string -> wstring) (text : string) (pre post : list string)
            (line : string),
        Text.splitAndTrimTrailing text "010" = pre ++ line :: post ->
        Forall (fun l => (scanCodeEntry conv l).1 <> (scanCodeEntry conv line).1) post ->
        loadScanCodeMapping conv text !! (scanCodeEntry conv line).1 =
          Some (scanCodeEntry conv line).2) /\
  ~ (forall (conv : string -> wstring) (text : string) (pre post : list string)
            (line : string),
        Text.splitAndTrimTrailing text "010" = pre ++ line :: post ->
        Forall (fun l => (vkeyEntry conv l).1 <> (vkeyEntry conv line).1) post ->
        loadVkeyMapping conv text !! (vkeyEntry conv line).1 =
          Some (vkeyEntry conv line).2).
Proof.
  split; intros H.
  - specialize (H ascii_units scan_text_twice
                  ["1E=4,KEY_A,A,GLFW_A"%string] [] "1E=5,KEY_B,B,GLFW_B"%string
                  eq_refl (List.Forall_nil _)).
    vm_compute in H. discriminate H.
  - specialize (H ascii_units vkey_text_twice
                  ["41=VK_A,A"%string] [] "41=VK_B,B"%string
                  eq_refl (List.Forall_nil _)).
    vm_compute in H. discriminate H.
Qed.

(** An E1 event with the overrun make code does not start a sequence: the
    event with make code 0x45 after it is taken for Num Lock. *)
Lemma C4_any_make_code_counterexample :
  ~ (forall (translate : Z -> Z -> Z) (w : MainWindow) (first second : RAWKEYBOARD),
        Z.land (Flags first) RI_KEY_E1 <> 0 ->
        MakeCode second = 0x45 ->
        Z.land (Flags second) RI_KEY_E0 = 0 ->
        Z.land (Flags second) RI_KEY_E1 = 0 ->
        (normalize translate w first).1 = None /\
        exists e,
          (normalize translate (normalize translate w first).2 second).1 = Some e /\
          VKey e = VK_PAUSE /\
          AdjustmentFlags.has (adjustments e) AdjustmentFlags.VirtualKeyAdjusted = true).
Proof.
  intros H.
  destruct (H no_translation window0 overrun_with_E1 numlock_down)
    as (_ & e & He & Hv & _); try reflexivity; [vm_compute; discriminate |].
  vm_compute in He. injection He as <-. vm_compute in Hv. discriminate Hv.
Qed.

(** A table without the row of the unknown key: a lookup that misses
    returns the end of the map. *)
Lemma C8_missing_sentinel_counterexample :
  ~ (forall (conv : string -> wstring) (scanText vkeyText : string)
            (rawKbd : RawKeyboard),
        is_Some (lookupKeyCode (MainWindow_of conv scanText vkeyText) rawKbd)) /\
  ~ (forall (conv : string -> wstring) (scanText vkeyText : string)
            (rawKbd : RawKeyboard),
        is_Some (lookupVirtualKey (MainWindow_of conv scanText vkeyText) rawKbd)).
Proof.
  split; intros H.
  - destruct (H ascii_units scan_text_twice vkey_text_twice key_B) as [it Hit].
    vm_compute in Hit. discriminate Hit.
  - destruct (H ascii_units scan_text_twice vkey_text_twice key_B) as [it Hit].
    vm_compute in Hit. discriminate Hit.
Qed.

(** The right Control key reported without a make code: the translation
    gives 0xE01D, and that is the make code of the shown event. *)
Lemma C9_make_code_counterexample :
  ~ (forall (translate : Z -> Z -> Z) (w w' : MainWindow) (keyboard : RAWKEYBOARD)
            (e : RawKeyboard),
        Win.wf keyboard ->
        normalize translate w keyboard = (Some e, w') ->
        MakeCode e < 256 /\ Flags e < 256 /\ VKey e < 256).
Proof.
  intros H.
  assert (Hwf : Win.wf rcontrol_without_code) by (vm_compute; intuition congruence).
  destruct (H translate_rcontrol window0 _ rcontrol_without_code _ Hwf eq_refl)
    as (Hm & _).
  vm_compute in Hm. discriminate Hm.
Qed.

(** ** The properties at the sample inputs *)

Lemma C3_first_line_wins_witness :
  Text.splitAndTrimTrailing scan_text_three "010" =
    ["000=0,KEY_UNKNOWN,NULL,UNKNOWN"%string]
      ++ "1E=4,KEY_A,A,GLFW_A"%string :: ["1E=5,KEY_B,B,GLFW_B"%string] /\
  loadScanCodeMapping ascii_units scan_text_three
    !! (scanCodeEntry ascii_units "1E=4,KEY_A,A,GLFW_A").1 =
    Some (scanCodeEntry ascii_units "1E=4,KEY_A,A,GLFW_A").2 /\
  loadVkeyMapping ascii_units scan_text_three
    !! (vkeyEntry ascii_units "1E=4,KEY_A,A,GLFW_A").1 =
    Some (vkeyEntry ascii_units "1E=4,KEY_A,A,GLFW_A").2.
Proof.
  split; [reflexivity |].
  destruct (C3_first_line_wins ascii_units scan_text_three
              ["000=0,KEY_UNKNOWN,NULL,UNKNOWN"%string]
              ["1E=5,KEY_B,B,GLFW_B"%string]
              "1E=4,KEY_A,A,GLFW_A"%string eq_refl) as [Hscan Hvkey].
  split.
  - apply Hscan. constructor; [vm_compute; discriminate | constructor].
  - apply Hvkey. constructor; [vm_compute; discriminate | constructor].
Defined.

Lemma C4_pause_or_numlock_witness :
  Z.land (Flags pause_prefix) RI_KEY_E1 <> 0 /\
  MakeCode numlock_down = 0x45 /\
  (normalize no_translation window0 pause_prefix).1 = None /\
  (exists e,
      (normalize no_translation
         (normalize no_translation window0 pause_prefix).2 numlock_down).1 = Some e /\
      VKey e = VK_PAUSE /\
      AdjustmentFlags.has (adjustments e) AdjustmentFlags.VirtualKeyAdjusted = true) /\
  (forall idle : MainWindow,
      pendingSequence_ idle = SeqNone ->
      exists e,
        (normalize no_translation idle numlock_down).1 = Some e /\
        AdjustmentFlags.has (adjustments e) AdjustmentFlags.ExtendedLookup = true /\
        VKey e = VKey numlock_down).
Proof.
  split; [vm_compute; discriminate |]. split; [reflexivity |].
  apply (C4_pause_or_numlock no_translation window0 pause_prefix numlock_down);
    try reflexivity; vm_compute; discriminate.
Defined.

Lemma C5_adjustVirtualKey_witness :
  (VKey (adjustVirtualKey lshift_down) = VK_LSHIFT /\
   AdjustmentFlags.has (adjustments (adjustVirtualKey lshift_down))
     AdjustmentFlags.VirtualKeyAdjusted = true) /\
  (VKey (adjustVirtualKey rshift_down) = VK_RSHIFT /\
   AdjustmentFlags.has (adjustments (adjustVirtualKey rshift_down))
     AdjustmentFlags.VirtualKeyAdjusted = true) /\
  (VKey (adjustVirtualKey rcontrol_down) = VK_RCONTROL /\
   AdjustmentFlags.has (adjustments (adjustVirtualKey rcontrol_down))
     AdjustmentFlags.VirtualKeyAdjusted = true) /\
  (VKey (adjustVirtualKey ralt_down) = VK_RMENU /\
   AdjustmentFlags.has (adjustments (adjustVirtualKey ralt_down))
     AdjustmentFlags.VirtualKeyAdjusted = true) /\
  adjustVirtualKey lcontrol_down = lcontrol_down.
Proof.
  split; [| split; [| split; [| split]]].
  - apply (C5_adjustVirtualKey lshift_down); reflexivity.
  - apply (C5_adjustVirtualKey rshift_down); reflexivity.
  - apply (C5_adjustVirtualKey rcontrol_down); [reflexivity | vm_compute; discriminate].
  - apply (C5_adjustVirtualKey ralt_down); [reflexivity | vm_compute; discriminate].
  - apply (C5_adjustVirtualKey lcontrol_down); [left |]; reflexivity.
Defined.

Lemma C6_overrun_suppressed_witness :
  MakeCode overrun_with_E1 = KEYBOARD_OVERRUN_MAKE_CODE /\
  normalize no_translation (set_pendingSequence SeqE0 window0) overrun_with_E1 =
    (None, set_pendingSequence SeqE0 window0) /\
  pendingSequence_
    (normalize no_translation (set_pendingSequence SeqE0 window0) overrun_with_E1).2 =
    pendingSequence_ (set_pendingSequence SeqE0 window0).
Proof.
  split; [reflexivity |].
  apply (C6_overrun_suppressed no_translation
           (set_pendingSequence SeqE0 window0) overrun_with_E1).
  reflexivity.
Defined.

Lemma C7_missing_make_code_witness :
  MakeCode rcontrol_without_code = 0 /\
  Z.land (Flags rcontrol_without_code) RI_KEY_E1 = 0 /\
  exists e,
    normalize translate_rcontrol window0 rcontrol_without_code =
      (Some e, set_pendingSequence SeqNone window0) /\
    MakeCode e = 0xE01D /\
    AdjustmentFlags.has (adjustments e) AdjustmentFlags.MakeCodeMapped = true.
Proof.
  split; [reflexivity |]. split; [reflexivity |].
  destruct (C7_missing_make_code translate_rcontrol window0 rcontrol_without_code
              eq_refl eq_refl) as (_ & Hshown & _).
  apply Hshown. vm_compute. discriminate.
Defined.

Lemma C8_lookup_fallback_witness :
  scanCodeMapping_ window_full !! getLookupCode key_B = None /\
  is_Some (scanCodeMapping_ window_full !! 0x000) /\
  is_Some (lookupKeyCode window_full key_B) /\
  is_Some (vkeyMapping_ window_full !! 0xff) /\
  is_Some (lookupVirtualKey window_full key_B).
Proof.
  assert (Hs : is_Some (scanCodeMapping_ window_full !! 0x000))
    by (vm_compute; eauto).
  assert (Hv : is_Some (vkeyMapping_ window_full !! 0xff))
    by (vm_compute; eauto).
  split; [reflexivity |]. split; [exact Hs |]. split; [| split; [exact Hv |]].
  - apply (C8_lookup_fallback window_full key_B). exact Hs.
  - apply (C8_lookup_fallback window_full key_B). exact Hv.
Defined.

Lemma C9_field_ranges_witness :
  Win.wf rcontrol_without_code /\
  normalize translate_rcontrol window0 rcontrol_without_code =
    (Some (mkRawKeyboard (mkRAWKEYBOARD 0xE01D 0 0 VK_RCONTROL 0x100 0)
             AdjustmentFlags.MakeCodeMapped true),
     window0) /\
  Int.is_ushort 0xE01D /\
  Int.is_byte
    (MakeCode
       (unpack
          (pack (mkRawKeyboard (mkRAWKEYBOARD 0xE01D 0 0 VK_RCONTROL 0x100 0)
                   AdjustmentFlags.MakeCodeMapped true)))).
Proof.
  assert (Hwf : Win.wf rcontrol_without_code).
  { repeat split; vm_compute; congruence. }
  split; [exact Hwf |]. split; [reflexivity |].
  destruct (C9_field_ranges translate_rcontrol window0 window0 rcontrol_without_code
              _ Hwf eq_refl) as ((Hm & _) & (Hb & _)).
  split; [exact Hm | exact Hb].
Defined.

Lemma C10_lookup_code_witness :
  Win.wf insert_down /\
  Z.land (Flags insert_down) RI_KEY_E0 <> 0 /\
  AdjustmentFlags.has (adjustments (RawKeyboard_of insert_down))
    AdjustmentFlags.ExtendedLookup = true /\
  getLookupCode (RawKeyboard_of insert_down) = Z.lor (MakeCode insert_down) 0x100.
Proof.
  assert (Hwf : Win.wf insert_down).
  { repeat split; vm_compute; congruence. }
  assert (He0 : Z.land (Flags insert_down) RI_KEY_E0 <> 0)
    by (vm_compute; discriminate).
  split; [exact Hwf |]. split; [exact He0 |].
  destruct (C10_lookup_code no_translation insert_down Hwf) as [Hext _].
  destruct (Hext He0) as (Hhas & Hcode & _).
  split; [exact Hhas | exact Hcode].
Defined.


(** * Further properties of the code *)

(** ** splitOnce, trimming and splitting (RawInputViewer.hpp, lines 407-441) *)

Section TextFacts.

Local Open Scope string_scope.

Abbreviation chars := list_ascii_of_string.

Lemma append_nil_l (s : string) : "" ++ s = s.
Proof. reflexivity. Qed.

Lemma append_cons (c : ascii) (s t : string) : String c s ++ t = String c (s ++ t).
Proof. reflexivity. Qed.

Lemma chars_append (s t : string) : chars (s ++ t) = (chars s ++ chars t)%list.
Proof.
  induction s as [|c s IH]; [reflexivity |].
  rewrite append_cons. cbn [list_ascii_of_string]. rewrite IH. reflexivity.
Qed.

Lemma splitOnce_absent (text : string) (separator : ascii) :
  ~ In separator (chars text) ->
  Text.splitOnce text separator = (text, "").
Proof.
  induction text as [|c rest IH]; intros Hin; [reflexivity |].
  cbn [Text.splitOnce]. destruct (Ascii.eqb_spec c separator) as [->|Hne].
  - exfalso. apply Hin. left. reflexivity.
  - rewrite IH; [reflexivity |]. intros H. apply Hin. right. exact H.
Qed.

Lemma splitOnce_present (text : string) (separator : ascii) :
  In separator (chars text) ->
  text = (Text.splitOnce text separator).1
         ++ String separator (Text.splitOnce text separator).2.
Proof.
  induction text as [|c rest IH]; intros Hin; [destruct Hin |].
  cbn [Text.splitOnce]. destruct (Ascii.eqb_spec c separator) as [->|Hne].
  - reflexivity.
  - destruct Hin as [Heq | Hin]; [contradiction |].
    specialize (IH Hin). destruct (Text.splitOnce rest separator) as [before after].
    cbn [fst snd] in *. change (String c rest = String c (before ++ String separator after)).
    f_equal. exact IH.
Qed.

Lemma splitOnce_before (text : string) (separator : ascii) :
  ~ In separator (chars (Text.splitOnce text separator).1).
Proof.
  induction text as [|c rest IH]; [intros [] |].
  cbn [Text.splitOnce]. destruct (Ascii.eqb_spec c separator) as [->|Hne].
  - intros [].
  - destruct (Text.splitOnce rest separator) as [before after].
    cbn in *. intros [Heq | Hin]; [contradiction | exact (IH Hin)].
Qed.

(** X1: splitOnce cuts at the first separator: the first part never holds
    the separator; when the text holds one, the text is the first part, the
    separator and the second part; when it holds none, the first part is the
    whole text and the second is empty. *)
Theorem X1_splitOnce_first_separator (text : string) (separator : ascii) :
  ~ In separator (chars (Text.splitOnce text separator).1) /\
  (In separator (chars text) ->
     text = (Text.splitOnce text separator).1
            ++ String separator (Text.splitOnce text separator).2) /\
  (~ In separator (chars text) -> Text.splitOnce text separator = (text, "")).
Proof.
  split; [apply splitOnce_before |].
  split; [apply splitOnce_present | apply splitOnce_absent].
Qed.

(** *** trimTrailing *)

Lemma trimTrailing_cons (c : ascii) (rest : string) :
  Text.trimTrailing (String c rest) =
    match Text.trimTrailing rest with
    | "" => if Text.isWhitespace c then "" else String c ""
    | kept => String c kept
    end.
Proof. reflexivity. Qed.

Lemma trimTrailing_split (s : string) :
  exists ws : string,
    s = Text.trimTrailing s ++ ws /\
    Forall (fun c => Text.isWhitespace c = true) (chars ws).
Proof.
  induction s as [|c rest (ws & Heq & Hws)].
  - exists "". split; [reflexivity | constructor].
  - rewrite trimTrailing_cons.
    destruct (Text.trimTrailing rest) as [|k kept] eqn:Hk.
    + destruct (Text.isWhitespace c) eqn:Hc.
      * exists (String c ws). split.
        -- rewrite append_nil_l in *. congruence.
        -- constructor; assumption.
      * exists ws. split; [| exact Hws].
        rewrite append_nil_l in *. rewrite append_cons, append_nil_l. congruence.
    + exists ws. split; [| exact Hws].
      change (String c rest = String c (String k kept ++ ws)). f_equal. exact Heq.
Qed.

Lemma trimTrailing_last (s p : string) (c : ascii) :
  Text.trimTrailing s = p ++ String c "" -> Text.isWhitespace c = false.
Proof.
  revert p. induction s as [|a rest IH]; intros p H.
  - destruct p; discriminate H.
  - rewrite trimTrailing_cons in H.
    destruct (Text.trimTrailing rest) as [|k kept] eqn:Hk.
    + destruct (Text.isWhitespace a) eqn:Ha.
      * destruct p; discriminate H.
      * destruct p as [|b p]; rewrite ?append_nil_l, ?append_cons in H.
        -- injection H as <-. exact Ha.
        -- injection H as _ H. destruct p; discriminate H.
    + destruct p as [|b p]; rewrite ?append_nil_l, ?append_cons in H.
      * injection H as _ H. discriminate H.
      * injection H as _ H. apply (IH p). exact H.
Qed.

Lemma trimTrailing_blank (ws : string) :
  Forall (fun c => Text.isWhitespace c = true) (chars ws) ->
  Text.trimTrailing ws = "".
Proof.
  induction ws as [|c rest IH]; intros H; [reflexivity |].
  inversion H as [|? ? Hc Hrest]; subst.
  rewrite trimTrailing_cons, (IH Hrest), Hc. reflexivity.
Qed.

(** X2: trimTrailing removes white space at the end and nothing else: the
    text is the result followed by white space only, and the result does not
    end in white space. *)
Theorem X2_trimTrailing (s : string) :
  (exists ws : string,
      s = Text.trimTrailing s ++ ws /\
      Forall (fun c => Text.isWhitespace c = true) (chars ws)) /\
  (forall (p : string) (c : ascii),
      Text.trimTrailing s = p ++ String c "" -> Text.isWhitespace c = false).
Proof.
  split; [apply trimTrailing_split | apply trimTrailing_last].
Qed.

(** *** split *)

Lemma split_cons (separator c : ascii) (rest : string) :
  Text.split separator (String c rest) =
    if Ascii.eqb c separator then "" :: Text.split separator rest
    else match Text.split separator rest with
         | [] => [String c ""]
         | piece :: pieces => String c piece :: pieces
         end.
Proof. reflexivity. Qed.

Lemma split_not_nil (separator : ascii) (text : string) :
  Text.split separator text <> [].
Proof.
  destruct text as [|c rest]; [discriminate |].
  rewrite split_cons. destruct (Ascii.eqb c separator); [discriminate |].
  destruct (Text.split separator rest); discriminate.
Qed.

Lemma split_append (separator : ascii) (t1 t2 : string) :
  Text.split separator (t1 ++ String separator t2) =
  (Text.split separator t1 ++ Text.split separator t2)%list.
Proof.
  induction t1 as [|c rest IH].
  - rewrite append_nil_l, split_cons, Ascii.eqb_refl. reflexivity.
  - rewrite append_cons, !split_cons.
    destruct (Ascii.eqb c separator); [rewrite IH; reflexivity |].
    rewrite IH. pose proof (split_not_nil separator rest) as Hn.
    destruct (Text.split separator rest); [contradiction | reflexivity].
Qed.

Lemma split_pieces (separator : ascii) (text : string) :
  Forall (fun piece => ~ In separator (chars piece)) (Text.split separator text).
Proof.
  induction text as [|c rest IH].
  - constructor; [intros [] | constructor].
  - rewrite split_cons. destruct (Ascii.eqb_spec c separator) as [->|Hne].
    + constructor; [intros [] | exact IH].
    + destruct (Text.split separator rest) as [|piece pieces].
      * constructor; [| constructor]. intros [H | []]. contradiction.
      * inversion IH as [|? ? Hp Hps]; subst. constructor; [| exact Hps].
        intros [H | H]; [contradiction | exact (Hp H)].
Qed.

Lemma trimTrailing_chars (s : string) (c : ascii) :
  In c (chars (Text.trimTrailing s)) -> In c (chars s).
Proof.
  destruct (trimTrailing_split s) as (ws & Heq & _).
  intros H. rewrite Heq, chars_append. apply in_or_app. left. exact H.
Qed.

(** X3: every piece that splitAndTrimTrailing yields is non-empty, holds no
    separator and does not end in white space. *)
Theorem X3_splitAndTrimTrailing_pieces (text : string) (separator : ascii) :
  Forall
    (fun piece =>
       piece <> "" /\
       ~ In separator (chars piece) /\
       forall (p : string) (c : ascii),
         piece = p ++ String c "" -> Text.isWhitespace c = false)
    (Text.splitAndTrimTrailing text separator).
Proof.
  unfold Text.splitAndTrimTrailing.
  apply List.Forall_forall. intros piece Hin.
  apply List.filter_In in Hin. destruct Hin as [Hin Hne].
  apply List.in_map_iff in Hin. destruct Hin as (raw & <- & Hraw).
  split; [| split].
  - intros H. rewrite H in Hne. discriminate Hne.
  - intros H. apply trimTrailing_chars in H.
    pose proof (split_pieces separator text) as Hall.
    rewrite List.Forall_forall in Hall. exact (Hall raw Hraw H).
  - intros p c H. exact (trimTrailing_last raw p c H).
Qed.

Lemma splitAndTrimTrailing_append (t1 t2 : string) (separator : ascii) :
  Text.splitAndTrimTrailing (t1 ++ String separator t2) separator =
  (Text.splitAndTrimTrailing t1 separator
     ++ Text.splitAndTrimTrailing t2 separator)%list.
Proof.
  unfold Text.splitAndTrimTrailing.
  rewrite split_append, List.map_app, List.filter_app. reflexivity.
Qed.

(** X4: splitting distributes over a separator: the pieces of two texts
    joined by the separator are the pieces of the first followed by the
    pieces of the second. *)
Theorem X4_splitAndTrimTrailing_append (t1 t2 : string) (separator : ascii) :
  Text.splitAndTrimTrailing (t1 ++ String separator t2) separator =
  (Text.splitAndTrimTrailing t1 separator
     ++ Text.splitAndTrimTrailing t2 separator)%list.
Proof. apply splitAndTrimTrailing_append. Qed.

(** *** White space before a separator *)

Lemma blank_pieces (separator : ascii) (ws : string) :
  Forall (fun c => Text.isWhitespace c = true) (chars ws) ->
  exists n : nat,
    List.map Text.trimTrailing (Text.split separator ws) = repeat "" (S n).
Proof.
  induction ws as [|c rest IH]; intros H.
  - exists 0%nat. reflexivity.
  - inversion H as [|? ? Hc Hrest]; subst. destruct (IH Hrest) as [n Hn].
    rewrite split_cons. destruct (Ascii.eqb c separator).
    + exists (S n). cbn [List.map]. rewrite Hn. reflexivity.
    + destruct (Text.split separator rest) as [|h t]; [discriminate Hn |].
      cbn [List.map repeat] in Hn. injection Hn as Hh Ht.
      exists n. cbn [List.map repeat]. rewrite trimTrailing_cons, Hh, Hc, Ht.
      reflexivity.
Qed.

Lemma split_trailing_blank (separator : ascii) (t1 ws : string) :
  Forall (fun c => Text.isWhitespace c = true) (chars ws) ->
  exists n : nat,
    List.map Text.trimTrailing (Text.split separator (t1 ++ ws)) =
    (List.map Text.trimTrailing (Text.split separator t1) ++ repeat "" n)%list.
Proof.
  intros Hws. induction t1 as [|c rest (n & IH)].
  - rewrite append_nil_l. destruct (blank_pieces separator ws Hws) as [n Hn].
    exists n. rewrite Hn. reflexivity.
  - rewrite append_cons, !split_cons. destruct (Ascii.eqb c separator).
    + exists n. cbn [List.map]. rewrite IH. reflexivity.
    + pose proof (split_not_nil separator rest) as Hr.
      pose proof (split_not_nil separator (rest ++ ws)) as Hr'.
      destruct (Text.split separator rest) as [|h t]; [contradiction |].
      destruct (Text.split separator (rest ++ ws)) as [|h' t']; [contradiction |].
      cbn [List.map] in IH. rewrite <- List.app_comm_cons in IH.
      injection IH as Hh Ht.
      exists n. cbn [List.map]. rewrite <- List.app_comm_cons.
      rewrite !trimTrailing_cons, Hh, Ht. reflexivity.
Qed.

Lemma filter_nonempty_blank (l : list string) (n : nat) :
  List.filter Text.nonempty (l ++ repeat "" n) = List.filter Text.nonempty l.
Proof.
  rewrite List.filter_app.
  replace (List.filter Text.nonempty (repeat "" n)) with (@nil string).
  - apply List.app_nil_r.
  - induction n as [|n IH]; [reflexivity | exact IH].
Qed.

(** X5: white space at the end of a text or in front of a separator is
    ignored, whatever it is made of: blank lines, blanks at the end of a
    line, the carriage return of a CR LF line end. *)
Theorem X5_whitespace_ignored (t1 ws t2 : string) (separator : ascii) :
  Forall (fun c => Text.isWhitespace c = true) (chars ws) ->
  Text.splitAndTrimTrailing (t1 ++ ws) separator =
    Text.splitAndTrimTrailing t1 separator /\
  Text.splitAndTrimTrailing ((t1 ++ ws) ++ String separator t2) separator =
    Text.splitAndTrimTrailing (t1 ++ String separator t2) separator.
Proof.
  intros Hws.
  assert (H1 : Text.splitAndTrimTrailing (t1 ++ ws) separator =
               Text.splitAndTrimTrailing t1 separator).
  { unfold Text.splitAndTrimTrailing.
    destruct (split_trailing_blank separator t1 ws Hws) as [n ->].
    apply filter_nonempty_blank. }
  split; [exact H1 |].
  rewrite !splitAndTrimTrailing_append, H1. reflexivity.
Qed.

End TextFacts.

(** ** Number parsing (RawInputViewer.hpp, lines 364-405) *)

Section Parsing.

Lemma take_sign_other (c : ascii) (rest : string) :
  c <> "-"%char -> c <> "+"%char ->
  Text.take_sign (String c rest) = (false, String c rest).
Proof.
  intros Hm Hp.
  destruct c as [[] [] [] [] [] [] [] []]; try reflexivity; congruence.
Qed.

Lemma skip_hex_prefix_other (base : Z) (c : ascii) (rest : string) :
  c <> "0"%char -> Text.skip_hex_prefix base (String c rest) = String c rest.
Proof.
  intros Hz. unfold Text.skip_hex_prefix. destruct (base =? 16); [| reflexivity].
  destruct c as [[] [] [] [] [] [] [] []]; try reflexivity; congruence.
Qed.

Lemma strtoll_no_digit (base : Z) (c : ascii) (rest : string) :
  0 < base ->
  Text.isWhitespace c = false ->
  c <> "-"%char -> c <> "+"%char ->
  (forall d, Text.digit_value c = Some d -> base <= d) ->
  Text.strtoll (String c rest) base = 0.
Proof.
  intros Hb Hw Hm Hp Hd.
  assert (Hz : c <> "0"%char).
  { intros ->. specialize (Hd 0 eq_refl). lia. }
  unfold Text.strtoll. cbn [Text.skip_space]. rewrite Hw.
  rewrite take_sign_other by assumption.
  rewrite skip_hex_prefix_other by assumption.
  cbn [Text.accumulate]. destruct (Text.digit_value c) as [d|] eqn:Hc.
  - specialize (Hd d eq_refl). rewrite (proj2 (Z.ltb_ge d base) Hd). reflexivity.
  - reflexivity.
Qed.

Lemma strtoll_empty (base : Z) : Text.strtoll EmptyString base = 0.
Proof.
  unfold Text.strtoll, Text.skip_hex_prefix. cbn.
  destruct (base =? 16); reflexivity.
Qed.

(** X6: permissive parsing.  A field that is empty, or whose first
    character is neither white space, a sign nor a digit of the base, is
    read as 0 by toUShort and toInt; nothing is raised. *)
Theorem X6_no_digit_parses_to_zero (base : Z) (c : ascii) (rest : string) :
  0 < base ->
  Text.isWhitespace c = false ->
  c <> "-"%char -> c <> "+"%char ->
  (forall d, Text.digit_value c = Some d -> base <= d) ->
  Text.toUShort (String c rest) base = 0 /\
  Text.toInt (String c rest) base = 0 /\
  Text.toUShort EmptyString base = 0 /\
  Text.toInt EmptyString base = 0.
Proof.
  intros Hb Hw Hm Hp Hd. unfold Text.toUShort, Text.toInt.
  rewrite strtoll_no_digit by assumption. rewrite strtoll_empty.
  repeat split; reflexivity.
Qed.

Lemma X6_no_digit_parses_to_zero_witness :
  Text.isWhitespace "z" = false /\
  Text.toUShort "zz" 16 = 0 /\ Text.toInt "zz" 16 = 0 /\
  Text.toUShort "" 16 = 0 /\ Text.toInt "" 16 = 0.
Proof.
  split; [reflexivity |].
  apply (X6_no_digit_parses_to_zero 16 "z" "z");
    [lia | reflexivity | discriminate | discriminate |].
  intros d Hd. vm_compute in Hd. injection Hd as <-. lia.
Defined.

Lemma toUShort_range (range : string) (base : Z) :
  Int.is_ushort (Text.toUShort range base).
Proof. unfold Text.toUShort, Int.to_ushort, Int.is_ushort. apply Z.mod_pos_bound. lia. Qed.

Lemma toInt_range (range : string) (base : Z) :
  - 2 ^ 31 <= Text.toInt range base < 2 ^ 31.
Proof.
  unfold Text.toInt, Int.to_int.
  pose proof (Z.mod_pos_bound (Text.strtoll range base + 2 ^ 31) (2 ^ 32) ltac:(lia)).
  change (2 ^ 32) with (2 * 2 ^ 31) in *. lia.
Qed.

End Parsing.

(** ** The table loops (RawInputViewer.cpp, lines 1303-1319) *)

Section EmplaceFacts.

Context {V : Type} (entry : string -> Z * V).

(** What is in the map first hides what the lines would put there. *)
Lemma emplaceAll_lookup (lines : list string) (m : gmap Z V) (k : Z) :
  emplaceAll entry lines m !! k =
    match m !! k with
    | Some v => Some v
    | None => emplaceAll entry lines ∅ !! k
    end.
Proof.
  destruct (m !! k) as [v|] eqn:Hm; [apply emplaceAll_keep; exact Hm |].
  revert m Hm. induction lines as [|l lines IH]; intros m Hm;
    [unfold emplaceAll; cbn [fold_left]; rewrite Hm, lookup_empty; reflexivity |].
  change (emplaceAll entry (l :: lines) ?x) with
    (emplaceAll entry lines (emplace (entry l).1 (entry l).2 x)).
  destruct (decide ((entry l).1 = k)) as [Hk | Hk].
  - rewrite (emplaceAll_keep entry lines _ k (entry l).2).
    + rewrite (emplaceAll_keep entry lines _ k (entry l).2); [reflexivity |].
      rewrite emplace_lookup, lookup_empty. case_decide; [reflexivity | contradiction].
    + rewrite emplace_lookup, Hm. case_decide; [reflexivity | contradiction].
  - rewrite IH.
    + symmetry. apply IH. rewrite emplace_lookup, lookup_empty.
      case_decide; [contradiction | reflexivity].
    + rewrite emplace_lookup, Hm. case_decide; [contradiction | reflexivity].
Qed.

Lemma emplaceAll_None (lines : list string) (k : Z) :
  emplaceAll entry lines ∅ !! k = None <->
  Forall (fun l => (entry l).1 <> k) lines.
Proof.
  split.
  - induction lines as [|l lines IH]; intros H; [constructor |].
    change (emplaceAll entry (l :: lines) ?x) with
      (emplaceAll entry lines (emplace (entry l).1 (entry l).2 x)) in H.
    rewrite emplaceAll_lookup, emplace_lookup, lookup_empty in H.
    case_decide as Hk; [discriminate H |]. constructor; [exact Hk | exact (IH H)].
  - intros H. rewrite emplaceAll_skip by exact H. apply lookup_empty.
Qed.

Lemma emplaceAll_Some (lines : list string) (k : Z) (v : V) :
  emplaceAll entry lines ∅ !! k = Some v ->
  exists l, In l lines /\ entry l = (k, v).
Proof.
  induction lines as [|l lines IH]; intros H;
    [unfold emplaceAll in H; cbn [fold_left] in H; rewrite lookup_empty in H;
     discriminate H |].
  change (emplaceAll entry (l :: lines) ?x) with
    (emplaceAll entry lines (emplace (entry l).1 (entry l).2 x)) in H.
  rewrite emplaceAll_lookup, emplace_lookup, lookup_empty in H.
  case_decide as Hk.
  - injection H as <-. exists l. split; [left; reflexivity |].
    rewrite <- Hk. destruct (entry l); reflexivity.
  - destruct (IH H) as (l' & Hin & He). exists l'. split; [right; exact Hin | exact He].
Qed.

Lemma emplace_size (k : Z) (v : V) (m : gmap Z V) :
  (size (emplace k v m) <= S (size m))%nat.
Proof.
  unfold emplace. destruct (m !! k) eqn:Hk; [lia |].
  rewrite map_size_insert_None by exact Hk. lia.
Qed.

Lemma emplaceAll_size (lines : list string) (m : gmap Z V) :
  (size (emplaceAll entry lines m) <= size m + length lines)%nat.
Proof.
  revert m. induction lines as [|l lines IH]; intros m; [cbn; lia |].
  change (emplaceAll entry (l :: lines) m) with
    (emplaceAll entry lines (emplace (entry l).1 (entry l).2 m)).
  specialize (IH (emplace (entry l).1 (entry l).2 m)).
  pose proof (emplace_size (entry l).1 (entry l).2 m). cbn [length]. lia.
Qed.

End EmplaceFacts.

Section LoaderFacts.

Variable MultiByteToWideChar : string -> wstring.

Let scanEntry := scanCodeEntry MultiByteToWideChar.
Let vkEntry := vkeyEntry MultiByteToWideChar.
Let loadScan := loadScanCodeMapping MultiByteToWideChar.
Let loadVkey := loadVkeyMapping MultiByteToWideChar.

(** X7: two table texts joined by a line feed load like the first text
    followed by the second: a key of the first text keeps the entry it has
    there, every other key has the entry of the second text. *)
Theorem X7_load_joined_texts (t1 t2 : string) (k : Z) :
  loadScan (t1 ++ String "010" t2)%string !! k =
    match loadScan t1 !! k with
    | Some v => Some v
    | None => loadScan t2 !! k
    end /\
  loadVkey (t1 ++ String "010" t2)%string !! k =
    match loadVkey t1 !! k with
    | Some v => Some v
    | None => loadVkey t2 !! k
    end.
Proof.
  subst loadScan loadVkey. unfold loadScanCodeMapping, loadVkeyMapping.
  rewrite splitAndTrimTrailing_append, !emplaceAll_app.
  split; apply emplaceAll_lookup.
Qed.

(** X8: a key is absent from a loaded table exactly when no line of the
    text has it as its key. *)
Theorem X8_absent_key (text : string) (k : Z) :
  (loadScan text !! k = None <->
     Forall (fun l => (scanEntry l).1 <> k) (Text.splitAndTrimTrailing text "010")) /\
  (loadVkey text !! k = None <->
     Forall (fun l => (vkEntry l).1 <> k) (Text.splitAndTrimTrailing text "010")).
Proof.
  subst loadScan loadVkey. unfold loadScanCodeMapping, loadVkeyMapping.
  split; apply emplaceAll_None.
Qed.

Lemma scanCodeEntry_key (line : string) :
  (scanCodeEntry MultiByteToWideChar line).1 =
    Text.toUShort (Text.splitOnce line "=").1 16.
Proof.
  unfold scanCodeEntry.
  destruct (Text.splitOnce line "=") as [a b]. cbn [fst snd].
  destruct (Text.splitOnce b ",") as [c d].
  destruct (Text.splitOnce d ",") as [e f].
  destruct (Text.splitOnce f ",") as [g h]. reflexivity.
Qed.

Lemma scanCodeEntry_keyCode (line : string) :
  keyCode (scanCodeEntry MultiByteToWideChar line).2 =
    Text.toInt (Text.splitOnce (Text.splitOnce line "=").2 ",").1 10.
Proof.
  unfold scanCodeEntry.
  destruct (Text.splitOnce line "=") as [a b]. cbn [fst snd].
  destruct (Text.splitOnce b ",") as [c d].
  destruct (Text.splitOnce d ",") as [e f].
  destruct (Text.splitOnce f ",") as [g h]. reflexivity.
Qed.

Lemma vkeyEntry_key (line : string) :
  (vkeyEntry MultiByteToWideChar line).1 =
    Text.toUShort (Text.splitOnce line "=").1 16.
Proof.
  unfold vkeyEntry.
  destruct (Text.splitOnce line "=") as [a b]. cbn [fst snd].
  destruct (Text.splitOnce b ",") as [c d]. reflexivity.
Qed.

(** X9: every entry of a loaded table is the entry of one of the lines of
    the text and its key is a 16-bit value; the key code of an entry of the
    scan-code table is a 32-bit signed value; a table has at most as many
    entries as the text has lines. *)
Theorem X9_table_entries (text : string) (k : Z) :
  (forall v : KeyCodes,
     loadScan text !! k = Some v ->
     (exists line,
         In line (Text.splitAndTrimTrailing text "010") /\ scanEntry line = (k, v)) /\
     Int.is_ushort k /\
     - 2 ^ 31 <= keyCode v < 2 ^ 31) /\
  (forall v : wstring * wstring,
     loadVkey text !! k = Some v ->
     (exists line,
         In line (Text.splitAndTrimTrailing text "010") /\ vkEntry line = (k, v)) /\
     Int.is_ushort k) /\
  (size (loadScan text) <= length (Text.splitAndTrimTrailing text "010"))%nat /\
  (size (loadVkey text) <= length (Text.splitAndTrimTrailing text "010"))%nat.
Proof.
  subst loadScan loadVkey scanEntry vkEntry. unfold loadScanCodeMapping, loadVkeyMapping.
  split; [| split; [| split]].
  - intros v H. destruct (emplaceAll_Some _ _ _ _ H) as (line & Hin & He).
    split; [exists line; split; assumption |]. split.
    + replace k with (scanCodeEntry MultiByteToWideChar line).1 by (rewrite He; reflexivity).
      rewrite scanCodeEntry_key. apply toUShort_range.
    + replace v with (scanCodeEntry MultiByteToWideChar line).2 by (rewrite He; reflexivity).
      rewrite scanCodeEntry_keyCode. apply toInt_range.
  - intros v H. destruct (emplaceAll_Some _ _ _ _ H) as (line & Hin & He).
    split; [exists line; split; assumption |].
    replace k with (vkeyEntry MultiByteToWideChar line).1 by (rewrite He; reflexivity).
    rewrite vkeyEntry_key. apply toUShort_range.
  - pose proof (emplaceAll_size (scanCodeEntry MultiByteToWideChar)
                  (Text.splitAndTrimTrailing text "010") ∅) as Hs.
    rewrite map_size_empty in Hs. exact Hs.
  - pose proof (emplaceAll_size (vkeyEntry MultiByteToWideChar)
                  (Text.splitAndTrimTrailing text "010") ∅) as Hs.
    rewrite map_size_empty in Hs. exact Hs.
Qed.

End LoaderFacts.

Section FallbackRow.

Variable MultiByteToWideChar : string -> wstring.

Lemma no_number_key (c : ascii) (rest : string) :
  Text.isWhitespace c = false ->
  c <> "-"%char -> c <> "+"%char ->
  (forall d, Text.digit_value c = Some d -> 16 <= d) ->
  Text.toUShort (Text.splitOnce (String c rest) "=").1 16 = 0.
Proof.
  intros Hw Hm Hp Hd. cbn [Text.splitOnce].
  destruct (Ascii.eqb c "="); [reflexivity |].
  destruct (Text.splitOnce rest "=") as [before after]. cbn [fst].
  unfold Text.toUShort. rewrite strtoll_no_digit by (assumption || lia). reflexivity.
Qed.

(** X10: a line whose key field is no number is stored under key 0x000, the
    key of the fallback row.  When it is the first line of the scan-code
    text it is the fallback row: every lookup that misses returns its
    entry. *)
Theorem X10_first_malformed_line_is_fallback (scanText vkeyText : string)
    (c : ascii) (rest : string) (post : list string) (rawKbd : RawKeyboard) :
  Text.splitAndTrimTrailing scanText "010" = String c rest :: post ->
  Text.isWhitespace c = false ->
  c <> "-"%char -> c <> "+"%char ->
  (forall d, Text.digit_value c = Some d -> 16 <= d) ->
  let w := MainWindow_of MultiByteToWideChar scanText vkeyText in
  let row := (scanCodeEntry MultiByteToWideChar (String c rest)).2 in
  scanCodeMapping_ w !! 0x000 = Some row /\
  (scanCodeMapping_ w !! getLookupCode rawKbd = None ->
     lookupKeyCode w rawKbd = Some (0x000, row)).
Proof.
  intros Hlines Hw Hm Hp Hd w row.
  assert (Hkey : (scanCodeEntry MultiByteToWideChar (String c rest)).1 = 0).
  { rewrite scanCodeEntry_key. apply no_number_key; assumption. }
  assert (Hrow : scanCodeMapping_ w !! 0x000 = Some row).
  { subst w row. unfold MainWindow_of, loadScanCodeMapping.
    cbn [scanCodeMapping_]. rewrite Hlines.
    change (String c rest :: post) with ([] ++ String c rest :: post)%list.
    rewrite <- Hkey at 1. apply emplaceAll_first. constructor. }
  split; [exact Hrow |].
  intros Hmiss. unfold lookupKeyCode.
  rewrite (find_None _ _ Hmiss). apply find_Some, Hrow.
Qed.

End FallbackRow.

(** ** The packed word (RawInputViewer.hpp, lines 866-899) *)

Section Codec.

Lemma testbit_high32 (p n : Z) :
  0 <= p < 2 ^ 32 -> 32 <= n -> Z.testbit p n = false.
Proof.
  intros Hp Hn. rewrite <- (Z.mod_small p (2 ^ 32)) by exact Hp.
  apply Z.mod_pow2_bits_high. lia.
Qed.

(** The four bit-fields cover the storage. *)
Lemma store_bits (p : Z) :
  0 <= p < 2 ^ 32 ->
  PackedRawKeyboard.store (PackedRawKeyboard.bits p) = p.
Proof.
  intros Hp. unfold PackedRawKeyboard.store, PackedRawKeyboard.bits.
  cbn [PackedRawKeyboard.makeCode PackedRawKeyboard.flags PackedRawKeyboard.vKey
       PackedRawKeyboard.bits_adjustments].
  apply Z.bits_inj'; intros n Hn. change 0xFF with (Z.ones 8).
  testbits. split_ranges; try lia;
    rewrite ?Z.shiftr_spec by lia; cbn [andb];
    rewrite ?andb_false_r, ?andb_true_r, ?orb_false_r, ?orb_false_l;
    try (rewrite (testbit_high32 p n) by (assumption || lia));
    first [reflexivity | f_equal; lia].
Qed.

Lemma to_int_to_uint32 (l : Z) :
  - 2 ^ 31 <= l < 2 ^ 31 -> Int.to_int (Int.to_uint32 l) = l.
Proof.
  unfold Int.to_int, Int.to_uint32.
  change (2 ^ 32) with 4294967296. change (2 ^ 31) with 2147483648.
  intros H. Z.div_mod_to_equations. lia.
Qed.

Lemma to_int_range (p : Z) : - 2 ^ 31 <= Int.to_int p < 2 ^ 31.
Proof.
  unfold Int.to_int.
  pose proof (Z.mod_pos_bound (p + 2 ^ 31) (2 ^ 32) ltac:(lia)).
  change (2 ^ 32) with (2 * 2 ^ 31) in *. lia.
Qed.

Lemma pack_unpack (l : Z) : - 2 ^ 31 <= l < 2 ^ 31 -> pack (unpack l) = l.
Proof.
  intros Hl. unfold pack, unpack, PackedRawKeyboard.of_RawKeyboard,
    PackedRawKeyboard.getRawKeyboard, PackedRawKeyboard.lParam,
    PackedRawKeyboard.of_lParam, RawKeyboard_with, RawKeyboard_of.
  cbn [base adjustments MakeCode Flags VKey].
  set (p := Int.to_uint32 l).
  assert (Hp : 0 <= p < 2 ^ 32) by (apply Z.mod_pos_bound; lia).
  assert (Hfix : forall x, Int.to_bits8 (Int.to_ushort (Z.land x 0xFF)) = Z.land x 0xFF).
  { intros x. rewrite to_ushort_byte by apply mask8_byte.
    apply mask8_id, mask8_byte. }
  unfold PackedRawKeyboard.bits at 1 2 3 4.
  cbn [PackedRawKeyboard.makeCode PackedRawKeyboard.flags PackedRawKeyboard.vKey
       PackedRawKeyboard.bits_adjustments].
  rewrite !Hfix. unfold Int.to_bits8. rewrite (mask8_id (Z.land _ 0xFF)) by apply mask8_byte.
  change (PackedRawKeyboard.mkBits (Z.land p 0xFF) (Z.land (Z.shiftr p 8) 0xFF)
            (Z.land (Z.shiftr p 16) 0xFF) (Z.land (Z.shiftr p 24) 0xFF))
    with (PackedRawKeyboard.bits p).
  rewrite store_bits by exact Hp. subst p. apply to_int_to_uint32, Hl.
Qed.

(** X11: every 32-bit LPARAM is the packed word of the event it unpacks
    to, so the list view can always rebuild the stored word from what it
    reads back. *)
Theorem X11_pack_unpack (l : Z) :
  - 2 ^ 31 <= l < 2 ^ 31 -> pack (unpack l) = l.
Proof. apply pack_unpack. Qed.

(** X12: for every event, 8-bit fields or not, the event read back from its
    packed word has the low byte of each of the four fields and zero in the
    fields that are not stored; packing and unpacking it once more gives
    the same event. *)
Theorem X12_unpack_pack_truncates (e : RawKeyboard) :
  MakeCode (unpack (pack e)) = Z.land (MakeCode e) 0xFF /\
  Flags (unpack (pack e)) = Z.land (Flags e) 0xFF /\
  VKey (unpack (pack e)) = Z.land (VKey e) 0xFF /\
  adjustments (unpack (pack e)) = Z.land (adjustments e) 0xFF /\
  Reserved (unpack (pack e)) = 0 /\
  Message (unpack (pack e)) = 0 /\
  ExtraInformation (unpack (pack e)) = 0 /\
  unpack (pack (unpack (pack e))) = unpack (pack e).
Proof.
  destruct (unpack_pack_fields e) as (Hm & Hf & Hv & Ha & _).
  repeat (split; [assumption || reflexivity |]).
  rewrite pack_unpack; [reflexivity |]. apply to_int_range.
Qed.

Lemma packed_storage_range (a b c d : Z) :
  0 <= PackedRawKeyboard.store
         (PackedRawKeyboard.mkBits (Z.land a 0xFF) (Z.land b 0xFF)
            (Z.land c 0xFF) (Z.land d 0xFF)) < 2 ^ 32.
Proof.
  set (s := PackedRawKeyboard.store _).
  assert (Hs : s mod 2 ^ 32 = s).
  { subst s. unfold PackedRawKeyboard.store.
    cbn [PackedRawKeyboard.makeCode PackedRawKeyboard.flags PackedRawKeyboard.vKey
         PackedRawKeyboard.bits_adjustments].
    bitwise. }
  rewrite <- Hs. apply Z.mod_pos_bound. lia.
Qed.

Lemma packed_storage_bit31 (a b c d : Z) :
  Z.testbit
    (PackedRawKeyboard.store
       (PackedRawKeyboard.mkBits (Z.land a 0xFF) (Z.land b 0xFF)
          (Z.land c 0xFF) (Z.land d 0xFF))) 31 = Z.testbit d 7.
Proof.
  unfold PackedRawKeyboard.store.
  cbn [PackedRawKeyboard.makeCode PackedRawKeyboard.flags PackedRawKeyboard.vKey
       PackedRawKeyboard.bits_adjustments].
  change 0xFF with (Z.ones 8). testbits. cbn.
  rewrite ?andb_false_r, ?andb_true_r, ?orb_false_l. reflexivity.
Qed.

Lemma bit31_sign (p : Z) :
  0 <= p < 2 ^ 32 -> (Int.to_int p < 0 <-> Z.testbit p 31 = true).
Proof.
  intros Hp. rewrite Z.testbit_true by lia. unfold Int.to_int.
  change (2 ^ 32) with 4294967296 in *. change (2 ^ 31) with 2147483648.
  split; intros H; Z.div_mod_to_equations; lia.
Qed.

Lemma has_bit7 (a : AdjustmentFlags.t) :
  AdjustmentFlags.has a AdjustmentFlags.ExtendedLookup = Z.testbit a 7.
Proof.
  unfold AdjustmentFlags.has, AdjustmentFlags.and, AdjustmentFlags.none,
    AdjustmentFlags.ExtendedLookup.
  change 0x80 with (2 ^ 7). destruct (Z.testbit a 7) eqn:Hb.
  - replace (Z.land a (2 ^ 7)) with (2 ^ 7); [reflexivity |].
    apply Z.bits_inj'; intros n Hn. rewrite Z.land_spec, Z.pow2_bits_eqb by lia.
    destruct (Z.eqb_spec 7 n) as [<- |]; [rewrite Hb; reflexivity |].
    apply eq_sym, andb_false_r.
  - replace (Z.land a (2 ^ 7)) with 0; [reflexivity |].
    apply Z.bits_inj'; intros n Hn.
    rewrite Z.land_spec, Z.pow2_bits_eqb, Z.bits_0 by lia.
    destruct (Z.eqb_spec 7 n) as [<- |]; [rewrite Hb; reflexivity |].
    apply eq_sym, andb_false_r.
Qed.

(** X13: the packed word always fits a signed 32-bit LPARAM, and it is
    negative exactly when the ExtendedLookup flag of the event is set. *)
Theorem X13_pack_sign (e : RawKeyboard) :
  - 2 ^ 31 <= pack e < 2 ^ 31 /\
  (pack e < 0 <->
     AdjustmentFlags.has (adjustments e) AdjustmentFlags.ExtendedLookup = true).
Proof.
  split; [apply to_int_range |].
  unfold pack, PackedRawKeyboard.lParam, PackedRawKeyboard.of_RawKeyboard, Int.to_bits8.
  rewrite bit31_sign by apply packed_storage_range.
  rewrite packed_storage_bit31, has_bit7. reflexivity.
Qed.

Lemma lor_0x100_byte (x : Z) : Int.is_byte x -> Z.lor x 0x100 = x + 0x100.
Proof.
  intros Hx.
  assert (Hl : Z.land x 0x100 = 0).
  { apply Z.bits_inj'; intros n Hn. rewrite Z.land_spec, Z.bits_0.
    change 0x100 with (2 ^ 8). rewrite Z.pow2_bits_eqb by lia.
    destruct (Z.eqb_spec 8 n) as [<- |]; [| apply andb_false_r].
    rewrite andb_true_r, <- (mask8_id x Hx), mask8_mod.
    apply Z.mod_pow2_bits_high. lia. }
  rewrite <- (Z.lxor_lor _ _ Hl). symmetry. apply Z.add_nocarry_lxor, Hl.
Qed.

(** X14: the lookup code of an event read back from its packed word has at
    most 9 bits: the low byte of the make code, and bit 8 when
    ExtendedLookup is set.  When the make code fits in 8 bits it is the
    lookup code the event had before it was packed. *)
Theorem X14_lookup_code_of_packed (e : RawKeyboard) :
  getLookupCode (unpack (pack e)) =
    Z.land (MakeCode e) 0xFF
    + (if AdjustmentFlags.has (adjustments e) AdjustmentFlags.ExtendedLookup
       then 0x100 else 0) /\
  0 <= getLookupCode (unpack (pack e)) < 0x200 /\
  (Int.is_byte (MakeCode e) ->
     getLookupCode (unpack (pack e)) = getLookupCode e).
Proof.
  destruct (unpack_pack_fields e) as (Hm & _ & _ & Ha & _).
  pose proof (mask8_byte (MakeCode e)) as Hb.
  assert (Hu : forall x, Int.is_byte x -> Int.is_ushort x).
  { unfold Int.is_byte, Int.is_ushort. intros x Hx.
    change (2 ^ 8) with 256 in Hx. change (2 ^ 16) with 65536. lia. }
  assert (Hhas : AdjustmentFlags.has (Z.land (adjustments e) 0xFF)
                   AdjustmentFlags.ExtendedLookup =
                 AdjustmentFlags.has (adjustments e) AdjustmentFlags.ExtendedLookup).
  { unfold AdjustmentFlags.has, AdjustmentFlags.and.
    rewrite <- Z.land_assoc. reflexivity. }
  assert (Hcode : getLookupCode (unpack (pack e)) =
            Z.land (MakeCode e) 0xFF
            + (if AdjustmentFlags.has (adjustments e) AdjustmentFlags.ExtendedLookup
               then 0x100 else 0)).
  { rewrite getLookupCode_eq by (rewrite Hm; apply Hu, Hb).
    rewrite Hm, Ha, Hhas.
    destruct (AdjustmentFlags.has (adjustments e) AdjustmentFlags.ExtendedLookup).
    - apply lor_0x100_byte, Hb.
    - symmetry. apply Z.add_0_r. }
  split; [exact Hcode |]. split.
  - rewrite Hcode. unfold Int.is_byte in Hb. change (2 ^ 8) with 256 in Hb.
    destruct (AdjustmentFlags.has (adjustments e) AdjustmentFlags.ExtendedLookup); lia.
  - intros Hbyte. rewrite Hcode, (getLookupCode_eq e (Hu _ Hbyte)).
    rewrite (mask8_id _ Hbyte).
    destruct (AdjustmentFlags.has (adjustments e) AdjustmentFlags.ExtendedLookup).
    + symmetry. apply lor_0x100_byte, Hbyte.
    + apply Z.add_0_r.
Qed.

End Codec.

(** ** adjustKeyboardInput (RawInputViewer.cpp, lines 22-112) *)

Ltac split_ifs :=
  repeat match goal with
    | |- context [if ?b then _ else _] => destruct b
    end.

Section NormalizerFacts.

Variable MapVirtualKey : Z -> Z -> Z.

Lemma adjustKeyboardInput_frame (w : MainWindow) (rawKbd : RawKeyboard) :
  let result := adjustKeyboardInput MapVirtualKey w rawKbd in
  Flags result.1.2 = Flags rawKbd /\
  isKeyDown result.1.2 = isKeyDown rawKbd /\
  Reserved result.1.2 = Reserved rawKbd /\
  Message result.1.2 = Message rawKbd /\
  ExtraInformation result.1.2 = ExtraInformation rawKbd /\
  scanCodeMapping_ result.2 = scanCodeMapping_ w /\
  vkeyMapping_ result.2 = vkeyMapping_ w /\
  (MakeCode rawKbd <> 0 -> MakeCode result.1.2 = MakeCode rawKbd).
Proof.
  unfold adjustKeyboardInput, mapMakeCode.
  destruct (Z.eqb_spec (MakeCode rawKbd) 0) as [Hz | Hz].
  - unfold adjustVirtualKey, adjustPauseNumLock. cbv zeta. split_ifs;
      cbn; repeat split; try reflexivity; intros; contradiction.
  - unfold adjustVirtualKey, adjustPauseNumLock. cbv zeta. split_ifs;
      cbn; repeat split; reflexivity.
Qed.

(** X15: adjustKeyboardInput never touches the flags, the key-down state,
    the reserved field, the message and the extra information of the event,
    nor the two tables of the window; a make code that is not zero is kept
    as it is. *)
Theorem X15_adjust_frame (w : MainWindow) (rawKbd : RawKeyboard) :
  let result := adjustKeyboardInput MapVirtualKey w rawKbd in
  Flags result.1.2 = Flags rawKbd /\
  isKeyDown result.1.2 = isKeyDown rawKbd /\
  Reserved result.1.2 = Reserved rawKbd /\
  Message result.1.2 = Message rawKbd /\
  ExtraInformation result.1.2 = ExtraInformation rawKbd /\
  scanCodeMapping_ result.2 = scanCodeMapping_ w /\
  vkeyMapping_ result.2 = vkeyMapping_ w /\
  (MakeCode rawKbd <> 0 -> MakeCode result.1.2 = MakeCode rawKbd).
Proof. apply adjustKeyboardInput_frame. Qed.

(** X16: the event that is shown depends on the window only through the
    pending E1 sequence, and on that only for make code 0x45: two windows,
    whatever their tables and whether or not an E0 sequence is pending,
    give the same result for the same record. *)
Theorem X16_state_dependence (w1 w2 : MainWindow) (keyboard : RAWKEYBOARD) :
  MakeCode (mapMakeCode MapVirtualKey (RawKeyboard_of keyboard)) <> 0x45 \/
  ScanCodeSequence_eqb (pendingSequence_ w1) SeqE1 =
    ScanCodeSequence_eqb (pendingSequence_ w2) SeqE1 ->
  (normalize MapVirtualKey w1 keyboard).1 = (normalize MapVirtualKey w2 keyboard).1.
Proof.
  intros H. unfold normalize, adjustKeyboardInput.
  destruct (MakeCode (RawKeyboard_of keyboard) =? KEYBOARD_OVERRUN_MAKE_CODE);
    [reflexivity |].
  destruct (isE1 (RawKeyboard_of keyboard)); [reflexivity |].
  destruct (isE0 (RawKeyboard_of keyboard) && (MakeCode (RawKeyboard_of keyboard) =? 0x2A));
    [reflexivity |].
  cbv zeta.
  destruct (MakeCode (mapMakeCode MapVirtualKey (RawKeyboard_of keyboard)) =? 0);
    [reflexivity |].
  cbn [fst]. do 2 f_equal. unfold adjustPauseNumLock.
  destruct (Z.eqb_spec (MakeCode (mapMakeCode MapVirtualKey (RawKeyboard_of keyboard))) 0x45)
    as [E | E]; [| reflexivity].
  destruct H as [H | H]; [contradiction |].
  cbn [pendingSequence_ set_pendingSequence]. rewrite H. reflexivity.
Qed.

(** *** What the adjustment flags of a shown event say *)

Lemma MakeCodeMapped_adjustVirtualKey (r : RawKeyboard) :
  AdjustmentFlags.has (adjustments (adjustVirtualKey r)) AdjustmentFlags.MakeCodeMapped =
  AdjustmentFlags.has (adjustments r) AdjustmentFlags.MakeCodeMapped.
Proof.
  unfold adjustVirtualKey. split_ifs;
    cbn [adjustments or_assign_adjustments assign_VKey];
    try reflexivity; apply has_or_other; reflexivity.
Qed.

Lemma MakeCodeMapped_adjustPauseNumLock (p : ScanCodeSequence) (r : RawKeyboard) :
  AdjustmentFlags.has (adjustments (adjustPauseNumLock p r)) AdjustmentFlags.MakeCodeMapped =
  AdjustmentFlags.has (adjustments r) AdjustmentFlags.MakeCodeMapped.
Proof.
  unfold adjustPauseNumLock. split_ifs;
    cbn [adjustments or_assign_adjustments assign_VKey];
    try reflexivity; apply has_or_other; reflexivity.
Qed.

Lemma MakeCodeMapped_of (keyboard : RAWKEYBOARD) :
  AdjustmentFlags.has (adjustments (RawKeyboard_of keyboard))
    AdjustmentFlags.MakeCodeMapped = false.
Proof.
  unfold RawKeyboard_of. cbn [adjustments].
  destruct (negb (Z.land (Flags keyboard) RI_KEY_E0 =? 0)); reflexivity.
Qed.

Lemma VirtualKeyAdjusted_of (keyboard : RAWKEYBOARD) :
  AdjustmentFlags.has (adjustments (RawKeyboard_of keyboard))
    AdjustmentFlags.VirtualKeyAdjusted = false.
Proof.
  unfold RawKeyboard_of. cbn [adjustments].
  destruct (negb (Z.land (Flags keyboard) RI_KEY_E0 =? 0)); reflexivity.
Qed.

Lemma adjustVirtualKey_unadjusted (r : RawKeyboard) :
  AdjustmentFlags.has (adjustments (adjustVirtualKey r))
    AdjustmentFlags.VirtualKeyAdjusted = false ->
  adjustVirtualKey r = r.
Proof.
  unfold adjustVirtualKey. split_ifs; try reflexivity;
    cbn [adjustments or_assign_adjustments assign_VKey];
    rewrite has_or_same by discriminate; discriminate.
Qed.

Lemma adjustPauseNumLock_unadjusted (p : ScanCodeSequence) (r : RawKeyboard) :
  AdjustmentFlags.has (adjustments (adjustPauseNumLock p r))
    AdjustmentFlags.VirtualKeyAdjusted = false ->
  VKey (adjustPauseNumLock p r) = VKey r /\
  AdjustmentFlags.has (adjustments r) AdjustmentFlags.VirtualKeyAdjusted = false.
Proof.
  unfold adjustPauseNumLock. split_ifs;
    cbn [adjustments or_assign_adjustments assign_VKey].
  - rewrite has_or_same by discriminate. discriminate.
  - rewrite has_or_other by reflexivity. auto.
  - auto.
Qed.

(** X17: on a shown event MakeCodeMapped is set exactly when the record
    came without a make code, and a make code that was there is shown as it
    came; when VirtualKeyAdjusted is not set, the virtual key is the one of
    the record. *)
Theorem X17_flags_tell_changes (w w' : MainWindow) (keyboard : RAWKEYBOARD)
    (e : RawKeyboard) :
  normalize MapVirtualKey w keyboard = (Some e, w') ->
  (AdjustmentFlags.has (adjustments e) AdjustmentFlags.MakeCodeMapped = true <->
     MakeCode keyboard = 0) /\
  (MakeCode keyboard <> 0 -> MakeCode e = MakeCode keyboard) /\
  (AdjustmentFlags.has (adjustments e) AdjustmentFlags.VirtualKeyAdjusted = false ->
     VKey e = VKey keyboard).
Proof.
  intros Hn. apply normalize_Some in Hn. destruct Hn as (-> & _).
  split; [| split].
  - rewrite MakeCodeMapped_adjustVirtualKey, MakeCodeMapped_adjustPauseNumLock.
    unfold mapMakeCode.
    change (MakeCode (RawKeyboard_of keyboard)) with (MakeCode keyboard).
    destruct (Z.eqb_spec (MakeCode keyboard) 0) as [Hz | Hz].
    + cbn [adjustments or_assign_adjustments assign_MakeCode].
      rewrite has_or_same by discriminate. tauto.
    + rewrite MakeCodeMapped_of. split; [discriminate | contradiction].
  - intros Hz. rewrite MakeCode_adjustVirtualKey, MakeCode_adjustPauseNumLock.
    unfold mapMakeCode.
    change (MakeCode (RawKeyboard_of keyboard)) with (MakeCode keyboard).
    rewrite (proj2 (Z.eqb_neq _ _) Hz). reflexivity.
  - intros Hv. rewrite (adjustVirtualKey_unadjusted _ Hv) in Hv |- *.
    apply adjustPauseNumLock_unadjusted in Hv. destruct Hv as [-> _].
    apply VKey_mapMakeCode.
Qed.

Lemma adjustVirtualKey_result (r : RawKeyboard) :
  (VKey (adjustVirtualKey r) = VK_SHIFT ->
     MakeCode r <> 0x2A /\ MakeCode r <> 0x36) /\
  (VKey (adjustVirtualKey r) = VK_CONTROL \/ VKey (adjustVirtualKey r) = VK_MENU ->
     Z.land (Flags r) RI_KEY_E0 = 0).
Proof.
  unfold adjustVirtualKey, isE0.
  destruct (Z.eqb_spec (VKey r) VK_SHIFT) as [Hs | Hs].
  - destruct (Z.eqb_spec (MakeCode r) 0x2a) as [Hl | Hl];
      [| destruct (Z.eqb_spec (MakeCode r) 0x36) as [Hr | Hr]];
      cbn [VKey base assign_VKey or_assign_adjustments set_VKey].
    + split; [discriminate | intros [H | H]; discriminate H].
    + split; [discriminate | intros [H | H]; discriminate H].
    + split; [auto |]. rewrite Hs. intros [H | H]; discriminate H.
  - destruct (Z.eqb_spec (VKey r) VK_CONTROL) as [Hc | Hc].
    + destruct (Z.eqb_spec (Z.land (Flags r) RI_KEY_E0) 0) as [He | He];
        cbn [negb VKey base assign_VKey or_assign_adjustments set_VKey].
      * split; [contradiction | auto].
      * split; [discriminate | intros [H | H]; discriminate H].
    + destruct (Z.eqb_spec (VKey r) VK_MENU) as [Hm | Hm].
      * destruct (Z.eqb_spec (Z.land (Flags r) RI_KEY_E0) 0) as [He | He];
          cbn [negb VKey base assign_VKey or_assign_adjustments set_VKey].
        -- split; [contradiction | auto].
        -- split; [discriminate | intros [H | H]; discriminate H].
      * split; [contradiction | intros [H | H]; contradiction].
Qed.

(** X18: a shown event is never left ambiguous: its virtual key is generic
    Shift only when the make code is neither 0x2A nor 0x36, and generic
    Control or Menu only when the E0 flag is not set. *)
Theorem X18_no_ambiguous_key (w w' : MainWindow) (keyboard : RAWKEYBOARD)
    (e : RawKeyboard) :
  normalize MapVirtualKey w keyboard = (Some e, w') ->
  (VKey e = VK_SHIFT -> MakeCode e <> 0x2A /\ MakeCode e <> 0x36) /\
  (VKey e = VK_CONTROL \/ VKey e = VK_MENU -> Z.land (Flags e) RI_KEY_E0 = 0).
Proof.
  intros Hn. apply normalize_Some in Hn. destruct Hn as (-> & _).
  rewrite MakeCode_adjustVirtualKey, Flags_adjustVirtualKey.
  apply adjustVirtualKey_result.
Qed.

(** *** Shown events and the packed word *)

Lemma fits_or (a f : AdjustmentFlags.t) :
  Z.land a 0xFF = a -> Z.land f 0xFF = f ->
  Z.land (AdjustmentFlags.or a f) 0xFF = AdjustmentFlags.or a f.
Proof.
  intros Ha Hf. unfold AdjustmentFlags.or.
  rewrite Z.land_lor_distr_l, Ha, Hf. reflexivity.
Qed.

Lemma adjustments_fit (p : ScanCodeSequence) (keyboard : RAWKEYBOARD) :
  let e := adjustVirtualKey
             (adjustPauseNumLock p (mapMakeCode MapVirtualKey (RawKeyboard_of keyboard))) in
  Z.land (adjustments e) 0xFF = adjustments e.
Proof.
  assert (H0 : Z.land (adjustments (RawKeyboard_of keyboard)) 0xFF =
               adjustments (RawKeyboard_of keyboard)).
  { unfold RawKeyboard_of. cbn [adjustments].
    destruct (negb (Z.land (Flags keyboard) RI_KEY_E0 =? 0)); reflexivity. }
  cbv zeta. unfold adjustVirtualKey, adjustPauseNumLock, mapMakeCode.
  split_ifs; cbn [adjustments or_assign_adjustments assign_VKey assign_MakeCode];
    repeat (apply fits_or; [| reflexivity]); exact H0.
Qed.

Lemma isKeyDown_unpack_pack (r : RawKeyboard) :
  isKeyDown (unpack (pack r)) = (Z.land (Flags r) RI_KEY_BREAK =? 0).
Proof.
  destruct (unpack_pack_fields r) as (_ & Hf & _ & _ & Hk).
  rewrite Hk, Hf, <- Z.land_assoc. reflexivity.
Qed.

(** X19: what a shown event says survives the packed word, whatever the
    16-bit fields of the record hold: the adjustment flags are read back
    unchanged, and so is the key-down state, which is the one of the
    record's flags. *)
Theorem X19_shown_event_survives_packing (w w' : MainWindow)
    (keyboard : RAWKEYBOARD) (e : RawKeyboard) :
  normalize MapVirtualKey w keyboard = (Some e, w') ->
  adjustments (unpack (pack e)) = adjustments e /\
  isKeyDown (unpack (pack e)) = isKeyDown e /\
  isKeyDown e = (Z.land (Flags keyboard) RI_KEY_BREAK =? 0).
Proof.
  intros Hn. apply normalize_Some in Hn. destruct Hn as (-> & _).
  split; [| split].
  - destruct (unpack_pack_fields
                (adjustVirtualKey
                   (adjustPauseNumLock (pendingSequence_ w)
                      (mapMakeCode MapVirtualKey (RawKeyboard_of keyboard)))))
      as (_ & _ & _ & -> & _).
    apply adjustments_fit.
  - rewrite isKeyDown_unpack_pack.
    rewrite Flags_adjustVirtualKey, Flags_adjustPauseNumLock, Flags_mapMakeCode.
    unfold adjustVirtualKey, adjustPauseNumLock, mapMakeCode. split_ifs; reflexivity.
  - unfold adjustVirtualKey, adjustPauseNumLock, mapMakeCode. split_ifs; reflexivity.
Qed.

Lemma shown_event_flags (w w' : MainWindow) (keyboard : RAWKEYBOARD) (e : RawKeyboard) :
  normalize MapVirtualKey w keyboard = (Some e, w') ->
  isKeyDown e = (Z.land (Flags keyboard) RI_KEY_BREAK =? 0) /\
  Flags e = Flags keyboard.
Proof.
  intros Hn. apply normalize_Some in Hn. destruct Hn as (-> & _).
  split.
  - unfold adjustVirtualKey, adjustPauseNumLock, mapMakeCode. split_ifs; reflexivity.
  - rewrite Flags_adjustVirtualKey, Flags_adjustPauseNumLock, Flags_mapMakeCode.
    reflexivity.
Qed.

End NormalizerFacts.

(** ** The input handler and the list (RawInputViewer.cpp, lines 114-126,
    338-382, 688-711) *)

Section ViewerFacts.

Variable MapVirtualKey : Z -> Z -> Z.

Lemma insertItem_end (rawKbd : RawKeyboard) (items : list LVITEM) :
  insertItem (length items) rawKbd items = items ++ [item_of rawKbd].
Proof.
  unfold insertItem, item_of. rewrite List.firstn_all, List.skipn_all. reflexivity.
Qed.

Lemma onInput_keyboard_off (keyboard : RAWKEYBOARD) (v : Viewer) :
  adjustmentChecked v = false ->
  onInput MapVirtualKey (RIM_TYPEKEYBOARD keyboard) v =
    mkViewer (window v) false (listItems v ++ [item_of (RawKeyboard_of keyboard)]).
Proof.
  intros H. unfold onInput, addKeyEventToListView. rewrite H. cbn [negb].
  rewrite insertItem_end. reflexivity.
Qed.

Lemma onInput_keyboard_on (keyboard : RAWKEYBOARD) (v : Viewer) :
  adjustmentChecked v = true ->
  onInput MapVirtualKey (RIM_TYPEKEYBOARD keyboard) v =
    mkViewer (normalize MapVirtualKey (window v) keyboard).2 true
      (listItems v ++
         match (normalize MapVirtualKey (window v) keyboard).1 with
         | Some e => [item_of e]
         | None => []
         end).
Proof.
  intros H. unfold onInput, normalize, addKeyEventToListView. rewrite H. cbn [negb].
  destruct (adjustKeyboardInput MapVirtualKey (window v) (RawKeyboard_of keyboard))
    as [[shown rawKbd] w].
  destruct shown; cbn [fst snd listItems window adjustmentChecked].
  - rewrite insertItem_end. reflexivity.
  - rewrite List.app_nil_r. reflexivity.
Qed.

(** X20: with the adjustment button off nothing is suppressed and nothing
    is adjusted: a run of keyboard records appends one item per record, in
    order, overrun markers and prefix records included, and leaves the
    window, pending sequence included, as it was. *)
Theorem X20_adjustment_off (keyboards : list RAWKEYBOARD) (v : Viewer) :
  adjustmentChecked v = false ->
  onInputs MapVirtualKey (List.map RIM_TYPEKEYBOARD keyboards) v =
    mkViewer (window v) false
      (listItems v ++ List.map (fun k => item_of (RawKeyboard_of k)) keyboards).
Proof.
  revert v. induction keyboards as [|k ks IH]; intros v H.
  - cbn. rewrite List.app_nil_r, <- H. destruct v; reflexivity.
  - cbn [List.map onInputs fold_left].
    change (fold_left _ ?l ?x) with (onInputs MapVirtualKey l x).
    rewrite onInput_keyboard_off by exact H. rewrite IH by reflexivity.
    cbn [window listItems]. rewrite <- List.app_assoc. reflexivity.
Qed.

Lemma icon_agrees_item_of (r : RawKeyboard) :
  isKeyDown r = (Z.land (Flags r) RI_KEY_BREAK =? 0) ->
  icon_agrees (item_of r).
Proof.
  intros H. unfold icon_agrees, item_of. cbn [item_iImage item_lParam].
  rewrite isKeyDown_unpack_pack, <- H. reflexivity.
Qed.

Lemma icon_agrees_onInput (raw : RAWINPUT) (v : Viewer) :
  Forall icon_agrees (listItems v) ->
  Forall icon_agrees (listItems (onInput MapVirtualKey raw v)).
Proof.
  intros Hv. destruct raw as [keyboard | usButtonFlags |].
  - destruct (adjustmentChecked v) eqn:Hadj.
    + rewrite onInput_keyboard_on by exact Hadj. cbn [listItems].
      apply List.Forall_app. split; [exact Hv |].
      destruct (normalize MapVirtualKey (window v) keyboard) as [[e|] w'] eqn:Hn;
        cbn [fst]; [| constructor].
      constructor; [| constructor]. apply icon_agrees_item_of.
      destruct (shown_event_flags MapVirtualKey _ _ _ _ Hn) as (Hk & Hf). rewrite Hk, Hf. reflexivity.
    + rewrite onInput_keyboard_off by exact Hadj. cbn [listItems].
      apply List.Forall_app. split; [exact Hv |].
      constructor; [| constructor]. apply icon_agrees_item_of. reflexivity.
  - unfold onInput, clearListView.
    destruct (negb (Z.land usButtonFlags RI_MOUSE_RIGHT_BUTTON_UP =? 0));
      [constructor | exact Hv].
  - exact Hv.
Qed.

(** X21: over any run of input records the icon of every item agrees with
    the key-down state of the event read back from the item's word, when it
    does so at the start (an empty list, for one). *)
Theorem X21_icons_agree (raws : list RAWINPUT) (v : Viewer) :
  Forall icon_agrees (listItems v) ->
  Forall icon_agrees (listItems (onInputs MapVirtualKey raws v)).
Proof.
  revert v. induction raws as [|raw raws IH]; intros v Hv; [exact Hv |].
  cbn [onInputs fold_left].
  change (fold_left _ ?l ?x) with (onInputs MapVirtualKey l x).
  apply IH, icon_agrees_onInput, Hv.
Qed.

Lemma onInput_keyboard_grows (keyboard : RAWKEYBOARD) (v : Viewer) :
  exists more : list LVITEM,
    listItems (onInput MapVirtualKey (RIM_TYPEKEYBOARD keyboard) v) =
      listItems v ++ more /\
    (length more <= 1)%nat.
Proof.
  destruct (adjustmentChecked v) eqn:Hadj.
  - rewrite onInput_keyboard_on by exact Hadj. cbn [listItems].
    eexists. split; [reflexivity |].
    destruct (normalize MapVirtualKey (window v) keyboard).1; cbn; lia.
  - rewrite onInput_keyboard_off by exact Hadj. cbn [listItems].
    eexists. split; [reflexivity |]. cbn. lia.
Qed.

(** X22: keyboard records only ever append to the list: after a run of
    keyboard records the old items are still there, unchanged and in front,
    and at most one item per record has been added. *)
Theorem X22_list_grows_at_end (keyboards : list RAWKEYBOARD) (v : Viewer) :
  exists more : list LVITEM,
    listItems (onInputs MapVirtualKey (List.map RIM_TYPEKEYBOARD keyboards) v) =
      listItems v ++ more /\
    (length more <= length keyboards)%nat.
Proof.
  revert v. induction keyboards as [|k ks IH]; intros v.
  - exists []. split; [cbn; rewrite List.app_nil_r; reflexivity | cbn; lia].
  - cbn [List.map onInputs fold_left].
    change (fold_left _ ?l ?x) with (onInputs MapVirtualKey l x).
    destruct (onInput_keyboard_grows k v) as (m1 & H1 & L1).
    destruct (IH (onInput MapVirtualKey (RIM_TYPEKEYBOARD k) v)) as (m2 & H2 & L2).
    exists (m1 ++ m2). split.
    + rewrite H2, H1, List.app_assoc. reflexivity.
    + rewrite List.length_app. cbn [length]. lia.
Qed.

(** X23: a mouse record with the right button going up empties the list
    and forgets a pending sequence, keeping the tables and the adjustment
    button; so a make code 0x45 that comes next is taken for Num Lock even
    when an E1 prefix came before the click. *)
Theorem X23_right_click_clears (usButtonFlags : Z) (second : RAWKEYBOARD) (v : Viewer) :
  Z.land usButtonFlags RI_MOUSE_RIGHT_BUTTON_UP <> 0 ->
  adjustmentChecked v = true ->
  MakeCode second = 0x45 ->
  Z.land (Flags second) RI_KEY_E0 = 0 ->
  Z.land (Flags second) RI_KEY_E1 = 0 ->
  let cleared := onInput MapVirtualKey (RIM_TYPEMOUSE usButtonFlags) v in
  listItems cleared = [] /\
  pendingSequence_ (window cleared) = SeqNone /\
  scanCodeMapping_ (window cleared) = scanCodeMapping_ (window v) /\
  vkeyMapping_ (window cleared) = vkeyMapping_ (window v) /\
  adjustmentChecked cleared = adjustmentChecked v /\
  exists e,
    listItems (onInput MapVirtualKey (RIM_TYPEKEYBOARD second) cleared) = [item_of e] /\
    AdjustmentFlags.has (adjustments e) AdjustmentFlags.ExtendedLookup = true /\
    VKey e = VKey second.
Proof.
  intros Hup Hadj Hm He0 He1 cleared.
  assert (Hc : cleared = clearListView v).
  { subst cleared. unfold onInput. rewrite (proj2 (Z.eqb_neq _ _) Hup). reflexivity. }
  rewrite Hc. unfold clearListView at 1 2 3 4 5.
  cbn [listItems window adjustmentChecked pendingSequence_ set_pendingSequence
       scanCodeMapping_ vkeyMapping_].
  repeat (split; [reflexivity |]).
  rewrite onInput_keyboard_on by exact Hadj.
  unfold clearListView. cbn [listItems window List.app].
  assert (Hmap : mapMakeCode MapVirtualKey (RawKeyboard_of second) =
                 RawKeyboard_of second).
  { unfold mapMakeCode.
    change (MakeCode (RawKeyboard_of second)) with (MakeCode second).
    rewrite Hm. reflexivity. }
  rewrite normalize_pass.
  - cbn [fst pendingSequence_ set_pendingSequence]. rewrite Hmap.
    eexists. split; [reflexivity |].
    unfold adjustPauseNumLock.
    change (MakeCode (RawKeyboard_of second)) with (MakeCode second).
    rewrite Hm.
    change (if 0x45 =? 0x45 then _ else _) with
      (or_assign_adjustments AdjustmentFlags.ExtendedLookup (RawKeyboard_of second)).
    split.
    + apply has_adjustVirtualKey. cbn [adjustments or_assign_adjustments].
      apply has_or_same. discriminate.
    + unfold adjustVirtualKey, isE0.
      cbn [base or_assign_adjustments RawKeyboard_of VKey MakeCode Flags].
      rewrite Hm, He0. cbn.
      destruct (VKey second =? VK_SHIFT), (VKey second =? VK_CONTROL),
        (VKey second =? VK_MENU); reflexivity.
  - rewrite Hm. discriminate.
  - exact He1.
  - left. exact He0.
  - rewrite Hmap. change (MakeCode (RawKeyboard_of second)) with (MakeCode second).
    rewrite Hm. discriminate.
Qed.

End ViewerFacts.

(** ** Custom draw (RawInputViewer.cpp, lines 282-312) *)

Section CustomDraw.

Lemma has_either (a : AdjustmentFlags.t) :
  AdjustmentFlags.has a
    (AdjustmentFlags.or AdjustmentFlags.MakeCodeMapped AdjustmentFlags.VirtualKeyAdjusted) =
  AdjustmentFlags.has a AdjustmentFlags.MakeCodeMapped
  || AdjustmentFlags.has a AdjustmentFlags.VirtualKeyAdjusted.
Proof.
  unfold AdjustmentFlags.has, AdjustmentFlags.and, AdjustmentFlags.or, AdjustmentFlags.none.
  rewrite Z.land_lor_distr_r.
  destruct (Z.eqb_spec (Z.land a AdjustmentFlags.MakeCodeMapped) 0) as [-> | H1];
    destruct (Z.eqb_spec (Z.land a AdjustmentFlags.VirtualKeyAdjusted) 0) as [-> | H2];
    cbn [negb orb]; try reflexivity;
    apply negb_true_iff, Z.eqb_neq; rewrite Z.lor_eq_0_iff; tauto.
Qed.

Lemma column_in_mask (i mask : Z) :
  0 <= i -> negb (Z.land (Z.shiftl 1 i) mask =? 0) = Z.testbit mask i.
Proof.
  intros Hi. rewrite Z.shiftl_1_l.
  assert (Hp : 2 ^ i <> 0) by (apply Z.pow_nonzero; lia).
  destruct (Z.testbit mask i) eqn:Hb.
  - replace (Z.land (2 ^ i) mask) with (2 ^ i);
      [apply negb_true_iff, Z.eqb_neq, Hp |].
    apply Z.bits_inj'; intros n Hn. rewrite Z.land_spec, Z.pow2_bits_eqb by lia.
    destruct (Z.eqb_spec i n) as [<- |]; [rewrite Hb |]; reflexivity.
  - replace (Z.land (2 ^ i) mask) with 0; [reflexivity |].
    apply Z.bits_inj'; intros n Hn.
    rewrite Z.land_spec, Z.pow2_bits_eqb, Z.bits_0 by lia.
    destruct (Z.eqb_spec i n) as [<- |]; [rewrite Hb |]; reflexivity.
Qed.

Lemma testbit_6 (i : Z) : 0 <= i -> (Z.testbit 6 i = true <-> i = 1 \/ i = 2).
Proof.
  intros Hi.
  assert (Hc : i = 0 \/ i = 1 \/ i = 2 \/ 3 <= i) by lia.
  destruct Hc as [-> | [-> | [-> | Hc]]];
    [ change (Z.testbit 6 0) with false
    | change (Z.testbit 6 1) with true
    | change (Z.testbit 6 2) with true
    | rewrite Z.bits_above_log2 by (cbn; lia) ];
    intuition (discriminate || lia).
Qed.

Lemma testbit_8 (i : Z) : 0 <= i -> (Z.testbit 8 i = true <-> i = 3).
Proof.
  intros Hi.
  assert (Hc : i = 0 \/ i = 1 \/ i = 2 \/ i = 3 \/ 4 <= i) by lia.
  destruct Hc as [-> | [-> | [-> | [-> | Hc]]]];
    [ change (Z.testbit 8 0) with false
    | change (Z.testbit 8 1) with false
    | change (Z.testbit 8 2) with false
    | change (Z.testbit 8 3) with true
    | rewrite Z.bits_above_log2 by (cbn; lia) ];
    intuition (discriminate || lia).
Qed.

(** X24: custom draw of a sub-item.  The default drawing is kept exactly for
    items with neither MakeCodeMapped nor VirtualKeyAdjusted in their word;
    otherwise the bold font is chosen for sub-items 1 and 2 when
    VirtualKeyAdjusted is set, and for sub-item 3 when only MakeCodeMapped
    is set; with both flags set sub-item 3 is not bold. *)
Theorem X24_bold_columns (lItemlParam iSubItem : Z) :
  0 <= iSubItem <= 30 ->
  let a := adjustments (unpack lItemlParam) in
  (customDrawSubItem lItemlParam iSubItem = None <->
     AdjustmentFlags.has a AdjustmentFlags.MakeCodeMapped = false /\
     AdjustmentFlags.has a AdjustmentFlags.VirtualKeyAdjusted = false) /\
  (customDrawSubItem lItemlParam iSubItem = Some true <->
     (AdjustmentFlags.has a AdjustmentFlags.VirtualKeyAdjusted = true /\
      (iSubItem = 1 \/ iSubItem = 2)) \/
     (AdjustmentFlags.has a AdjustmentFlags.VirtualKeyAdjusted = false /\
      AdjustmentFlags.has a AdjustmentFlags.MakeCodeMapped = true /\
      iSubItem = 3)).
Proof.
  intros Hi a. unfold customDrawSubItem. fold a. rewrite has_either.
  rewrite !column_in_mask by lia.
  pose proof (testbit_6 iSubItem ltac:(lia)) as H6.
  pose proof (testbit_8 iSubItem ltac:(lia)) as H8.
  destruct (AdjustmentFlags.has a AdjustmentFlags.MakeCodeMapped),
    (AdjustmentFlags.has a AdjustmentFlags.VirtualKeyAdjusted); cbn [orb].
  - split; [split; [discriminate | intros [? ?]; discriminate] |].
    split.
    + intros [= H]. left. split; [reflexivity | apply H6, H].
    + intros [[_ H] | [H _]]; [| discriminate]. f_equal. apply H6, H.
  - split; [split; [discriminate | intros [? ?]; discriminate] |].
    split.
    + intros [= H]. right. repeat split. apply H8, H.
    + intros [[H _] | (_ & _ & H)]; [discriminate |]. f_equal. apply H8, H.
  - split; [split; [discriminate | intros [? ?]; discriminate] |].
    split.
    + intros [= H]. left. split; [reflexivity | apply H6, H].
    + intros [[_ H] | (_ & H & _)]; [| discriminate]. f_equal. apply H6, H.
  - split; [split; [auto | reflexivity] |].
    split; [discriminate |]. intros [[H _] | (_ & H & _)]; discriminate.
Qed.

End CustomDraw.

(** ** From the records to the drawn row *)

Section EndToEnd.

Variable MapVirtualKey : Z -> Z -> Z.

(** X25: the Pause key, end to end.  With the adjustment button on, an E1
    record (not an overrun) followed by a record with make code 0x45 and no
    prefix flag adds exactly one item; read back from its word the event
    has the virtual key VK_PAUSE, and custom draw chooses the bold font for
    the two virtual-key sub-items 1 and 2 and the normal font for the
    make-code sub-item 3. *)
Theorem X25_pause_row (first second : RAWKEYBOARD) (v : Viewer) :
  adjustmentChecked v = true ->
  Z.land (Flags first) RI_KEY_E1 <> 0 ->
  MakeCode first <> KEYBOARD_OVERRUN_MAKE_CODE ->
  MakeCode second = 0x45 ->
  Z.land (Flags second) RI_KEY_E0 = 0 ->
  Z.land (Flags second) RI_KEY_E1 = 0 ->
  exists it : LVITEM,
    listItems
      (onInputs MapVirtualKey [RIM_TYPEKEYBOARD first; RIM_TYPEKEYBOARD second] v) =
      listItems v ++ [it] /\
    VKey (unpack (item_lParam it)) = VK_PAUSE /\
    customDrawSubItem (item_lParam it) 1 = Some true /\
    customDrawSubItem (item_lParam it) 2 = Some true /\
    customDrawSubItem (item_lParam it) 3 = Some false.
Proof.
  intros Hadj Hf1 Hfo Hm He0 He1.
  cbn [onInputs fold_left].
  rewrite (onInput_keyboard_on MapVirtualKey first v Hadj).
  rewrite normalize_E1 by assumption. cbn [fst snd].
  rewrite onInput_keyboard_on by reflexivity.
  cbn [window listItems]. rewrite List.app_nil_r.
  assert (Hmap : mapMakeCode MapVirtualKey (RawKeyboard_of second) =
                 RawKeyboard_of second).
  { unfold mapMakeCode.
    change (MakeCode (RawKeyboard_of second)) with (MakeCode second).
    rewrite Hm. reflexivity. }
  rewrite normalize_pass;
    [ | rewrite Hm; discriminate | exact He1 | left; exact He0
      | rewrite Hmap; change (MakeCode (RawKeyboard_of second)) with (MakeCode second);
        rewrite Hm; discriminate ].
  cbn [fst pendingSequence_ set_pendingSequence]. rewrite Hmap.
  set (e := adjustVirtualKey (adjustPauseNumLock SeqE1 (RawKeyboard_of second))).
  assert (He : e = or_assign_adjustments AdjustmentFlags.VirtualKeyAdjusted
                     (assign_VKey VK_PAUSE (RawKeyboard_of second))).
  { subst e. unfold adjustPauseNumLock.
    change (MakeCode (RawKeyboard_of second)) with (MakeCode second).
    rewrite Hm. reflexivity. }
  assert (Ha : adjustments e = AdjustmentFlags.VirtualKeyAdjusted).
  { rewrite He. unfold RawKeyboard_of. cbn [adjustments or_assign_adjustments assign_VKey].
    rewrite He0. reflexivity. }
  assert (Hv : VKey e = VK_PAUSE) by (rewrite He; reflexivity).
  destruct (unpack_pack_fields e) as (_ & _ & Uv & Ua & _).
  exists (item_of e). split; [reflexivity |].
  unfold item_of. cbn [item_lParam]. split.
  - rewrite Uv, Hv. reflexivity.
  - unfold customDrawSubItem. rewrite Ua, Ha. repeat split; reflexivity.
Qed.

End EndToEnd.

(** ** Header user data (RawInputViewer.cpp, lines 840-850, 868-881) *)

Section HeaderFacts.

Lemma to_int_mod (x : Z) : Int.to_int x mod 2 ^ 32 = x mod 2 ^ 32.
Proof.
  unfold Int.to_int. change (2 ^ 32) with 4294967296. change (2 ^ 31) with 2147483648.
  Z.div_mod_to_equations. lia.
Qed.

Lemma testbit_to_int (x n : Z) :
  n < 32 -> Z.testbit (Int.to_int x) n = Z.testbit x n.
Proof.
  intros Hn.
  rewrite <- (Z.mod_pow2_bits_low (Int.to_int x) 32 n) by lia.
  rewrite to_int_mod. apply Z.mod_pow2_bits_low. lia.
Qed.

Lemma LOWORD_MAKELONG (a b : Z) :
  Int.LOWORD (Header.MAKELONG a b) = Z.land a 0xffff.
Proof.
  unfold Int.LOWORD, Header.MAKELONG.
  apply Z.bits_inj'; intros n Hn. change 0xffff with (Z.ones 16).
  rewrite !Z.land_spec, Z.testbit_ones by lia.
  destruct (Z.leb_spec 0 n); [| lia]. destruct (Z.ltb_spec n 16); cbn [andb].
  - rewrite !andb_true_r, testbit_to_int by lia.
    rewrite Z.lor_spec, Z.land_spec, Z.shiftl_spec, Z.testbit_ones by lia.
    rewrite (Z.testbit_neg_r _ (n - 16)) by lia.
    destruct (Z.leb_spec 0 n); [| lia]. destruct (Z.ltb_spec n 16); [| lia].
    cbn [andb]. rewrite andb_true_r, orb_false_r. reflexivity.
  - rewrite !andb_false_r. reflexivity.
Qed.

Lemma HIWORD_MAKELONG (a b : Z) :
  Header.HIWORD (Header.MAKELONG a b) = Z.land b 0xffff.
Proof.
  unfold Header.HIWORD, Header.MAKELONG.
  apply Z.bits_inj'; intros n Hn. change 0xffff with (Z.ones 16).
  rewrite !Z.land_spec, Z.shiftr_spec, Z.testbit_ones by lia.
  destruct (Z.leb_spec 0 n); [| lia]. destruct (Z.ltb_spec n 16); cbn [andb].
  - rewrite !andb_true_r, testbit_to_int by lia.
    rewrite Z.lor_spec, Z.land_spec, Z.shiftl_spec, Z.land_spec, !Z.testbit_ones by lia.
    replace (n + 16 - 16) with n by lia.
    destruct (Z.leb_spec 0 (n + 16)); [| lia]. destruct (Z.ltb_spec (n + 16) 16); [lia |].
    destruct (Z.leb_spec 0 n); [| lia]. destruct (Z.ltb_spec n 16); [| lia].
    cbn [andb]. rewrite andb_false_r, andb_true_r. reflexivity.
  - rewrite !andb_false_r. reflexivity.
Qed.

(** X26: the user data of a header column.  What setHeaderUserData stores
    in an existing column is what getHeaderUserData reads back, each number
    cut to 16 bits, and the display format of the column follows from it;
    the other columns keep their data; for a column that does not exist
    nothing is stored and the data read is (0, 0), the default format. *)
Theorem X26_header_user_data (column resourceId checkedMenuItem : Z)
    (header : list Z) :
  let header' := Header.setHeaderUserData column resourceId checkedMenuItem header in
  (0 <= column < Z.of_nat (length header) ->
     Header.getHeaderUserData column header' =
       (Z.land resourceId 0xffff, Z.land checkedMenuItem 0xffff) /\
     Header.getDisplayFormat column header' =
       if (Z.land resourceId 0xffff =? 0) || (Z.land checkedMenuItem 0xffff =? 0)
       then Header.Default else Z.land checkedMenuItem 0xffff) /\
  (forall other : Z,
     other <> column ->
     Header.getHeaderUserData other header' = Header.getHeaderUserData other header) /\
  (~ 0 <= column < Z.of_nat (length header) ->
     header' = header /\
     Header.getHeaderUserData column header = (0, 0) /\
     Header.getDisplayFormat column header = Header.Default).
Proof.
  intros header'. subst header'.
  unfold Header.getDisplayFormat, Header.getHeaderUserData, Header.setHeaderUserData,
    Header.item_lParam, Header.MAKELPARAM.
  split; [| split].
  - intros [H0 Hlen]. rewrite (proj2 (Z.leb_le 0 column) H0).
    rewrite list_lookup_insert_eq by lia. cbn [default from_option id].
    rewrite LOWORD_MAKELONG, HIWORD_MAKELONG. split; reflexivity.
  - intros other Hne.
    destruct (Z.leb_spec 0 column) as [Hc | Hc]; [| reflexivity].
    destruct (Z.leb_spec 0 other) as [Ho | Ho]; [| reflexivity].
    rewrite list_lookup_insert_ne by lia. reflexivity.
  - intros Hout. destruct (Z.leb_spec 0 column) as [Hc | Hc].
    + assert (Hge : (length header <= Z.to_nat column)%nat) by lia.
      rewrite (list_insert_ge _ _ _ Hge).
      rewrite (lookup_ge_None_2 _ _ Hge). repeat split; reflexivity.
    + repeat split; reflexivity.
Qed.

End HeaderFacts.

(** ** getListViewItemDisplayInfo (RawInputViewer.cpp, lines 181-280) *)

Section DisplayFacts.

Variables IDC_POPUP_DEC IDC_POPUP_HEX IDC_POPUP_BIN : Z.
Variables IDC_POPUP_SML IDC_POPUP_RAY IDC_POPUP_GLFW : Z.

Let displayInfo :=
  getListViewItemDisplayInfo IDC_POPUP_HEX IDC_POPUP_BIN
    IDC_POPUP_SML IDC_POPUP_RAY IDC_POPUP_GLFW.

Lemma lookupKeyCode_fallback (w : MainWindow) (rawKbd : RawKeyboard) :
  is_Some (scanCodeMapping_ w !! 0x000) -> is_Some (lookupKeyCode w rawKbd).
Proof.
  intros [s Hs]. unfold lookupKeyCode.
  destruct (scanCodeMapping_ w !! getLookupCode rawKbd) as [v|] eqn:Hv.
  - rewrite (find_Some _ _ _ Hv). eauto.
  - rewrite (find_None _ _ Hv), (find_Some _ _ _ Hs). eauto.
Qed.

Lemma lookupVirtualKey_fallback (w : MainWindow) (rawKbd : RawKeyboard) :
  is_Some (vkeyMapping_ w !! 0xff) -> is_Some (lookupVirtualKey w rawKbd).
Proof.
  intros [s Hs]. unfold lookupVirtualKey.
  destruct (vkeyMapping_ w !! VKey rawKbd) as [v|] eqn:Hv.
  - rewrite (find_Some _ _ _ Hv). eauto.
  - rewrite (find_None _ _ Hv), (find_Some _ _ _ Hs). eauto.
Qed.

Lemma unpack_fields_byte (l : Z) :
  Int.is_byte (MakeCode (unpack l)) /\
  Int.is_byte (Flags (unpack l)) /\
  Int.is_byte (VKey (unpack l)).
Proof.
  unfold unpack, PackedRawKeyboard.getRawKeyboard, RawKeyboard_with, RawKeyboard_of,
    PackedRawKeyboard.bits.
  cbn [base MakeCode Flags VKey PackedRawKeyboard.makeCode PackedRawKeyboard.flags
       PackedRawKeyboard.vKey].
  rewrite !to_ushort_byte by apply mask8_byte.
  repeat split; apply mask8_byte.
Qed.

Lemma formatIntegral_version_0 (from format : Z) :
  formatIntegral IDC_POPUP_HEX IDC_POPUP_BIN from format 0 = IntCell FmtHex04 from \/
  formatIntegral IDC_POPUP_HEX IDC_POPUP_BIN from format 0 = IntCell FmtBin010 from \/
  formatIntegral IDC_POPUP_HEX IDC_POPUP_BIN from format 0 = IntCell FmtPlain from.
Proof.
  unfold formatIntegral. cbv zeta.
  destruct (Z.eqb_spec (Header.MAKELONG format 0) (Header.MAKELONG IDC_POPUP_HEX 0));
    [left; reflexivity |].
  destruct (Z.eqb_spec (Header.MAKELONG format 0) (Header.MAKELONG IDC_POPUP_HEX 1)) as [E | _].
  { apply (f_equal Header.HIWORD) in E. rewrite !HIWORD_MAKELONG in E. discriminate E. }
  destruct (Z.eqb_spec (Header.MAKELONG format 0) (Header.MAKELONG IDC_POPUP_HEX 2)) as [E | _].
  { apply (f_equal Header.HIWORD) in E. rewrite !HIWORD_MAKELONG in E. discriminate E. }
  destruct (Header.MAKELONG format 0 =? Header.MAKELONG IDC_POPUP_BIN 0); auto.
Qed.

(** X27: with the rows 0x000 and 0xFF in the tables the display callback
    never dereferences the end of a table, for any stored word, header and
    sub-item, and when a text is asked for it gives one for the sub-items 0
    to 4 and 6.  Whatever the tables, the sub-items 2, 3 and 4 show the
    virtual key, the make code and the flags read back from the word, each
    a number below 256, in hex with two digits, in binary or plain. *)
Theorem X27_display_info (w : MainWindow) (header : list Z)
    (mask lParam iSubItem : Z) :
  (is_Some (scanCodeMapping_ w !! 0x000) ->
   is_Some (vkeyMapping_ w !! 0xff) ->
   displayInfo w header mask lParam iSubItem <> DerefEnd /\
   (Z.land mask LVIF_TEXT <> 0 ->
    0 <= iSubItem <= 4 \/ iSubItem = 6 ->
    exists cell, displayInfo w header mask lParam iSubItem = Shown cell)) /\
  (Z.land mask LVIF_TEXT <> 0 ->
   2 <= iSubItem <= 4 ->
   exists how value,
     displayInfo w header mask lParam iSubItem = Shown (IntCell how value) /\
     value = (if iSubItem =? 2 then VKey (unpack lParam)
              else if iSubItem =? 3 then MakeCode (unpack lParam)
              else Flags (unpack lParam)) /\
     0 <= value < 256 /\
     (how = FmtHex04 \/ how = FmtBin010 \/ how = FmtPlain)).
Proof.
  subst displayInfo. split.
  - intros Hscan Hvkey.
    destruct (lookupKeyCode_fallback w (unpack lParam) Hscan) as [ks Hks].
    destruct (lookupVirtualKey_fallback w (unpack lParam) Hvkey) as [vs Hvs].
    unfold getListViewItemDisplayInfo. rewrite Hks, Hvs. split.
    + split_ifs; discriminate.
    + intros Hmask Hsub. rewrite (proj2 (Z.eqb_neq _ _) Hmask).
      assert (Hc : iSubItem = 0 \/ iSubItem = 1 \/ iSubItem = 2 \/ iSubItem = 3 \/
                   iSubItem = 4 \/ iSubItem = 6) by lia.
      destruct Hc as [-> | [-> | [-> | [-> | [-> | ->]]]]]; cbn [Z.eqb Pos.eqb]; eauto.
  - intros Hmask Hsub. unfold getListViewItemDisplayInfo.
    rewrite (proj2 (Z.eqb_neq _ _) Hmask).
    destruct (unpack_fields_byte lParam) as (Bm & Bf & Bv).
    unfold Int.is_byte in *. change (2 ^ 8) with 256 in *.
    assert (Hc : iSubItem = 2 \/ iSubItem = 3 \/ iSubItem = 4) by lia.
    destruct Hc as [-> | [-> | ->]]; cbn [Z.eqb Pos.eqb];
      match goal with
      | |- context [formatIntegral _ _ ?from ?format 0] =>
          destruct (formatIntegral_version_0 from format) as [-> | [-> | ->]]
      end; eauto 10.
Qed.

Lemma getDisplayFormat_range (column : Z) (header : list Z) :
  Z.land (Header.getDisplayFormat column header) 0xffff =
  Header.getDisplayFormat column header.
Proof.
  unfold Header.getDisplayFormat, Header.getHeaderUserData, Header.HIWORD.
  destruct ((Int.LOWORD (Header.item_lParam column header) =? 0)
            || (Z.land (Z.shiftr (Header.item_lParam column header) 16) 0xffff =? 0));
    [reflexivity |].
  rewrite <- Z.land_assoc. reflexivity.
Qed.

(** X28: the key code sub-item 6.  When the lookup finds a row, the key code
    of the row is shown: in the hex format with three digits when it is
    positive and as "not available" when it is zero or negative; in every
    other format, the binary one included, as a plain number. *)
Theorem X28_key_code_column (w : MainWindow) (header : list Z)
    (mask lParam : Z) (it : Z * KeyCodes) :
  0 <= IDC_POPUP_HEX < 2 ^ 16 ->
  Z.land mask LVIF_TEXT <> 0 ->
  lookupKeyCode w (unpack lParam) = Some it ->
  let format := Header.getDisplayFormat 6 header in
  displayInfo w header mask lParam 6 =
    Shown (IntCell
             (if format =? IDC_POPUP_HEX
              then if 0 <? keyCode it.2 then FmtHex05 else FmtNotAvailable
              else FmtPlain)
             (keyCode it.2)).
Proof.
  intros Hhex Hmask Hit format. subst displayInfo.
  unfold getListViewItemDisplayInfo.
  rewrite (proj2 (Z.eqb_neq _ _) Hmask), Hit. cbn [Z.eqb Pos.eqb]. fold format.
  assert (Hfmt : Z.land format 0xffff = format) by apply getDisplayFormat_range.
  assert (Hh : Z.land IDC_POPUP_HEX 0xffff = IDC_POPUP_HEX).
  { change 0xffff with (Z.ones 16). rewrite Z.land_ones by lia.
    apply Z.mod_small, Hhex. }
  assert (Hne : forall v v', v <> v' ->
            Header.MAKELONG format v = Header.MAKELONG IDC_POPUP_HEX v' ->
            Z.land v 0xffff <> Z.land v' 0xffff -> False).
  { intros v v' _ E Hd. apply Hd.
    apply (f_equal Header.HIWORD) in E. rewrite !HIWORD_MAKELONG in E. exact E. }
  unfold formatIntegral. cbv zeta. do 3 f_equal.
  destruct (Z.eqb_spec format IDC_POPUP_HEX) as [Ef | Ef].
  - rewrite Ef. destruct (0 <? keyCode it.2).
    + destruct (Z.eqb_spec (Header.MAKELONG IDC_POPUP_HEX 1) (Header.MAKELONG IDC_POPUP_HEX 0))
        as [E | _].
      { exfalso. apply (Hne 1 0); [lia | rewrite Ef; exact E | discriminate]. }
      rewrite Z.eqb_refl. reflexivity.
    + destruct (Z.eqb_spec (Header.MAKELONG IDC_POPUP_HEX 2) (Header.MAKELONG IDC_POPUP_HEX 0))
        as [E | _].
      { exfalso. apply (Hne 2 0); [lia | rewrite Ef; exact E | discriminate]. }
      destruct (Z.eqb_spec (Header.MAKELONG IDC_POPUP_HEX 2) (Header.MAKELONG IDC_POPUP_HEX 1))
        as [E | _].
      { exfalso. apply (Hne 2 1); [lia | rewrite Ef; exact E | discriminate]. }
      rewrite Z.eqb_refl. reflexivity.
  - assert (Hx : forall v v', Header.MAKELONG format v <> Header.MAKELONG IDC_POPUP_HEX v').
    { intros v v' E. apply Ef. rewrite <- Hfmt, <- Hh.
      apply (f_equal Int.LOWORD) in E. rewrite !LOWORD_MAKELONG in E. exact E. }
    destruct (0 <? keyCode it.2).
    + rewrite !(proj2 (Z.eqb_neq _ _) (Hx _ _)).
      destruct (Z.eqb_spec (Header.MAKELONG format 1) (Header.MAKELONG IDC_POPUP_BIN 0))
        as [E | _]; [| reflexivity].
      apply (f_equal Header.HIWORD) in E. rewrite !HIWORD_MAKELONG in E. discriminate E.
    + rewrite !(proj2 (Z.eqb_neq _ _) (Hx _ _)).
      destruct (Z.eqb_spec (Header.MAKELONG format 2) (Header.MAKELONG IDC_POPUP_BIN 0))
        as [E | _]; [| reflexivity].
      apply (f_equal Header.HIWORD) in E. rewrite !HIWORD_MAKELONG in E. discriminate E.
Qed.

End DisplayFacts.

(** ** The path buffer loop (RawInputViewer.cpp, lines 1082-1098) *)

Section ModulePathFacts.

Variable GetModuleFileNameW : Z -> Z.

Lemma modulePathLoop_more_fuel (fuel extra : nat) (elements : Z)
    (r : option (Z * Z)) :
  modulePathLoop GetModuleFileNameW fuel elements = Some r ->
  modulePathLoop GetModuleFileNameW (fuel + extra) elements = Some r.
Proof.
  revert elements. induction fuel as [|fuel IH]; intros elements H; [discriminate H |].
  cbn [Nat.add modulePathLoop] in *.
  destruct ((Int.to_uint32 (GetModuleFileNameW (Int.to_uint32 elements)) =? 0)
            || (Int.USHORT_MAX <? elements)); [exact H |].
  destruct (elements - 1 <=? Int.to_uint32 (GetModuleFileNameW (Int.to_uint32 elements)));
    [apply IH, H | exact H].
Qed.

Lemma modulePathLoop_result (fuel : nat) (elements e c : Z) :
  0 < elements ->
  modulePathLoop GetModuleFileNameW fuel elements = Some (Some (e, c)) ->
  elements <= e <= Int.USHORT_MAX /\ 0 < c < e - 1.
Proof.
  revert elements. induction fuel as [|fuel IH]; intros elements Hpos H;
    [discriminate H |].
  cbn [modulePathLoop] in H.
  set (copied := Int.to_uint32 (GetModuleFileNameW (Int.to_uint32 elements))) in *.
  assert (Hc : 0 <= copied) by (apply Z.mod_pos_bound; lia).
  destruct (Z.eqb_spec copied 0) as [|Hz]; [discriminate H |].
  destruct (Z.ltb_spec Int.USHORT_MAX elements) as [|Hu]; [discriminate H |].
  cbn [orb] in H. destruct (Z.leb_spec (elements - 1) copied) as [Hl | Hl].
  - apply IH in H; [| lia]. lia.
  - injection H as <- <-. lia.
Qed.

Lemma modulePathLoop_ends (doublings : nat) (elements : Z) :
  Int.USHORT_MAX < elements * 2 ^ Z.of_nat doublings ->
  exists r, modulePathLoop GetModuleFileNameW (S doublings) elements = Some r.
Proof.
  revert elements. induction doublings as [|n IH]; intros elements H.
  - cbn [modulePathLoop]. change (2 ^ Z.of_nat 0) with 1 in H.
    rewrite (proj2 (Z.ltb_lt Int.USHORT_MAX elements)) by lia.
    rewrite orb_true_r. eauto.
  - cbn [modulePathLoop].
    destruct ((Int.to_uint32 (GetModuleFileNameW (Int.to_uint32 elements)) =? 0)
              || (Int.USHORT_MAX <? elements)); [eauto |].
    destruct (elements - 1 <=? Int.to_uint32 (GetModuleFileNameW (Int.to_uint32 elements)));
      [| eauto].
    apply IH. rewrite Nat2Z.inj_succ, Z.pow_succ_r in H by lia. lia.
Qed.

(** X29: the path buffer loop ends.  Whatever GetModuleFileNameW answers,
    starting from MAX_PATH elements the loop is left after at most nine
    calls, and more fuel changes nothing.  When it is left with a path, the
    buffer has at most 65535 elements and the path is not empty and leaves
    room for more than the terminating zero, so it was not cut. *)
Theorem X29_module_path_loop_ends :
  (exists r, modulePathLoop GetModuleFileNameW 9 MAX_PATH = Some r /\
     forall extra : nat,
       modulePathLoop GetModuleFileNameW (9 + extra) MAX_PATH = Some r) /\
  (forall (fuel : nat) (e c : Z),
     modulePathLoop GetModuleFileNameW fuel MAX_PATH = Some (Some (e, c)) ->
     MAX_PATH <= e <= 65535 /\ 0 < c < e - 1).
Proof.
  split.
  - destruct (modulePathLoop_ends 8 MAX_PATH) as [r Hr]; [vm_compute; reflexivity |].
    exists r. split; [exact Hr |].
    intros extra. apply modulePathLoop_more_fuel, Hr.
  - intros fuel e c H. apply modulePathLoop_result in H; [| reflexivity].
    unfold MAX_PATH, Int.USHORT_MAX in *. lia.
Qed.

End ModulePathFacts.

(** ** The saved toolbar states (RawInputViewer.cpp, lines 469-472,
    1296-1300) *)

(** X30: the states of the three check buttons survive a restart: the
    value that onClose saves gives the same three states back in the
    constructor, and only its three low bits matter there. *)
Theorem X30_toolbar_states_round_trip (adjustment noHotkeys noLegacy : bool)
    (states : ToolBarButtonStates.t) :
  ToolBarButtonStates.restored
    (ToolBarButtonStates.saved adjustment noHotkeys noLegacy) =
    (adjustment, noHotkeys, noLegacy) /\
  ToolBarButtonStates.restored (Z.land states 7) =
    ToolBarButtonStates.restored states.
Proof.
  split.
  - destruct adjustment, noHotkeys, noLegacy; reflexivity.
  - unfold ToolBarButtonStates.restored, ToolBarButtonStates.and.
    rewrite <- !Z.land_assoc. reflexivity.
Qed.

(** ** The further properties at sample inputs *)

Lemma X5_whitespace_ignored_witness :
  Forall (fun c => Text.isWhitespace c = true) (list_ascii_of_string CR) /\
  Text.splitAndTrimTrailing ("1E=4,KEY_A,A,GLFW_A" ++ CR) "010" =
    Text.splitAndTrimTrailing "1E=4,KEY_A,A,GLFW_A" "010" /\
  Text.splitAndTrimTrailing
    (("1E=4,KEY_A,A,GLFW_A" ++ CR) ++ String "010" "1F=22,KEY_S,S,GLFW_S") "010" =
    Text.splitAndTrimTrailing
      ("1E=4,KEY_A,A,GLFW_A" ++ String "010" "1F=22,KEY_S,S,GLFW_S") "010".
Proof.
  assert (H : Forall (fun c => Text.isWhitespace c = true) (list_ascii_of_string CR)).
  { constructor; [reflexivity | constructor]. }
  split; [exact H |].
  apply (X5_whitespace_ignored "1E=4,KEY_A,A,GLFW_A" CR "1F=22,KEY_S,S,GLFW_S" "010" H).
Defined.

Lemma X10_first_malformed_line_is_fallback_witness :
  Text.splitAndTrimTrailing scan_text_malformed "010" =
    ["zz=1,KEY_Z,Z,GLFW_Z"; "000=0,KEY_UNKNOWN,NULL,UNKNOWN"]%string /\
  scanCodeMapping_ (MainWindow_of ascii_units scan_text_malformed vkey_text_full)
    !! 0x000 = Some (scanCodeEntry ascii_units "zz=1,KEY_Z,Z,GLFW_Z").2 /\
  lookupKeyCode (MainWindow_of ascii_units scan_text_malformed vkey_text_full) key_B =
    Some (0x000, (scanCodeEntry ascii_units "zz=1,KEY_Z,Z,GLFW_Z").2).
Proof.
  split; [reflexivity |].
  destruct (X10_first_malformed_line_is_fallback ascii_units
              scan_text_malformed vkey_text_full "z" "z=1,KEY_Z,Z,GLFW_Z"
              ["000=0,KEY_UNKNOWN,NULL,UNKNOWN"%string] key_B)
    as [Hrow Hmiss];
    [reflexivity | reflexivity | discriminate | discriminate | | ].
  - intros d Hd. vm_compute in Hd. injection Hd as <-. lia.
  - split; [exact Hrow |]. apply Hmiss. reflexivity.
Defined.

Lemma X11_pack_unpack_witness :
  - 2 ^ 31 <= -2143223266 < 2 ^ 31 /\ pack (unpack (-2143223266)) = -2143223266.
Proof.
  assert (H : - 2 ^ 31 <= -2143223266 < 2 ^ 31) by (vm_compute; split; congruence).
  split; [exact H |]. apply (X11_pack_unpack (-2143223266) H).
Defined.

Lemma X16_state_dependence_witness :
  ScanCodeSequence_eqb (pendingSequence_ window0) SeqE1 =
    ScanCodeSequence_eqb (pendingSequence_ (set_pendingSequence SeqE0 window_full)) SeqE1 /\
  (normalize no_translation window0 numlock_down).1 =
    (normalize no_translation (set_pendingSequence SeqE0 window_full) numlock_down).1.
Proof.
  split; [reflexivity |].
  apply (X16_state_dependence no_translation window0
           (set_pendingSequence SeqE0 window_full) numlock_down).
  right. reflexivity.
Defined.

Lemma X17_flags_tell_changes_witness :
  normalize translate_rcontrol window0 rcontrol_without_code =
    (Some (mkRawKeyboard (mkRAWKEYBOARD 0xE01D 0 0 VK_RCONTROL 0x100 0)
             AdjustmentFlags.MakeCodeMapped true), window0) /\
  (AdjustmentFlags.has AdjustmentFlags.MakeCodeMapped AdjustmentFlags.MakeCodeMapped = true <->
     MakeCode rcontrol_without_code = 0).
Proof.
  split; [reflexivity |].
  apply (X17_flags_tell_changes translate_rcontrol window0 window0
           rcontrol_without_code _ eq_refl).
Defined.

Lemma X18_no_ambiguous_key_witness :
  normalize no_translation window0 (mkRAWKEYBOARD 0x2A 0 0 VK_SHIFT 0 0) =
    (Some (mkRawKeyboard (mkRAWKEYBOARD 0x2A 0 0 VK_LSHIFT 0 0)
             AdjustmentFlags.VirtualKeyAdjusted true), window0) /\
  (VK_LSHIFT = VK_SHIFT -> 0x2A <> 0x2A /\ 0x2A <> 0x36).
Proof.
  split; [reflexivity |].
  apply (X18_no_ambiguous_key no_translation window0 window0
           (mkRAWKEYBOARD 0x2A 0 0 VK_SHIFT 0 0) _ eq_refl).
Defined.

Lemma X19_shown_event_survives_packing_witness :
  normalize no_translation (set_pendingSequence SeqE1 window0) numlock_down =
    (Some pause_shown, window0) /\
  adjustments (unpack (pack pause_shown)) = adjustments pause_shown /\
  isKeyDown (unpack (pack pause_shown)) = isKeyDown pause_shown /\
  isKeyDown pause_shown = (Z.land (Flags numlock_down) RI_KEY_BREAK =? 0).
Proof.
  split; [reflexivity |].
  apply (X19_shown_event_survives_packing no_translation
           (set_pendingSequence SeqE1 window0) window0 numlock_down pause_shown eq_refl).
Defined.

Lemma X20_adjustment_off_witness :
  adjustmentChecked viewer_off = false /\
  onInputs no_translation
    (List.map RIM_TYPEKEYBOARD [overrun_with_E1; numlock_down]) viewer_off =
    mkViewer window_full false
      [item_of (RawKeyboard_of overrun_with_E1); item_of (RawKeyboard_of numlock_down)].
Proof.
  split; [reflexivity |].
  apply (X20_adjustment_off no_translation [overrun_with_E1; numlock_down] viewer_off).
  reflexivity.
Defined.

Lemma X21_icons_agree_witness :
  Forall icon_agrees (listItems viewer_on) /\
  Forall icon_agrees
    (listItems
       (onInputs no_translation
          [RIM_TYPEKEYBOARD pause_prefix; RIM_TYPEKEYBOARD numlock_down;
           RIM_TYPEMOUSE 0; RIM_TYPEKEYBOARD insert_down] viewer_on)).
Proof.
  assert (H : Forall icon_agrees (listItems viewer_on)) by constructor.
  split; [exact H |].
  apply (X21_icons_agree no_translation _ viewer_on H).
Defined.

Lemma X23_right_click_clears_witness :
  Z.land RI_MOUSE_RIGHT_BUTTON_UP RI_MOUSE_RIGHT_BUTTON_UP <> 0 /\
  pendingSequence_ (window viewer_after_E1) = SeqE1 /\
  listItems (onInput no_translation (RIM_TYPEMOUSE RI_MOUSE_RIGHT_BUTTON_UP)
               viewer_after_E1) = [] /\
  pendingSequence_
    (window (onInput no_translation (RIM_TYPEMOUSE RI_MOUSE_RIGHT_BUTTON_UP)
               viewer_after_E1)) = SeqNone.
Proof.
  assert (H : Z.land RI_MOUSE_RIGHT_BUTTON_UP RI_MOUSE_RIGHT_BUTTON_UP <> 0)
    by (vm_compute; discriminate).
  split; [exact H |]. split; [reflexivity |].
  destruct (X23_right_click_clears no_translation RI_MOUSE_RIGHT_BUTTON_UP
              numlock_down viewer_after_E1 H eq_refl eq_refl eq_refl eq_refl)
    as (Hitems & Hpending & _).
  split; [exact Hitems | exact Hpending].
Defined.

Lemma X24_bold_columns_witness :
  0 <= 1 <= 30 /\
  (customDrawSubItem (pack pause_shown) 1 = Some true <->
     (AdjustmentFlags.has (adjustments (unpack (pack pause_shown)))
        AdjustmentFlags.VirtualKeyAdjusted = true /\ (1 = 1 \/ 1 = 2)) \/
     (AdjustmentFlags.has (adjustments (unpack (pack pause_shown)))
        AdjustmentFlags.VirtualKeyAdjusted = false /\
      AdjustmentFlags.has (adjustments (unpack (pack pause_shown)))
        AdjustmentFlags.MakeCodeMapped = true /\ 1 = 3)).
Proof.
  assert (H : 0 <= 1 <= 30) by lia.
  split; [exact H |].
  apply (X24_bold_columns (pack pause_shown) 1 H).
Defined.

Lemma X25_pause_row_witness :
  adjustmentChecked viewer_on = true /\
  exists it : LVITEM,
    listItems
      (onInputs no_translation
         [RIM_TYPEKEYBOARD pause_prefix; RIM_TYPEKEYBOARD numlock_down] viewer_on) =
      listItems viewer_on ++ [it] /\
    VKey (unpack (item_lParam it)) = VK_PAUSE /\
    customDrawSubItem (item_lParam it) 1 = Some true /\
    customDrawSubItem (item_lParam it) 2 = Some true /\
    customDrawSubItem (item_lParam it) 3 = Some false.
Proof.
  split; [reflexivity |].
  apply (X25_pause_row no_translation pause_prefix numlock_down viewer_on);
    try reflexivity; vm_compute; discriminate.
Defined.

Lemma X28_key_code_column_witness :
  lookupKeyCode window_full (unpack (pack key_A)) =
    Some (0x1E, (scanCodeEntry ascii_units "01E=4,KEY_A,A,GLFW_A").2) /\
  getListViewItemDisplayInfo sample_IDC_POPUP_HEX sample_IDC_POPUP_BIN
    sample_IDC_POPUP_SML sample_IDC_POPUP_RAY sample_IDC_POPUP_GLFW
    window_full header_plain LVIF_TEXT (pack key_A) 6 =
    Shown (IntCell FmtPlain 4).
Proof.
  assert (Hit : lookupKeyCode window_full (unpack (pack key_A)) =
                Some (0x1E, (scanCodeEntry ascii_units "01E=4,KEY_A,A,GLFW_A").2))
    by reflexivity.
  split; [exact Hit |].
  assert (Hhex : 0 <= sample_IDC_POPUP_HEX < 2 ^ 16) by (vm_compute; split; congruence).
  assert (Hmask : Z.land LVIF_TEXT LVIF_TEXT <> 0) by (vm_compute; discriminate).
  exact (X28_key_code_column sample_IDC_POPUP_HEX sample_IDC_POPUP_BIN
           sample_IDC_POPUP_SML sample_IDC_POPUP_RAY sample_IDC_POPUP_GLFW
           window_full header_plain LVIF_TEXT (pack key_A)
           (0x1E, (scanCodeEntry ascii_units "01E=4,KEY_A,A,GLFW_A").2)
           Hhex Hmask Hit).
Defined.
